(** * The collection runner of [ui/routes/runner.tsx]

    A shallow embedding of the execution engine of the collection runner:
    the process-wide table [runnerExecutions] with its five operations, the
    redirect test applied to every candidate request, the per-iteration data
    binding [getCurIterationUserUploadData], and the action
    [runCollectionAction] with its iteration/request double loop and its
    [try]/[catch]/[finally].

    JavaScript strings are sequences of UTF-16 code units; they are kept as
    lists of code units so that [String.prototype.trim] can be given with the
    whole ECMAScript white-space table.  The external collaborators of the
    action (the step tracker behind [window.main], the request-meta model,
    the timer, the per-request executor [sendActionImp], the request
    canceller and the result store) are opaque to this file: every call to
    one of them is recorded, in order, in an effect log, and what they answer
    is read from an [Environment].  The action runs on one control flow; the
    only other code that touches [runnerExecutions] while it is suspended is
    the cancel button, which the [Environment] may press at every [await].
    Iteration counts, delays and indices are natural numbers.  Durations are
    JavaScript numbers, that is IEEE 754 binary64 values, and are added as
    JavaScript adds them. *)

From Stdlib Require Import ZArith Decimal.
From Stdlib Require Import Floats.PrimFloat.
From stdpp Require Import gmap list strings.

Open Scope Z_scope.
Open Scope nat_scope.

(** ** Strings *)

Abbreviation jsstring := (list N) (only parsing).

(** The code units of an ASCII literal. *)
Definition js (s : string) : jsstring :=
  Ascii.N_of_ascii <$> String.list_ascii_of_string s.

(** [WhiteSpace] and [LineTerminator] of ECMAScript, the code units that
    [trim] strips. *)
Definition isWhiteSpace (c : N) : bool :=
  ((9 <=? c) && (c <=? 13) || (c =? 32) || (c =? 160) || (c =? 5760)
   || (8192 <=? c) && (c <=? 8202) || (c =? 8232) || (c =? 8233)
   || (c =? 8239) || (c =? 8287) || (c =? 12288) || (c =? 65279))%N.

Fixpoint trimStart (s : jsstring) : jsstring :=
  match s with
  | c :: s' => if isWhiteSpace c then trimStart s' else s
  | [] => []
  end.

Definition trimEnd (s : jsstring) : jsstring :=
  reverse (trimStart (reverse s)).

Definition trim (s : jsstring) : jsstring := trimStart (trimEnd s).

(** Decimal rendering of a non-negative integer inside a template literal. *)
Fixpoint digits (u : Decimal.uint) : jsstring :=
  match u with
  | Nil => []
  | D0 u => 48%N :: digits u
  | D1 u => 49%N :: digits u
  | D2 u => 50%N :: digits u
  | D3 u => 51%N :: digits u
  | D4 u => 52%N :: digits u
  | D5 u => 53%N :: digits u
  | D6 u => 54%N :: digits u
  | D7 u => 55%N :: digits u
  | D8 u => 56%N :: digits u
  | D9 u => 57%N :: digits u
  end.

Definition numberToString (n : nat) : jsstring := digits (Nat.to_uint n).

(** [Array.prototype.findLastIndex]: the greatest index whose element
    satisfies the predicate, [-1] when there is none. *)
Fixpoint findLastIndex {A} (p : A -> bool) (l : list A) : Z :=
  match l with
  | [] => (-1)%Z
  | x :: l' =>
      let k := findLastIndex p l' in
      if (0 <=? k)%Z then (k + 1)%Z else if p x then 0%Z else (-1)%Z
  end.

(** [encodeURIComponent].  The code units it copies: the ASCII letters and
    digits and the marks [-_.!~*'()]. *)
Definition isUnescaped (c : N) : bool :=
  ((65 <=? c) && (c <=? 90) || (97 <=? c) && (c <=? 122)
   || (48 <=? c) && (c <=? 57)
   || (c =? 45) || (c =? 95) || (c =? 46) || (c =? 33) || (c =? 126)
   || (c =? 42) || (c =? 39) || (c =? 40) || (c =? 41))%N.

Definition isLeadingSurrogate (c : N) : bool :=
  ((55296 <=? c) && (c <=? 56319))%N.

Definition isTrailingSurrogate (c : N) : bool :=
  ((56320 <=? c) && (c <=? 57343))%N.

(** The UTF-8 octets of a code point. *)
Definition utf8 (cp : N) : list N :=
  if (cp <? 128)%N then [cp]
  else if (cp <? 2048)%N then
    [N.lor 192 (N.shiftr cp 6); N.lor 128 (N.land cp 63)]
  else if (cp <? 65536)%N then
    [N.lor 224 (N.shiftr cp 12);
     N.lor 128 (N.land (N.shiftr cp 6) 63);
     N.lor 128 (N.land cp 63)]
  else
    [N.lor 240 (N.shiftr cp 18);
     N.lor 128 (N.land (N.shiftr cp 12) 63);
     N.lor 128 (N.land (N.shiftr cp 6) 63);
     N.lor 128 (N.land cp 63)].

Definition hexDigit (n : N) : N :=
  if (n <? 10)%N then (48 + n)%N else (55 + n)%N.

(** An octet as [%XX], in upper-case hexadecimal. *)
Definition percentOctet (octet : N) : jsstring :=
  [37%N; hexDigit (N.shiftr octet 4); hexDigit (N.land octet 15)].

(** The string is read code point by code point: a leading surrogate takes
    the trailing surrogate that follows it.  [None] is the [URIError] thrown
    for a surrogate without its partner. *)
Fixpoint encodeURIComponent (s : jsstring) : option jsstring :=
  match s with
  | [] => Some []
  | c :: rest =>
      if isUnescaped c then cons c <$> encodeURIComponent rest
      else if isTrailingSurrogate c then None
      else if isLeadingSurrogate c then
        match rest with
        | d :: rest' =>
            if isTrailingSurrogate d then
              let cp := ((c - 55296) * 1024 + (d - 56320) + 65536)%N in
              app (flat_map percentOctet (utf8 cp))
                <$> encodeURIComponent rest'
            else None
        | [] => None
        end
      else app (flat_map percentOctet (utf8 c)) <$> encodeURIComponent rest
  end.

(** [String.prototype.isWellFormed]: no surrogate without its partner. *)
Fixpoint isWellFormed (s : jsstring) : bool :=
  match s with
  | [] => true
  | c :: rest =>
      if isTrailingSurrogate c then false
      else if isLeadingSurrogate c then
        match rest with
        | d :: rest' => isTrailingSurrogate d && isWellFormed rest'
        | [] => false
        end
      else isWellFormed rest
  end.

(** ** Data model *)

(** The entries of [requests] in the submitted JSON, read through the local
    interface [RequestType]. *)
Record RequestType := {
  name : jsstring;
  id : jsstring;
  url : jsstring;
}.

Inductive TestStatus := passed | failed | skipped.

(** [RequestTestResult] of the SDK; the runner only carries these around. *)
Record RequestTestResult := {
  testCase : jsstring;
  status : TestStatus;
}.

(** [UserUploadEnvironment]: one row of uploaded iteration data. *)
Record UserUploadEnvironment := {
  envName : jsstring;
  envData : list (jsstring * jsstring);
}.

Record RunnerResultPerRequest := {
  requestName : jsstring;
  requestUrl : jsstring;
  responseCode : Z;
  results : list RequestTestResult;
}.

Record ResponseInfo := {
  responseId : jsstring;
  originalRequestId : jsstring;
  originalRequestName : jsstring;
}.

(** The local [testCtx] of the action.  [userUploadEnvs] comes straight from
    the JSON body and need not be an array: [None] stands for any non-array
    value. *)
Record TestCtx := {
  ctx_source : jsstring;
  ctx_environmentId : jsstring;
  ctx_iterations : nat;
  ctx_iterationData : option (list UserUploadEnvironment);
  ctx_duration : float;
  ctx_testCount : Z;
  ctx_avgRespTime : Z;
  ctx_iterationResults : list (list RunnerResultPerRequest);
  ctx_done : bool;
  ctx_responsesInfo : list ResponseInfo;
}.

(** The document handed to [models.runnerTestResult.create]. *)
Record RunnerTestResultDoc := {
  doc_parentId : jsstring;
  doc_source : jsstring;
  doc_iterations : nat;
  doc_duration : float;
  doc_avgRespTime : Z;
  doc_iterationResults : list (list RunnerResultPerRequest);
  doc_responsesInfo : list ResponseInfo;
}.

(** The argument object of [sendActionImp]; the two constant flags and the
    collector (always passed fresh) are left out. *)
Record SendArgs := {
  send_requestId : jsstring;
  send_workspaceId : jsstring;
  send_iteration : nat;
  send_iterationCount : nat;
  send_userUploadEnv : option UserUploadEnvironment;
}.

(** Values that reach the [catch] clause.  A promise can be rejected with
    anything: [undefined], [null], a string (the runner's own 'Runner has
    been stopped'), an [Error] object with its [name] and [message] and no
    [error] property, or a plain object carrying a string in its [error]
    property, which is what [e.error || e] looks for. *)
Inductive Thrown :=
| ThrownUndefined
| ThrownNull
| ThrownString (s : jsstring)
| ThrownError (errorName message : jsstring)
| ThrownObject (error : jsstring).

(** The errors of the engine that the action can meet, with the messages V8
    gives them. *)
Definition TypeError (message : jsstring) : Thrown :=
  ThrownError (js "TypeError") message.

Definition URIError (message : jsstring) : Thrown :=
  ThrownError (js "URIError") message.

(** What the action resolves to:
    [redirect(`/organization/../project/../workspace/../debug/runner?refresh-pane`)],
    with [&error=${errMsg}] when [redirect_error] is present.  The response
    is kept with the parts of its location apart; [redirect_error] is
    [errMsg], the percent-encoded message, and [location] is the string
    given to [redirect]. *)
Record Redirect := {
  redirect_organizationId : jsstring;
  redirect_projectId : jsstring;
  redirect_workspaceId : jsstring;
  redirect_error : option jsstring;
}.

Definition location (response : Redirect) : jsstring :=
  js "/organization/" ++ redirect_organizationId response
  ++ js "/project/" ++ redirect_projectId response
  ++ js "/workspace/" ++ redirect_workspaceId response
  ++ js "/debug/runner?refresh-pane"
  ++ match redirect_error response with
     | Some errMsg => js "&error=" ++ errMsg
     | None => []
     end.

(** Calls to the external collaborators, in the order they are made. *)
Inductive Effect :=
| MainStartExecution (requestId : jsstring)
| MainAddExecutionStep (requestId stepName : jsstring)
| MainUpdateLatestStepName (requestId stepName : jsstring)
| MainCompleteExecutionStep (requestId : jsstring)
| CancelRequestById (requestId : jsstring)
| RequestMetaUpdateOrCreateByParentId (parentId : jsstring)
| SetTimeout (delay : nat)
| SendActionImp (args : SendArgs)
| RunnerTestResultCreate (doc : RunnerTestResultDoc).

(** The state the action runs in: its local [testCtx], the module-level map
    [runnerExecutions], and the effect log. *)
Record State := {
  testCtx : TestCtx;
  runnerExecutions : gmap jsstring jsstring;
  effects : list Effect;
}.

(** ** The environment *)

(** What [sendActionImp] does at one dispatch: it throws, or it resolves
    after filling the collector.  [out_next] is
    [mutatedContext?.execution?.nextRequestIdOrName], [None] when the chain
    ends in [undefined]. *)
Inductive SendOutcome :=
| SendThrows (e : Thrown)
| SendReturns (out_next : option jsstring) (out_results : list RequestTestResult)
              (out_duration : float) (out_responseId : jsstring).

(** The points where the action is suspended and other code may run. *)
Inductive AwaitPoint :=
| AwaitRequestMeta (i j : nat)
| AwaitDelay (i j : nat)
| AwaitSend (i j : nat)
| AwaitCreate.

(** A dispatch is identified by its iteration [i] and its index [j] in the
    request list.  [cancelClicks] lists the workspace ids on which the cancel
    button fires ([cancelExecution]) while the action waits. *)
Record Environment := {
  requestMetaFound : nat -> nat -> bool;
  sendOutcome : nat -> nat -> SendOutcome;
  cancelClicks : AwaitPoint -> list jsstring;
}.

(** ** A state monad with exceptions *)

Inductive Completion (A : Type) :=
| Normal (a : A)
| Throw (e : Thrown).
Arguments Normal {A} a.
Arguments Throw {A} e.

Definition M (A : Type) : Type := State -> Completion A * State.

#[global] Instance M_ret : MRet M := fun A a s => (Normal a, s).

#[global] Instance M_bind : MBind M := fun A B f m s =>
  match m s with
  | (Normal a, s') => f a s'
  | (Throw e, s') => (Throw e, s')
  end.

Definition throw {A} (e : Thrown) : M A := fun s => (Throw e, s).

(** A computation that does not touch the state. *)
Definition lift {A} (c : Completion A) : M A := fun s => (c, s).

(** [try { body } catch (e) { handler e } finally { finalizer }]: the
    finalizer runs whatever happened before it, and an exception of its own
    replaces the completion of the [try]/[catch]. *)
Definition tryCatchFinally {A} (body : M A) (handler : Thrown -> M A)
    (finalizer : M unit) : M A := fun s =>
  let '(c, s1) :=
    match body s with
    | (Normal a, s1) => (Normal a, s1)
    | (Throw e, s1) => handler e s1
    end in
  match finalizer s1 with
  | (Normal _, s2) => (c, s2)
  | (Throw e, s2) => (Throw e, s2)
  end.

Definition emit (ev : Effect) : M unit := fun s =>
  (Normal (),
   {| testCtx := testCtx s; runnerExecutions := runnerExecutions s;
      effects := effects s ++ [ev] |}).

Definition getTestCtx : M TestCtx := fun s => (Normal (testCtx s), s).

Definition setTestCtx (c : TestCtx) : M unit := fun s =>
  (Normal (),
   {| testCtx := c; runnerExecutions := runnerExecutions s;
      effects := effects s |}).

Definition setRunnerExecutions (m : gmap jsstring jsstring) : M unit := fun s =>
  (Normal (),
   {| testCtx := testCtx s; runnerExecutions := m; effects := effects s |}).

Fixpoint forEach {A} (f : A -> M unit) (l : list A) : M unit :=
  match l with
  | [] => mret ()
  | x :: l' => f x;; forEach f l'
  end.

(** ** The execution registry *)

Definition startExecution (workspaceId : jsstring) : M unit := fun s =>
  setRunnerExecutions (<[workspaceId := []]> (runnerExecutions s)) s.

Definition stopExecution (workspaceId : jsstring) : M unit := fun s =>
  setRunnerExecutions (delete workspaceId (runnerExecutions s)) s.

Definition updateExecution (workspaceId requestId : jsstring) : M unit := fun s =>
  setRunnerExecutions (<[workspaceId := requestId]> (runnerExecutions s)) s.

Definition getExecution (workspaceId : jsstring) : M (option jsstring) := fun s =>
  (Normal (runnerExecutions s !! workspaceId), s).

(** [if (activeRequest)]: [undefined] and the empty string are falsy. *)
Definition truthy (v : option jsstring) : bool :=
  match v with
  | Some (_ :: _) => true
  | _ => false
  end.

Definition cancelExecution (workspaceId : jsstring) : M unit :=
  activeRequest ← getExecution workspaceId;
  if truthy activeRequest then
    emit (CancelRequestById (default [] activeRequest));;
    emit (MainUpdateLatestStepName workspaceId (js "Done"));;
    emit (MainCompleteExecutionStep workspaceId);;
    stopExecution workspaceId
  else mret ().

(** ** The redirect test *)

(** The condition under which a pending [nextRequestIdOrName] lets the
    candidate [targetRequest = requests[j]] run. *)
Definition redirectMatches (requests : list RequestType) (j : nat)
    (targetRequest : RequestType) (nextRequestIdOrName : jsstring) : bool :=
  bool_decide (id targetRequest = nextRequestIdOrName)
  || (bool_decide (trim (name targetRequest) = trim nextRequestIdOrName)
      && bool_decide
           (Z.of_nat j =
            findLastIndex
              (fun req => bool_decide (trim (name req) = trim nextRequestIdOrName))
              requests)).

(** The [if (nextRequestIdOrName !== '') { .. } ] block at the head of the
    request loop: [None] is the [continue], [Some v] lets the body go on with
    [nextRequestIdOrName = v]. *)
Definition redirectGate (requests : list RequestType) (j : nat)
    (targetRequest : RequestType) (nextRequestIdOrName : jsstring)
    : option jsstring :=
  if bool_decide (nextRequestIdOrName <> []) then
    if redirectMatches requests j targetRequest nextRequestIdOrName
    then Some []
    else None
  else Some nextRequestIdOrName.

(** ** Per-iteration data *)

Definition getCurIterationUserUploadData
    (userUploadEnvs : option (list UserUploadEnvironment)) (curIteration : nat)
    : option UserUploadEnvironment :=
  match userUploadEnvs with
  | Some envs =>
      if 0 <? length envs then
        let uploadDataLength := length envs in
        if curIteration + 1 <=? uploadDataLength then envs !! curIteration
        else envs !! ((curIteration + 1) mod uploadDataLength)
      else None
  | None => None
  end.

(** ** The action *)

(** Modelled from the spec: [utils/invariant] is not among the sources; a
    failed precondition is a failure of the run, raised as an [Error]
    carrying the message. *)
Definition invariant (condition : bool) (message : jsstring) : M unit :=
  if condition then mret () else throw (ThrownError (js "Error") message).

(** [Error.prototype.toString]: the name and the message joined by a colon,
    or the one of the two that is not empty. *)
Definition errorToString (errorName message : jsstring) : jsstring :=
  match errorName, message with
  | [], _ => message
  | _, [] => errorName
  | _, _ => errorName ++ js ": " ++ message
  end.

(** [e.error || e], converted to a string as [encodeURIComponent] does with
    its argument.  Reading a property of [undefined] or [null] throws; a
    string and an [Error] have no [error] property, and an empty [error]
    is falsy, so that the object itself is the operand. *)
Definition errorOperand (e : Thrown) : Completion jsstring :=
  match e with
  | ThrownUndefined =>
      Throw (TypeError
               (js "Cannot read properties of undefined (reading 'error')"))
  | ThrownNull =>
      Throw (TypeError (js "Cannot read properties of null (reading 'error')"))
  | ThrownString s => Normal s
  | ThrownError errorName message => Normal (errorToString errorName message)
  | ThrownObject (c :: r) => Normal (c :: r)
  | ThrownObject [] => Normal (js "[object Object]")
  end.

(** [encodeURIComponent(e.error || e)], the [errMsg] of the [catch] clause. *)
Definition errMsgOf (e : Thrown) : Completion jsstring :=
  match errorOperand e with
  | Normal operand =>
      match encodeURIComponent operand with
      | Some errMsg => Normal errMsg
      | None => Throw (URIError (js "URI malformed"))
      end
  | Throw e' => Throw e'
  end.

Section Action.
Context (env : Environment).
Context (organizationId projectId workspaceId : jsstring).
Context (requests : list RequestType) (iterations delay : nat).
Context (userUploadEnvs : option (list UserUploadEnvironment)).

(** While the action is suspended, the cancel button may fire. *)
Definition await (p : AwaitPoint) : M unit :=
  forEach cancelExecution (cancelClicks env p).

Definition stepName (i j : nat) (targetRequest : RequestType) : jsstring :=
  js "Iteration " ++ numberToString (i + 1) ++ js " - Executing "
  ++ numberToString (j + 1) ++ js " of " ++ numberToString (length requests)
  ++ js " requests - " ++ [34%N] ++ name targetRequest ++ [34%N].

Definition requestMetaUpdateOrCreateByParentId (i j : nat)
    (parentId : jsstring) : M bool :=
  emit (RequestMetaUpdateOrCreateByParentId parentId);;
  await (AwaitRequestMeta i j);;
  mret (requestMetaFound env i j).

Definition setTimeout (i j : nat) : M unit :=
  emit (SetTimeout delay);;
  await (AwaitDelay i j).

Definition sendActionImp (i j : nat) (args : SendArgs)
    : M (option jsstring * list RequestTestResult * float * jsstring) :=
  emit (SendActionImp args);;
  await (AwaitSend i j);;
  match sendOutcome env i j with
  | SendThrows e => throw e
  | SendReturns next res dur rid => mret (next, res, dur, rid)
  end.

(** The body of the request loop after the liveness check and the redirect
    block, from [updateExecution] to the replacement of [testCtx]. *)
Definition dispatch (i j : nat) (targetRequest : RequestType)
    (nextRequestIdOrName : jsstring)
    (iterationResults : list RunnerResultPerRequest)
    : M (jsstring * list RunnerResultPerRequest) :=
  updateExecution workspaceId (id targetRequest);;
  emit (MainUpdateLatestStepName workspaceId (stepName i j targetRequest));;
  activeRequestMeta ← requestMetaUpdateOrCreateByParentId i j (id targetRequest);
  invariant activeRequestMeta (js "Request meta not found");;
  setTimeout i j;;
  '(mutatedNext, collectedResults, collectedDuration, collectedResponseId) ←
    sendActionImp i j
      {| send_requestId := id targetRequest;
         send_workspaceId := workspaceId;
         send_iteration := i + 1;
         send_iterationCount := iterations;
         send_userUploadEnv := getCurIterationUserUploadData userUploadEnvs i |};
  let nextRequestIdOrName :=
    if truthy mutatedNext then default [] mutatedNext
    else nextRequestIdOrName in
  let requestResults :=
    {| requestName := name targetRequest;
       requestUrl := url targetRequest;
       responseCode := 0;
       results := collectedResults |} in
  let iterationResults := iterationResults ++ [requestResults] in
  testCtx ← getTestCtx;
  setTestCtx
    {| ctx_source := ctx_source testCtx;
       ctx_environmentId := ctx_environmentId testCtx;
       ctx_iterations := ctx_iterations testCtx;
       ctx_iterationData := ctx_iterationData testCtx;
       ctx_duration := (ctx_duration testCtx + collectedDuration)%float;
       ctx_testCount := ctx_testCount testCtx;
       ctx_avgRespTime := ctx_avgRespTime testCtx;
       ctx_iterationResults := ctx_iterationResults testCtx;
       ctx_done := ctx_done testCtx;
       ctx_responsesInfo :=
         ctx_responsesInfo testCtx ++
         [ {| responseId := collectedResponseId;
              originalRequestId := id targetRequest;
              originalRequestName := name targetRequest |} ] |};;
  mret (nextRequestIdOrName, iterationResults).

(** One turn of [for (let j = 0; j < requests.length; j++)], on the two
    locals of the iteration. *)
Definition requestBody (i j : nat) (targetRequest : RequestType)
    (locals : jsstring * list RunnerResultPerRequest)
    : M (jsstring * list RunnerResultPerRequest) :=
  let '(nextRequestIdOrName, iterationResults) := locals in
  execution ← getExecution workspaceId;
  match execution with
  | None => throw (ThrownString (js "Runner has been stopped"))
  | Some _ =>
      match redirectGate requests j targetRequest nextRequestIdOrName with
      | None => mret (nextRequestIdOrName, iterationResults)
      | Some nextRequestIdOrName =>
          dispatch i j targetRequest nextRequestIdOrName iterationResults
      end
  end.

(** The request loop from index [j] on; [rest] is [requests] from [j]. *)
Fixpoint forRequests (i j : nat) (rest : list RequestType)
    (locals : jsstring * list RunnerResultPerRequest)
    : M (jsstring * list RunnerResultPerRequest) :=
  match rest with
  | [] => mret locals
  | targetRequest :: rest =>
      locals ← requestBody i j targetRequest locals;
      forRequests i (S j) rest locals
  end.

(** One turn of [for (let i = 0; i < iterations; i++)]. *)
Definition iterationBody (i : nat) : M unit :=
  '(_, iterationResults) ← forRequests i 0 requests ([], []);
  testCtx ← getTestCtx;
  setTestCtx
    {| ctx_source := ctx_source testCtx;
       ctx_environmentId := ctx_environmentId testCtx;
       ctx_iterations := ctx_iterations testCtx;
       ctx_iterationData := ctx_iterationData testCtx;
       ctx_duration := ctx_duration testCtx;
       ctx_testCount := ctx_testCount testCtx;
       ctx_avgRespTime := ctx_avgRespTime testCtx;
       ctx_iterationResults := ctx_iterationResults testCtx ++ [iterationResults];
       ctx_done := ctx_done testCtx;
       ctx_responsesInfo := ctx_responsesInfo testCtx |}.

(** The iteration loop from [i] on, with [count] turns left. *)
Fixpoint forIterations (count i : nat) : M unit :=
  match count with
  | 0 => mret ()
  | S count => iterationBody i;; forIterations count (S i)
  end.

Definition initialTestCtx : TestCtx :=
  {| ctx_source := js "runner";
     ctx_environmentId := [];
     ctx_iterations := iterations;
     ctx_iterationData := userUploadEnvs;
     ctx_duration := 1%float;
     ctx_testCount := 0;
     ctx_avgRespTime := 0;
     ctx_iterationResults := [];
     ctx_done := false;
     ctx_responsesInfo := [] |}.

Definition docOfTestCtx (testCtx : TestCtx) : RunnerTestResultDoc :=
  {| doc_parentId := workspaceId;
     doc_source := ctx_source testCtx;
     doc_iterations := ctx_iterations testCtx;
     doc_duration := ctx_duration testCtx;
     doc_avgRespTime := ctx_avgRespTime testCtx;
     doc_iterationResults := ctx_iterationResults testCtx;
     doc_responsesInfo := ctx_responsesInfo testCtx |}.

Definition runnerTestResultCreate (doc : RunnerTestResultDoc) : M unit :=
  emit (RunnerTestResultCreate doc);;
  await AwaitCreate.

Definition redirect (error : option jsstring) : Redirect :=
  {| redirect_organizationId := organizationId;
     redirect_projectId := projectId;
     redirect_workspaceId := workspaceId;
     redirect_error := error |}.

(** The [try] block: it falls through ([None]) to the [return] that follows
    the statement. *)
Definition tryBlock : M (option Redirect) :=
  forIterations iterations 0;;
  emit (MainUpdateLatestStepName workspaceId (js "Done"));;
  emit (MainCompleteExecutionStep workspaceId);;
  mret None.

(** The [catch] clause.  Building [errMsg] can throw in its turn; the
    exception then leaves the clause, and the action once the [finally]
    block has run. *)
Definition catchBlock (e : Thrown) : M (option Redirect) :=
  cancelExecution workspaceId;;
  errMsg ← lift (errMsgOf e);
  mret (Some (redirect (Some errMsg))).

Definition finallyBlock : M unit :=
  testCtx ← getTestCtx;
  runnerTestResultCreate (docOfTestCtx testCtx).

(** The action, from the declaration of [testCtx] on: the three route
    parameters are present and the JSON body has been read into [requests],
    [iterations], [delay] and [userUploadEnvs]. *)
Definition runCollectionAction : M Redirect :=
  setTestCtx initialTestCtx;;
  emit (MainStartExecution workspaceId);;
  emit (MainAddExecutionStep workspaceId (js "Initializing"));;
  startExecution workspaceId;;
  returned ← tryCatchFinally tryBlock catchBlock finallyBlock;
  match returned with
  | Some response => mret response
  | None => mret (redirect None)
  end.

End Action.

(** ** Observations on the effect log *)

(** The documents written to the result store, oldest first. *)
Definition created (effs : list Effect) : list RunnerTestResultDoc :=
  omap (fun ev => match ev with RunnerTestResultCreate d => Some d | _ => None end) effs.

(** The request ids handed to the executor, oldest first. *)
Definition sentIds (effs : list Effect) : list jsstring :=
  omap (fun ev => match ev with SendActionImp a => Some (send_requestId a) | _ => None end) effs.

(** What the runner stores for a request whose dispatch resolved. *)
Definition resultOf (env : Environment) (i j : nat) (r : RequestType)
    : RunnerResultPerRequest :=
  {| requestName := name r;
     requestUrl := url r;
     responseCode := 0;
     results :=
       match sendOutcome env i j with
       | SendReturns _ res _ _ => res
       | SendThrows _ => []
       end |}.

(** ** Execution prefixes *)

Section Prefixes.
Context (env : Environment).
Context (workspaceId : jsstring).
Context (requests : list RequestType) (iterations delay : nat).
Context (userUploadEnvs : option (list UserUploadEnvironment)).

(** The action from its first statement to the head of iteration [i]. *)
Definition reachIteration (i : nat) : M unit :=
  setTestCtx (initialTestCtx iterations userUploadEnvs);;
  emit (MainStartExecution workspaceId);;
  emit (MainAddExecutionStep workspaceId (js "Initializing"));;
  startExecution workspaceId;;
  forIterations env workspaceId requests iterations delay userUploadEnvs i 0.

(** Iteration [i] from its first statement to the liveness check of the
    request at index [j]. *)
Definition reachRequest (i j : nat)
    : M (jsstring * list RunnerResultPerRequest) :=
  forRequests env workspaceId requests iterations delay userUploadEnvs
    i 0 (take j requests) ([], []).
End Prefixes.

(** ** Vocabulary of the statements *)

(** [{...testCtx, duration: .., responsesInfo: [...testCtx.responsesInfo, info]}] *)
Definition withResponse (c : TestCtx) (collectedDuration : float)
    (info : ResponseInfo) : TestCtx :=
  {| ctx_source := ctx_source c;
     ctx_environmentId := ctx_environmentId c;
     ctx_iterations := ctx_iterations c;
     ctx_iterationData := ctx_iterationData c;
     ctx_duration := (ctx_duration c + collectedDuration)%float;
     ctx_testCount := ctx_testCount c;
     ctx_avgRespTime := ctx_avgRespTime c;
     ctx_iterationResults := ctx_iterationResults c;
     ctx_done := ctx_done c;
     ctx_responsesInfo := ctx_responsesInfo c ++ [info] |}.

(** [{...testCtx, iterationResults: [...testCtx.iterationResults, rs]}] *)
Definition withIteration (c : TestCtx) (rs : list RunnerResultPerRequest)
    : TestCtx :=
  {| ctx_source := ctx_source c;
     ctx_environmentId := ctx_environmentId c;
     ctx_iterations := ctx_iterations c;
     ctx_iterationData := ctx_iterationData c;
     ctx_duration := ctx_duration c;
     ctx_testCount := ctx_testCount c;
     ctx_avgRespTime := ctx_avgRespTime c;
     ctx_iterationResults := ctx_iterationResults c ++ [rs];
     ctx_done := ctx_done c;
     ctx_responsesInfo := ctx_responsesInfo c |}.

(** The [ResponseInfo] appended for a request whose dispatch resolved. *)
Definition infoOf (env : Environment) (i j : nat) (r : RequestType)
    : ResponseInfo :=
  {| responseId :=
       match sendOutcome env i j with
       | SendReturns _ _ _ rid => rid
       | SendThrows _ => []
       end;
     originalRequestId := id r;
     originalRequestName := name r |}.

Definition durationOf (env : Environment) (i j : nat) : float :=
  match sendOutcome env i j with
  | SendReturns _ _ dur _ => dur
  | SendThrows _ => 0%float
  end.

(** The redirect target a resolved dispatch leaves pending. *)
Definition nextOf (env : Environment) (i j : nat) : jsstring :=
  match sendOutcome env i j with
  | SendReturns next _ _ _ => if truthy next then default [] next else []
  | SendThrows _ => []
  end.

Definition resolves (env : Environment) (i j : nat) : Prop :=
  requestMetaFound env i j = true /\
  exists next res dur rid, sendOutcome env i j = SendReturns next res dur rid.

(** Nobody presses cancel for [workspaceId] while the dispatch [(i, j)] is
    awaited. *)
Definition undisturbed (env : Environment) (workspaceId : jsstring)
    (i j : nat) : Prop :=
  (workspaceId ∉ cancelClicks env (AwaitRequestMeta i j)) /\
  (workspaceId ∉ cancelClicks env (AwaitDelay i j)) /\
  (workspaceId ∉ cancelClicks env (AwaitSend i j)).

(** The state after an effect has been logged, and after the cancel clicks
    of an await point have been served. *)
Definition logged (s : State) (ev : Effect) : State :=
  {| testCtx := testCtx s; runnerExecutions := runnerExecutions s;
     effects := effects s ++ [ev] |}.

Definition awaited (env : Environment) (p : AwaitPoint) (s : State) : State :=
  snd (await env p s).

(** The state in which the [try] block is entered, and the state in which
    the action returns once the [finally] block has run from [s]. *)
Definition started (workspaceId : jsstring) (iterations : nat)
    (userUploadEnvs : option (list UserUploadEnvironment)) (s : State) : State :=
  {| testCtx := initialTestCtx iterations userUploadEnvs;
     runnerExecutions := <[workspaceId := []]> (runnerExecutions s);
     effects :=
       effects s ++
       [MainStartExecution workspaceId;
        MainAddExecutionStep workspaceId (js "Initializing")] |}.

Definition finalized (env : Environment) (workspaceId : jsstring) (s : State)
    : State :=
  awaited env AwaitCreate
    (logged s (RunnerTestResultCreate (docOfTestCtx workspaceId (testCtx s)))).

(** How the [catch] clause completes for the failure [e]: with the redirect
    that carries [errMsg], or with the exception thrown while [errMsg] is
    built. *)
Definition caught (organizationId projectId workspaceId : jsstring)
    (e : Thrown) : Completion Redirect :=
  match errMsgOf e with
  | Normal errMsg =>
      Normal (redirect organizationId projectId workspaceId (Some errMsg))
  | Throw e' => Throw e'
  end.

(** The name rule of the redirect test: the candidate at index [p] has the
    trimmed name of the target and is the last request of the list that
    has. *)
Definition matchesByName (requests : list RequestType) (p : nat)
    (r : RequestType) (target : jsstring) : Prop :=
  trim (name r) = trim target /\
  forall q r', p < q -> requests !! q = Some r' ->
    trim (name r') <> trim target.

(** The cancel button leaves [testCtx], the store and the executor alone;
    it can only remove registry entries, and only those it is pressed for. *)
Record pressed (clicks : list jsstring) (s s' : State) : Prop := {
  pressed_testCtx : testCtx s' = testCtx s;
  pressed_created : created (effects s') = created (effects s);
  pressed_sentIds : sentIds (effects s') = sentIds (effects s);
  pressed_other : forall w, w ∉ clicks ->
    runnerExecutions s' !! w = runnerExecutions s !! w;
  pressed_absent : forall w, runnerExecutions s !! w = None ->
    runnerExecutions s' !! w = None;
}.

(** ** Two properties that the code does not have *)

(** The reading of the cancellation property under which the interrupted
    iteration keeps its partial results in the stored document: when the
    entry is gone at the liveness check before index [j] of iteration [i],
    the stored [iterationResults] has, at position [i], the results of the
    requests executed before [j]. *)
Definition partial_iteration_is_stored
    (env : Environment) (organizationId projectId workspaceId : jsstring)
    (requests : list RequestType) (iterations delay : nat)
    (userUploadEnvs : option (list UserUploadEnvironment))
    (s : State) (i j : nat) : Prop :=
  forall r nx res sI s1,
    i < iterations ->
    requests !! j = Some r ->
    reachIteration env workspaceId requests iterations delay userUploadEnvs i s
      = (Normal (), sI) ->
    reachRequest env workspaceId requests iterations delay userUploadEnvs i j sI
      = (Normal (nx, res), s1) ->
    runnerExecutions s1 !! workspaceId = None ->
    exists response s' doc,
      runCollectionAction env organizationId projectId workspaceId requests
        iterations delay userUploadEnvs s = (Normal response, s') /\
      created (effects s') = created (effects s) ++ [doc] /\
      doc_iterationResults doc !! i = Some res.


(** The redirect-by-id property without a condition on the requests between
    [k] and [m]. *)
Definition redirect_by_id_always_skips
    (env : Environment) (workspaceId : jsstring)
    (requests : list RequestType) (iterations delay : nat)
    (userUploadEnvs : option (list UserUploadEnvironment))
    (i k m : nat) (target nx : jsstring)
    (res : list RunnerResultPerRequest) (s : State) : Prop :=
  forall rk rm rs dur rid,
    requests !! k = Some rk ->
    requests !! m = Some rm ->
    k < m ->
    is_Some (runnerExecutions s !! workspaceId) ->
    is_Some (redirectGate requests k rk nx) ->
    requestMetaFound env i k = true ->
    sendOutcome env i k = SendReturns (Some target) rs dur rid ->
    target <> [] ->
    undisturbed env workspaceId i k ->
    id rm = target ->
    resolves env i m ->
    exists s',
      sentIds (effects s') = sentIds (effects s) ++ [id rk; id rm] /\
      forRequests env workspaceId requests iterations delay userUploadEnvs
        i k (drop k requests) (nx, res) s =
      forRequests env workspaceId requests iterations delay userUploadEnvs
        i (S m) (drop (S m) requests)
        (nextOf env i m, res ++ [resultOf env i k rk; resultOf env i m rm]) s'.

(** ** Sample inputs *)

Definition org_1 : jsstring := js "org_1".
Definition proj_1 : jsstring := js "proj_1".
Definition wrk_1 : jsstring := js "wrk_1".

Definition request (n i : string) : RequestType :=
  {| name := js n; id := js i; url := js "https://api.example.com/" ++ js i |}.

Definition Req1 : RequestType := request "Req1" "r1".
Definition Req2 : RequestType := request "Req2" "r2".

(** Two requests that share the name "A" around one named "B". *)
Definition namedABA : list RequestType :=
  [request "A" "req_1"; request "B" "req_2"; request " A " "req_3"].

(** The second request is named like the id of the third. *)
Definition namedLikeAnId : list RequestType :=
  [request "Login" "req_1"; request "req_3" "req_2"; request "Profile" "req_3"].

(** No run has started yet. *)
Definition idle : State :=
  {| testCtx := initialTestCtx 0 None; runnerExecutions := ∅; effects := [] |}.

(** Every dispatch resolves with one passed test and no redirect; nobody
    cancels. *)
Definition passing : Environment :=
  {| requestMetaFound := fun _ _ => true;
     sendOutcome := fun _ _ =>
       SendReturns None [ {| testCase := js "status is 200"; status := passed |} ]
         12%float (js "res_1");
     cancelClicks := fun _ => [] |}.

(** As [passing], but the cancel button is pressed while the first request of
    the first iteration is in flight. *)
Definition cancelledDuringFirst : Environment :=
  {| requestMetaFound := requestMetaFound passing;
     sendOutcome := sendOutcome passing;
     cancelClicks := fun p =>
       match p with
       | AwaitSend 0 0 => [wrk_1]
       | _ => []
       end |}.

(** As [passing], but the executor throws on the second request of the first
    iteration. *)
Definition failingSecond : Environment :=
  {| requestMetaFound := requestMetaFound passing;
     sendOutcome := fun i j =>
       match i, j with
       | 0, 1 => SendThrows (ThrownObject (js "connect ECONNREFUSED"))
       | _, _ => sendOutcome passing i j
       end;
     cancelClicks := cancelClicks passing |}.

(** As [passing], but the first request of every iteration signals [target]
    as the next request. *)
Definition redirectingFirst (target : jsstring) : Environment :=
  {| requestMetaFound := requestMetaFound passing;
     sendOutcome := fun i j =>
       match j with
       | 0 => SendReturns (Some target) [] 12%float (js "res_1")
       | _ => sendOutcome passing i j
       end;
     cancelClicks := cancelClicks passing |}.

Definition threeRequests : list RequestType :=
  [request "Login" "req_1"; request "Settings" "req_2"; request "Profile" "req_3"].

(** ** What a run sends to its collaborators *)

(** The name of the latest step of a workspace, as far as the log tells:
    the name given by the last [addExecutionStep] or [updateLatestStepName]
    for it. *)
Definition latestStepName (workspaceId : jsstring) (effs : list Effect)
    : option jsstring :=
  last
    (omap
       (fun ev =>
          match ev with
          | MainAddExecutionStep w n | MainUpdateLatestStepName w n =>
              if decide (w = workspaceId) then Some n else None
          | _ => None
          end)
       effs).

(** The calls that only the action makes, with the arguments it may give
    them: the executor and the request-meta model are called for submitted
    requests only, the executor with a 1-based iteration number within the
    submitted count and with the data row of that iteration; the timer is
    set to the submitted delay; documents are filed under the workspace. *)
Definition wellAddressed (workspaceId : jsstring)
    (requests : list RequestType) (iterations delay : nat)
    (userUploadEnvs : option (list UserUploadEnvironment)) (ev : Effect)
    : Prop :=
  match ev with
  | SendActionImp a =>
      send_workspaceId a = workspaceId /\
      (exists r, r ∈ requests /\ id r = send_requestId a) /\
      1 <= send_iteration a <= iterations /\
      send_iterationCount a = iterations /\
      send_userUploadEnv a =
        getCurIterationUserUploadData userUploadEnvs (send_iteration a - 1)
  | RequestMetaUpdateOrCreateByParentId parentId =>
      exists r, r ∈ requests /\ id r = parentId
  | SetTimeout d => d = delay
  | RunnerTestResultCreate doc => doc_parentId doc = workspaceId
  | _ => True
  end.

(** At a point where the run may stop: the entry of the workspace is gone
    and the latest step is named 'Done', or the entry holds [v]. *)
Definition stoppedOrActive (workspaceId v : jsstring) (s : State) : Prop :=
  (runnerExecutions s !! workspaceId = None /\
   latestStepName workspaceId (effects s) = Some (js "Done"))
  \/ runnerExecutions s !! workspaceId = Some v.

(** What holds where the loops of a run end: after a normal end, a missing
    entry means that the latest step is named 'Done'; where they were left by
    a failure, the run was stopped ('Done' and no entry) or the entry holds
    a non-empty request id. *)
Definition exitState (workspaceId : jsstring) {A : Type}
    (c : Completion A) (s : State) : Prop :=
  match c with
  | Normal _ =>
      runnerExecutions s !! workspaceId = None ->
      latestStepName workspaceId (effects s) = Some (js "Done")
  | Throw _ =>
      (runnerExecutions s !! workspaceId = None /\
       latestStepName workspaceId (effects s) = Some (js "Done"))
      \/ exists v, runnerExecutions s !! workspaceId = Some v /\ v <> []
  end.

(** The requests of the list with their indices, and the results an
    iteration stores for some of them. *)
Definition indexed (requests : list RequestType) : list (nat * RequestType) :=
  imap (fun j r => (j, r)) requests.

Definition resultsOf (env : Environment) (i : nat)
    (picks : list (nat * RequestType)) : list RunnerResultPerRequest :=
  map (fun p => resultOf env i (fst p) (snd p)) picks.

(** [total + d1 + d2 + ..], summed from the left as the run does when it
    replaces [testCtx.duration] after each dispatch. *)
Definition addedUp (total : float) (durations : list float) : float :=
  foldl PrimFloat.add total durations.

(** The durations collected by the dispatches of [count] iterations from
    [i] on, when every request of the list is dispatched. *)
Definition collectedDurations (env : Environment)
    (requests : list RequestType) (i count : nat) : list float :=
  flat_map (fun i' => imap (fun j _ => durationOf env i' j) requests)
    (seq i count).

Definition collectedInfos (env : Environment)
    (requests : list RequestType) (i count : nat) : list ResponseInfo :=
  flat_map (fun i' => imap (fun j r => infoOf env i' j r) requests)
    (seq i count).

(** ** The result pane: test counters *)

(** The [useMemo] of the [Runner] component that counts the test cases of
    the displayed execution result.  [executionResult] is the stored
    document read back, [None] when nothing is displayed. *)
Record TestCounters := {
  passedTestCount : nat;
  totalTestCount : nat;
  testResultCountTagColor : jsstring;
}.

(** The body of the innermost loop, over the test cases of a request. *)
Definition countTestCase (counts : nat * nat) (testCaseResult : RequestTestResult)
    : nat * nat :=
  let '(passedTestCount, totalTestCount) := counts in
  (match status testCaseResult with
   | passed => passedTestCount + 1
   | _ => passedTestCount
   end,
   totalTestCount + 1).

Definition countRequest (counts : nat * nat) (request : RunnerResultPerRequest)
    : nat * nat :=
  foldl countTestCase counts (results request).

Definition countIteration (counts : nat * nat)
    (iteration : list RunnerResultPerRequest) : nat * nat :=
  foldl countRequest counts iteration.

Definition testCounters (isRunning : bool)
    (executionResult : option RunnerTestResultDoc) : TestCounters :=
  let '(passedTestCount, totalTestCount) :=
    if negb isRunning then
      match executionResult with
      | Some doc => foldl countIteration (0, 0) (doc_iterationResults doc)
      | None => (0, 0)
      end
    else (0, 0) in
  {| passedTestCount := passedTestCount;
     totalTestCount := totalTestCount;
     testResultCountTagColor :=
       if 0 <? totalTestCount then
         if passedTestCount =? totalTestCount then js "bg-lime-600"
         else js "bg-red-600"
       else js "bg-[var(--hl-sm)]" |}.

(** All test cases of a document, iteration by iteration, request by
    request. *)
Definition testCases (doc : RunnerTestResultDoc) : list RequestTestResult :=
  flat_map results (concat (doc_iterationResults doc)).

Definition hasPassed (t : RequestTestResult) : bool :=
  match status t with
  | passed => true
  | _ => false
  end.

(** The test cases the counters look at. *)
Definition shownTestCases (isRunning : bool)
    (executionResult : option RunnerTestResultDoc) : list RequestTestResult :=
  match isRunning, executionResult with
  | false, Some doc => testCases doc
  | _, _ => []
  end.

(** ** The result pane: merged timelines *)

Record ResponseTimelineEntry := {
  entry_value : jsstring;
  entry_name : jsstring;
  entry_timestamp : Z;
}.

Section Timelines.
Context {Response : Type}.
(** [models.response.getById] as it answers the query made for the entry at
    index [i] ([None] for [null]), the timeline read from a response, and
    [Date.now()] at the moment the header of the entry at index [i] is
    built. *)
Context (getById : nat -> jsstring -> option Response).
Context (getTimeline : Response -> list ResponseTimelineEntry).
Context (now : nat -> Z).

Definition startOfRequest (i : nat) (respInfo : ResponseInfo)
    : ResponseTimelineEntry :=
  {| entry_value :=
       js "------ Start of request (" ++ originalRequestName respInfo
       ++ js ") ------" ++ [10; 10; 10]%N;
     entry_name := js "Text";
     entry_timestamp := now i |}.

Definition failedToRead (respInfo : ResponseInfo) : jsstring :=
  js "failed to read response for the request " ++ originalRequestName respInfo.

(** The loop of [aggregateAllTimelines] from index [i] on, on the local
    [timelines] and the messages written with [console.error]. *)
Fixpoint aggregateLoop (i : nat) (rest : list ResponseInfo)
    (timelines : list ResponseTimelineEntry) (errors : list jsstring)
    : list ResponseTimelineEntry * list jsstring :=
  match rest with
  | [] => (timelines, errors)
  | respInfo :: rest =>
      match getById i (responseId respInfo) with
      | Some resp =>
          let timeline := getTimeline resp in
          aggregateLoop (S i) rest
            (timelines ++ [startOfRequest i respInfo] ++ timeline) errors
      | None =>
          aggregateLoop (S i) rest timelines (errors ++ [failedToRead respInfo])
      end
  end.

Definition aggregateAllTimelines (testResult : RunnerTestResultDoc)
    : list ResponseTimelineEntry * list jsstring :=
  aggregateLoop 0 (doc_responsesInfo testResult) [] [].

(** What the entry at index [i] contributes. *)
Definition timelineGroup (i : nat) (respInfo : ResponseInfo)
    : list ResponseTimelineEntry :=
  match getById i (responseId respInfo) with
  | Some resp => startOfRequest i respInfo :: getTimeline resp
  | None => []
  end.

Definition timelineError (i : nat) (respInfo : ResponseInfo) : list jsstring :=
  match getById i (responseId respInfo) with
  | Some _ => []
  | None => [failedToRead respInfo]
  end.
End Timelines.

(** ** The request list of the runner pane *)

(** The documents of the collection tree, as far as the runner pane reads
    them; [model_method] is [None] for a document without a [method]
    property. *)
Record Model := {
  model_id : jsstring;
  model_name : jsstring;
  model_url : jsstring;
  model_method : option jsstring;
}.

Record Child := {
  doc : Model;
  ancestors : option (list jsstring);
}.

Record RequestRow := {
  row_id : jsstring;
  row_name : jsstring;
  ancestorNames : list jsstring;
  method : jsstring;
  row_url : jsstring;
}.

Section RequestRows.
(** The two type tests of the model layer. *)
Context (isRequest isRequestGroup : Model -> bool).

(** The map filled by the callback of [collection.filter]: every item of
    the collection is entered under its id, a later item replacing an
    earlier one with the same id. *)
Definition getEntityById (collection : list Child) : gmap jsstring Child :=
  foldl (fun m item => <[model_id (doc item) := item]> m) ∅ collection.

Definition ancestorNamesOf (entities : gmap jsstring Child) (item : Child)
    : list jsstring :=
  match ancestors item with
  | Some ids =>
      omap
        (fun ancestorId =>
           match entities !! ancestorId with
           | Some ancestor =>
               if isRequestGroup (doc ancestor)
               then Some (model_name (doc ancestor))
               else None
           | None => None
           end)
        ids
  | None => []
  end.

(** The callback of [.map]: it fails on a document without a method. *)
Definition requestRow (entities : gmap jsstring Child) (item : Child)
    : Completion RequestRow :=
  let ancestorNames := ancestorNamesOf entities item in
  match model_method (doc item) with
  | None =>
      Throw (ThrownError (js "Error")
               (js "Only Request is supported at the moment"))
  | Some requestMethod =>
      Normal
        {| row_id := model_id (doc item);
           row_name := model_name (doc item);
           ancestorNames := ancestorNames;
           method := requestMethod;
           row_url := model_url (doc item) |}
  end.

Fixpoint mapRows (entities : gmap jsstring Child) (items : list Child)
    : Completion (list RequestRow) :=
  match items with
  | [] => Normal []
  | item :: items =>
      match requestRow entities item with
      | Throw e => Throw e
      | Normal row =>
          match mapRows entities items with
          | Throw e => Throw e
          | Normal rows => Normal (row :: rows)
          end
      end
  end.

Definition requestRows (collection : list Child) : Completion (list RequestRow) :=
  mapRows (getEntityById collection)
    (filter (fun item => isRequest (doc item) = true) collection).
End RequestRows.

(** A submitted row as the action reads it. *)
Definition asRequestType (row : RequestRow) : RequestType :=
  {| name := row_name row; id := row_id row; url := row_url row |}.

Section Selection.
(** The keys of the list are strings or numbers ([Key] of react-stately),
    compared as the elements of a [Set] are; [NumberKey] is the type of the
    numbers up to that comparison. *)
Context `{Countable NumberKey}.

Definition Key : Type := jsstring + NumberKey.

(** [Selection] of react-stately, the type of [reqList.selectedKeys]: the
    string ['all'] or a set of keys. *)
Inductive Selection :=
| SelectionAll
| SelectionKeys (keys : gset Key).

(** [new Set(selectedKeys)]: a set is copied, and a string is iterated
    character by character, so that ['all'] gives the set of the two
    strings 'a' and 'l'. *)
Definition setOfSelection (selectedKeys : Selection) : gset Key :=
  match selectedKeys with
  | SelectionAll => {[ inl (js "a"); inl (js "l") ]}
  | SelectionKeys keys => keys
  end.

(** [Array.from(selectedKeys).length]: the three characters of ['all'], or
    the number of keys. *)
Definition lengthOfSelection (selectedKeys : Selection) : nat :=
  match selectedKeys with
  | SelectionAll => 3
  | SelectionKeys keys => size keys
  end.

(** The keys of all rows, [reqList.items.map(item => item.id)] as a set. *)
Definition keysOf (items : list RequestRow) : gset Key :=
  list_to_set (map (fun item => inl (row_id item)) items).

(** [onRun]: the rows whose id the copied set has, in the order of the
    list. *)
Definition onRun (items : list RequestRow) (selectedKeys : Selection)
    : list RequestRow :=
  let selected := setOfSelection selectedKeys in
  filter (fun item => inl (row_id item) ∈ selected) items.

(** [onToggleSelection]: the value given to [setSelectedKeys]. *)
Definition onToggleSelection (items : list RequestRow)
    (selectedKeys : Selection) : Selection :=
  if decide (lengthOfSelection selectedKeys = length items)
  then SelectionKeys ∅
  else SelectionKeys (keysOf items).
End Selection.

(** ** Further sample inputs *)

Definition wrk_2 : jsstring := js "wrk_2".

(** Another workspace has a run in flight, at its request "r9". *)
Definition otherRunning : State :=
  {| testCtx := initialTestCtx 0 None;
     runnerExecutions := {[ wrk_2 := js "r9" ]};
     effects := [MainStartExecution wrk_2] |}.

(** A folder "Users" with two requests, and a request at the top level. *)
Definition usersFolder : Child :=
  {| doc := {| model_id := js "fld_1"; model_name := js "Users";
               model_url := []; model_method := None |};
     ancestors := Some [] |}.

Definition loginRequest : Child :=
  {| doc := {| model_id := js "req_1"; model_name := js "Login";
               model_url := js "https://api.example.com/login";
               model_method := Some (js "POST") |};
     ancestors := Some [js "fld_1"; js "fld_gone"] |}.

Definition pingRequest : Child :=
  {| doc := {| model_id := js "req_2"; model_name := js "Ping";
               model_url := js "https://api.example.com/ping";
               model_method := Some (js "GET") |};
     ancestors := None |}.

Definition sampleCollection : list Child :=
  [usersFolder; loginRequest; pingRequest].

(** In the samples a document is a request when it has a method, and a
    request group otherwise. *)
Definition hasMethod (m : Model) : bool :=
  match model_method m with
  | Some _ => true
  | None => false
  end.

Definition sampleRows : list RequestRow :=
  [ {| row_id := js "req_1"; row_name := js "Login";
       ancestorNames := [js "Users"]; method := js "POST";
       row_url := js "https://api.example.com/login" |};
    {| row_id := js "req_2"; row_name := js "Ping"; ancestorNames := [];
       method := js "GET"; row_url := js "https://api.example.com/ping" |} ].

(** The three points at which the dispatch of the request at index [j] of
    iteration [i] is suspended. *)
Definition awaitsOfDispatch (i j : nat) : list AwaitPoint :=
  [AwaitRequestMeta i j; AwaitDelay i j; AwaitSend i j].

(** A request without an id, and an environment whose executor throws on the
    first request of the first iteration. *)
Definition unsavedRequest : RequestType :=
  {| name := js "Draft"; id := []; url := js "https://api.example.com/draft" |}.

Definition failingFirst : Environment :=
  {| requestMetaFound := requestMetaFound passing;
     sendOutcome := fun i j =>
       match i, j with
       | 0, 0 => SendThrows (ThrownString (js "socket hang up"))
       | _, _ => sendOutcome passing i j
       end;
     cancelClicks := cancelClicks passing |}.

(** As [passing], but cancel is pressed during the delay that precedes the
    first request of the first iteration. *)
Definition cancelledDuringDelay : Environment :=
  {| requestMetaFound := requestMetaFound passing;
     sendOutcome := sendOutcome passing;
     cancelClicks := fun p =>
       match p with
       | AwaitDelay 0 0 => [wrk_1]
       | _ => []
       end |}.

(** As [passing], but the executor rejects the second request of the first
    iteration with a message cut in the middle of a surrogate pair, or with
    no reason at all. *)
Definition failingGarbled : Environment :=
  {| requestMetaFound := requestMetaFound passing;
     sendOutcome := fun i j =>
       match i, j with
       | 0, 1 => SendThrows (ThrownString (js "unexpected token " ++ [55357%N]))
       | _, _ => sendOutcome passing i j
       end;
     cancelClicks := cancelClicks passing |}.

Definition failingWithoutReason : Environment :=
  {| requestMetaFound := requestMetaFound passing;
     sendOutcome := fun i j =>
       match i, j with
       | 0, 1 => SendThrows ThrownUndefined
       | _, _ => sendOutcome passing i j
       end;
     cancelClicks := cancelClicks passing |}.

(** Every dispatch resolves and reports a duration of [2^53] ms. *)
Definition reportingHuge : Environment :=
  {| requestMetaFound := fun _ _ => true;
     sendOutcome := fun _ _ =>
       SendReturns None [] 9007199254740992%float (js "res_1");
     cancelClicks := fun _ => [] |}.

(** * Properties *)

(** ** Strings and the redirect test *)

Lemma findLastIndex_lower {A} (p : A -> bool) l : (-1 <= findLastIndex p l)%Z.
Proof.
  induction l as [|x l IH]; simpl; [lia|].
  destruct (Z.leb_spec 0 (findLastIndex p l)); [lia|].
  destruct (p x); lia.
Qed.

Lemma findLastIndex_none {A} (p : A -> bool) l :
  findLastIndex p l = (-1)%Z <-> forall k x, l !! k = Some x -> p x = false.
Proof.
  induction l as [|x l IH]; simpl.
  - split; [intros _ k y Hk; discriminate | done].
  - pose proof (findLastIndex_lower p l) as Hlow.
    destruct (Z.leb_spec 0 (findLastIndex p l)) as [Hge|Hlt].
    + split; [lia|]. intros Hall.
      assert (findLastIndex p l = (-1)%Z) as Hn; [|lia].
      apply IH. intros k y Hk. apply (Hall (S k)). exact Hk.
    + assert (findLastIndex p l = (-1)%Z) as Hn by lia.
      destruct (p x) eqn:Hpx.
      * split; [lia|]. intros Hall. specialize (Hall 0 x eq_refl). congruence.
      * split; [|done]. intros _ [|k] y Hk; simpl in Hk.
        -- by inversion Hk; subst.
        -- eapply IH; eauto.
Qed.

Lemma findLastIndex_some {A} (p : A -> bool) l (j : nat) :
  findLastIndex p l = Z.of_nat j <->
  (exists x, l !! j = Some x /\ p x = true) /\
  (forall k x, j < k -> l !! k = Some x -> p x = false).
Proof.
  revert j. induction l as [|x l IH]; intros j; simpl.
  - split; [lia|]. intros [[y [Hy _]] _]. discriminate.
  - pose proof (findLastIndex_lower p l) as Hlow.
    destruct (Z.leb_spec 0 (findLastIndex p l)) as [Hge|Hlt].
    + destruct j as [|j].
      * split; [lia|]. intros [_ Hall].
        assert (findLastIndex p l = (-1)%Z) as Hn; [|lia].
        apply findLastIndex_none. intros k y Hk. apply (Hall (S k)); [lia|done].
      * rewrite Nat2Z.inj_succ.
        split.
        -- intros Hk. assert (findLastIndex p l = Z.of_nat j) as Hj by lia.
           apply IH in Hj as [Hx Hall]. split; [exact Hx|].
           intros [|k] y Hjk Hy; [lia|]. apply (Hall k); [lia|done].
        -- intros [Hx Hall].
           assert (findLastIndex p l = Z.of_nat j) as Hj; [|lia].
           apply IH. split; [exact Hx|].
           intros k y Hjk Hy. apply (Hall (S k)); [lia|done].
    + assert (findLastIndex p l = (-1)%Z) as Hn by lia.
      pose proof (proj1 (findLastIndex_none p l) Hn) as Hnone.
      destruct (p x) eqn:Hpx.
      * destruct j as [|j].
        -- split; [|done]. intros _. split; [by exists x|].
           intros [|k] y Hjk Hy; [lia|]. by apply (Hnone k).
        -- split; [lia|]. intros [[y [Hy Hpy]] _]. simpl in Hy.
           rewrite (Hnone j y Hy) in Hpy. discriminate.
      * split; [lia|]. intros [[y [Hy Hpy]] _].
        destruct j as [|j]; simpl in Hy.
        -- inversion Hy; subst. congruence.
        -- rewrite (Hnone j y Hy) in Hpy. discriminate.
Qed.

Lemma redirectMatches_true_iff
    (requests : list RequestType) (j : nat) (r : RequestType)
    (target : jsstring) :
  requests !! j = Some r ->
  redirectMatches requests j r target = true <->
  id r = target \/ matchesByName requests j r target.
Proof.
  intros Hj. unfold redirectMatches, matchesByName.
  rewrite orb_true_iff, andb_true_iff, !bool_decide_eq_true.
  split.
  - intros [Hid|[Hname Hlast]]; [by left|right].
    split; [exact Hname|].
    symmetry in Hlast. apply findLastIndex_some in Hlast as [_ Hall].
    intros q r' Hlt Hq Heq. specialize (Hall q r' Hlt Hq).
    by apply bool_decide_eq_false in Hall.
  - intros [Hid|[Hname Hall]]; [by left|right].
    split; [exact Hname|].
    symmetry. apply findLastIndex_some. split.
    + exists r. split; [exact Hj|]. by apply bool_decide_eq_true.
    + intros q r' Hlt Hq. apply bool_decide_eq_false. eauto.
Qed.

Lemma redirectMatches_false
    (requests : list RequestType) (j : nat) (r : RequestType)
    (target : jsstring) :
  requests !! j = Some r ->
  id r <> target ->
  ~ matchesByName requests j r target ->
  redirectMatches requests j r target = false.
Proof.
  intros Hj Hid Hname. apply not_true_is_false. intros Hm.
  apply redirectMatches_true_iff in Hm as [?|?]; done.
Qed.

(** C6: a pending redirect target that is not the candidate's id lets the
    candidate at index [j] through exactly when the candidate's trimmed name
    equals the trimmed target and no later request of the whole list has
    that trimmed name, so that with duplicate names only the last one
    matches. *)
Theorem redirect_by_name_last_occurrence
    (requests : list RequestType) (j : nat) (targetRequest : RequestType)
    (nextRequestIdOrName : jsstring) :
  requests !! j = Some targetRequest ->
  id targetRequest <> nextRequestIdOrName ->
  redirectMatches requests j targetRequest nextRequestIdOrName = true <->
  trim (name targetRequest) = trim nextRequestIdOrName /\
  (forall k req, j < k -> requests !! k = Some req ->
     trim (name req) <> trim nextRequestIdOrName).
Proof.
  intros Hj Hid. rewrite (redirectMatches_true_iff _ _ _ _ Hj).
  unfold matchesByName. tauto.
Qed.

(** ** Per-iteration data *)

(** C8: with [N > 0] uploaded rows, iteration [i] is bound to row [i] when
    [i < N] and to row [(i + 1) mod N] otherwise; without rows it is bound to
    nothing; with two rows, iteration index 2 is bound to row 1. *)
Theorem iteration_data_binding
    (envs : list UserUploadEnvironment) (curIteration : nat) :
  (curIteration < length envs ->
   exists entry, envs !! curIteration = Some entry /\
     getCurIterationUserUploadData (Some envs) curIteration = Some entry) /\
  (0 < length envs -> length envs <= curIteration ->
   exists entry, envs !! ((curIteration + 1) mod length envs) = Some entry /\
     getCurIterationUserUploadData (Some envs) curIteration = Some entry) /\
  getCurIterationUserUploadData (Some []) curIteration = None /\
  getCurIterationUserUploadData None curIteration = None /\
  (forall e0 e1, getCurIterationUserUploadData (Some [e0; e1]) 2 = Some e1).
Proof.
  unfold getCurIterationUserUploadData. repeat split.
  - intros Hlt. destruct (lookup_lt_is_Some_2 envs curIteration Hlt) as [entry He].
    exists entry. split; [exact He|].
    destruct (Nat.ltb_spec 0 (length envs)); [|lia].
    destruct (Nat.leb_spec (curIteration + 1) (length envs)); [exact He|lia].
  - intros Hpos Hge.
    assert ((curIteration + 1) mod length envs < length envs) as Hlt
      by (apply Nat.mod_upper_bound; lia).
    destruct (lookup_lt_is_Some_2 envs _ Hlt) as [entry He].
    exists entry. split; [exact He|].
    destruct (Nat.ltb_spec 0 (length envs)); [|lia].
    destruct (Nat.leb_spec (curIteration + 1) (length envs)); [lia|exact He].
Qed.

Lemma iteration_data_binding_witness :
  let rows := [ {| envName := js "data.csv"; envData := [(js "k", js "a")] |};
                {| envName := js "data.csv"; envData := [(js "k", js "b")] |} ] in
  (exists entry, rows !! 1 = Some entry /\
     getCurIterationUserUploadData (Some rows) 1 = Some entry) /\
  (exists entry, rows !! ((2 + 1) mod length rows) = Some entry /\
     getCurIterationUserUploadData (Some rows) 2 = Some entry).
Proof.
  intros rows.
  destruct (iteration_data_binding rows 1) as [H1 _].
  destruct (iteration_data_binding rows 2) as [_ [H2 _]].
  split; [apply H1; simpl; lia | apply H2; simpl; lia].
Defined.

(** ** The execution registry *)

Lemma cancelExecution_run (workspaceId : jsstring) (s : State) :
  cancelExecution workspaceId s =
  (Normal (),
   if truthy (runnerExecutions s !! workspaceId) then
     {| testCtx := testCtx s;
        runnerExecutions := delete workspaceId (runnerExecutions s);
        effects :=
          effects s ++
          [CancelRequestById (default [] (runnerExecutions s !! workspaceId));
           MainUpdateLatestStepName workspaceId (js "Done");
           MainCompleteExecutionStep workspaceId] |}
   else s).
Proof.
  unfold cancelExecution, getExecution, mbind, M_bind.
  destruct (truthy (runnerExecutions s !! workspaceId)); [|reflexivity].
  unfold emit, stopExecution, setRunnerExecutions. simpl.
  by rewrite <- !app_assoc.
Qed.

(** C10: while the registry holds the empty string for the workspace, the
    cancel operation changes nothing (the entry stays, no 'Done' step, no
    request cancellation); whenever it does change the state, the stored
    value was a non-empty request id, which is then cancelled, and the entry
    is removed. *)
Theorem cancel_before_first_dispatch_is_noop
    (workspaceId : jsstring) (s : State) :
  (runnerExecutions s !! workspaceId = Some [] ->
   cancelExecution workspaceId s = (Normal (), s)) /\
  (snd (cancelExecution workspaceId s) <> s ->
   exists activeRequest,
     activeRequest <> [] /\
     runnerExecutions s !! workspaceId = Some activeRequest /\
     cancelExecution workspaceId s =
     (Normal (),
      {| testCtx := testCtx s;
         runnerExecutions := delete workspaceId (runnerExecutions s);
         effects :=
           effects s ++
           [CancelRequestById activeRequest;
            MainUpdateLatestStepName workspaceId (js "Done");
            MainCompleteExecutionStep workspaceId] |})).
Proof.
  rewrite cancelExecution_run. split.
  - intros ->. reflexivity.
  - destruct (runnerExecutions s !! workspaceId) as [[|c r]|] eqn:Hget;
      simpl; try congruence.
    intros _. exists (c :: r). by repeat split.
Qed.

Lemma cancel_before_first_dispatch_is_noop_witness :
  let s := {| testCtx := initialTestCtx 1 None;
              runnerExecutions := {[ js "wrk_1" := [] ]};
              effects := [MainStartExecution (js "wrk_1")] |} in
  cancelExecution (js "wrk_1") s = (Normal (), s).
Proof.
  intros s.
  apply (proj1 (cancel_before_first_dispatch_is_noop (js "wrk_1") s)).
  reflexivity.
Defined.

(** ** Running the monad *)

Lemma bind_run {A B} (m : M A) (f : A -> M B) (s : State) :
  (m ≫= f) s =
  match m s with
  | (Normal a, s') => f a s'
  | (Throw e, s') => (Throw e, s')
  end.
Proof. reflexivity. Qed.

Lemma emit_run ev s : emit ev s = (Normal (), logged s ev).
Proof. reflexivity. Qed.

Lemma mret_run {A} (a : A) (s : State) : (mret a : M A) s = (Normal a, s).
Proof. reflexivity. Qed.

Lemma getTestCtx_run s : getTestCtx s = (Normal (testCtx s), s).
Proof. reflexivity. Qed.

Lemma imap_offset_cons {A B} (f : nat -> A -> B) j x l :
  imap (fun k y => f (j + k) y) (x :: l) =
  f j x :: imap (fun k y => f (S j + k) y) l.
Proof.
  simpl. rewrite Nat.add_0_r. f_equal.
  apply imap_ext. intros k y _. simpl. by rewrite Nat.add_succ_r.
Qed.

Lemma redirectGate_nil requests j r : redirectGate requests j r [] = Some [].
Proof. reflexivity. Qed.

Lemma created_app l1 l2 : created (l1 ++ l2) = created l1 ++ created l2.
Proof. apply omap_app. Qed.

Lemma sentIds_app l1 l2 : sentIds (l1 ++ l2) = sentIds l1 ++ sentIds l2.
Proof. apply omap_app. Qed.

Lemma cancelExecution_pressed w s :
  pressed [w] s (snd (cancelExecution w s)).
Proof.
  rewrite cancelExecution_run. simpl.
  destruct (truthy (runnerExecutions s !! w)); constructor; simpl;
    rewrite ?created_app, ?sentIds_app, ?app_nil_r; try reflexivity; auto.
  - intros w' Hw'. apply lookup_delete_ne. set_solver.
  - intros w' Hw'. destruct (decide (w = w')) as [->|Hne].
    + apply lookup_delete_eq.
    + by rewrite lookup_delete_ne.
Qed.

Lemma forEach_cancelExecution clicks s :
  exists s', forEach cancelExecution clicks s = (Normal (), s') /\
             pressed clicks s s'.
Proof.
  revert s. induction clicks as [|w clicks IH]; intros s; simpl.
  - exists s. split; [reflexivity|]. by constructor.
  - rewrite bind_run.
    pose proof (cancelExecution_pressed w s) as Hp1.
    rewrite cancelExecution_run in *. simpl in Hp1.
    set (s1 := if truthy (runnerExecutions s !! w) then _ else s) in *.
    destruct (IH s1) as (s' & Hrun & Hp). exists s'. split; [exact Hrun|].
    destruct Hp as [Ht Hc Hs Hother Habsent].
    destruct Hp1 as [Ht1 Hc1 Hs1 Hother1 Habsent1].
    constructor; try congruence.
    + intros w' Hw'. apply not_elem_of_cons in Hw' as [Hne Hw'].
      rewrite (Hother w' Hw'). apply Hother1.
      apply not_elem_of_cons. split; [exact Hne|apply not_elem_of_nil].
    + eauto.
Qed.

Section RunLemmas.
Context (env : Environment).
Context (organizationId projectId workspaceId : jsstring).
Context (requests : list RequestType) (iterations delay : nat).
Context (userUploadEnvs : option (list UserUploadEnvironment)).

Local Abbreviation dispatch' :=
  (dispatch env workspaceId requests iterations delay userUploadEnvs).
Local Abbreviation requestBody' :=
  (requestBody env workspaceId requests iterations delay userUploadEnvs).
Local Abbreviation forRequests' :=
  (forRequests env workspaceId requests iterations delay userUploadEnvs).
Local Abbreviation iterationBody' :=
  (iterationBody env workspaceId requests iterations delay userUploadEnvs).
Local Abbreviation forIterations' :=
  (forIterations env workspaceId requests iterations delay userUploadEnvs).

Lemma await_run p s :
  exists s', await env p s = (Normal (), s') /\
             pressed (cancelClicks env p) s s'.
Proof. apply forEach_cancelExecution. Qed.

Lemma await_eq p s : await env p s = (Normal (), awaited env p s).
Proof.
  unfold awaited. destruct (await_run p s) as (s' & -> & _). reflexivity.
Qed.

Lemma awaited_pressed p s : pressed (cancelClicks env p) s (awaited env p s).
Proof.
  unfold awaited. destruct (await_run p s) as (s' & -> & Hp). exact Hp.
Qed.

Lemma dispatch_unfold i j r nx res s :
  dispatch' i j r nx res s =
  let s1 :=
    logged
      (logged
         {| testCtx := testCtx s;
            runnerExecutions := <[workspaceId := id r]> (runnerExecutions s);
            effects := effects s |}
         (MainUpdateLatestStepName workspaceId (stepName requests i j r)))
      (RequestMetaUpdateOrCreateByParentId (id r)) in
  let s2 := awaited env (AwaitRequestMeta i j) s1 in
  if requestMetaFound env i j then
    let s3 := awaited env (AwaitDelay i j) (logged s2 (SetTimeout delay)) in
    let s4 :=
      awaited env (AwaitSend i j)
        (logged s3
           (SendActionImp
              {| send_requestId := id r;
                 send_workspaceId := workspaceId;
                 send_iteration := i + 1;
                 send_iterationCount := iterations;
                 send_userUploadEnv :=
                   getCurIterationUserUploadData userUploadEnvs i |})) in
    match sendOutcome env i j with
    | SendThrows e => (Throw e, s4)
    | SendReturns next rs dur rid =>
        (Normal (if truthy next then default [] next else nx,
                 res ++ [resultOf env i j r]),
         {| testCtx :=
              withResponse (testCtx s4) (durationOf env i j) (infoOf env i j r);
            runnerExecutions := runnerExecutions s4;
            effects := effects s4 |})
    end
  else (Throw (ThrownError (js "Error") (js "Request meta not found")), s2).
Proof.
  unfold dispatch, requestMetaUpdateOrCreateByParentId, setTimeout,
    sendActionImp, resultOf, durationOf, infoOf.
  unfold updateExecution, setRunnerExecutions, invariant.
  repeat (progress (rewrite ?bind_run, ?emit_run, ?await_eq, ?mret_run;
                    cbv beta iota)).
  destruct (requestMetaFound env i j); [|reflexivity].
  repeat (progress (rewrite ?bind_run, ?emit_run, ?await_eq, ?mret_run;
                    cbv beta iota)).
  destruct (sendOutcome env i j); reflexivity.
Qed.
(** Everything a dispatch can do. *)
Lemma dispatch_run i j r nx res s c s' :
  dispatch' i j r nx res s = (c, s') ->
  created (effects s') = created (effects s) /\
  (undisturbed env workspaceId i j ->
   runnerExecutions s' !! workspaceId = Some (id r)) /\
  match c with
  | Throw e =>
      testCtx s' = testCtx s /\
      ((requestMetaFound env i j = false /\
        e = ThrownError (js "Error") (js "Request meta not found") /\
        sentIds (effects s') = sentIds (effects s))
       \/
       (requestMetaFound env i j = true /\
        sendOutcome env i j = SendThrows e /\
        sentIds (effects s') = sentIds (effects s) ++ [id r]))
  | Normal (next', res') =>
      resolves env i j /\
      next' = match nextOf env i j with [] => nx | t => t end /\
      res' = res ++ [resultOf env i j r] /\
      testCtx s' =
        withResponse (testCtx s) (durationOf env i j) (infoOf env i j r) /\
      sentIds (effects s') = sentIds (effects s) ++ [id r]
  end.
Proof.
  rewrite dispatch_unfold. cbv zeta.
  set (s0 := {| testCtx := testCtx s;
                runnerExecutions := <[workspaceId:=id r]> (runnerExecutions s);
                effects := effects s |}).
  set (s1 := logged (logged s0 _) _).
  pose proof (awaited_pressed (AwaitRequestMeta i j) s1) as P2.
  set (s2 := awaited env (AwaitRequestMeta i j) s1) in *.
  pose proof (awaited_pressed (AwaitDelay i j) (logged s2 (SetTimeout delay))) as P3.
  set (s3 := awaited env (AwaitDelay i j) _) in *.
  set (send := SendActionImp _).
  pose proof (awaited_pressed (AwaitSend i j) (logged s3 send)) as P4.
  set (s4 := awaited env (AwaitSend i j) _) in *.
  assert (undisturbed env workspaceId i j ->
          runnerExecutions s2 !! workspaceId = Some (id r)
          /\ runnerExecutions s4 !! workspaceId = Some (id r)) as Hreg.
  { intros (U1 & U2 & U3).
    assert (runnerExecutions s2 !! workspaceId = Some (id r)) as H2.
    { rewrite (pressed_other _ _ _ P2) by exact U1. simpl. apply lookup_insert_eq. }
    split; [exact H2|].
    rewrite (pressed_other _ _ _ P4) by exact U3. simpl.
    rewrite (pressed_other _ _ _ P3) by exact U2. exact H2. }
  assert (created (effects s2) = created (effects s)) as C2.
  { rewrite (pressed_created _ _ _ P2). simpl.
    by rewrite !created_app, !app_nil_r. }
  assert (created (effects s4) = created (effects s)) as C4.
  { rewrite (pressed_created _ _ _ P4). simpl. rewrite created_app.
    rewrite (pressed_created _ _ _ P3). simpl. rewrite created_app.
    rewrite C2. simpl. by rewrite !app_nil_r. }
  assert (sentIds (effects s2) = sentIds (effects s)) as S2.
  { rewrite (pressed_sentIds _ _ _ P2). simpl.
    by rewrite !sentIds_app, !app_nil_r. }
  assert (sentIds (effects s4) = sentIds (effects s) ++ [id r]) as S4.
  { rewrite (pressed_sentIds _ _ _ P4). simpl. rewrite sentIds_app.
    rewrite (pressed_sentIds _ _ _ P3). simpl. rewrite sentIds_app.
    rewrite S2. simpl. by rewrite !app_nil_r. }
  assert (testCtx s2 = testCtx s) as T2
    by (rewrite (pressed_testCtx _ _ _ P2); reflexivity).
  assert (testCtx s4 = testCtx s) as T4.
  { rewrite (pressed_testCtx _ _ _ P4). simpl.
    rewrite (pressed_testCtx _ _ _ P3). exact T2. }
  destruct (requestMetaFound env i j) eqn:Hmeta.
  - destruct (sendOutcome env i j) as [e|next rs dur rid] eqn:Hout;
      intros [= <- <-].
    + split; [exact C4|]. split; [intros U; apply (Hreg U)|].
      split; [exact T4|]. right. by repeat split.
    + split; [exact C4|]. split; [intros U; apply (Hreg U)|].
      split; [split; [exact Hmeta|eauto 10]|].
      split.
      { unfold nextOf. rewrite Hout.
        destruct next as [[|? ?]|]; reflexivity. }
      split; [reflexivity|]. split; [simpl; by rewrite T4|exact S4].
  - intros [= <- <-].
    split; [exact C2|]. split; [intros U; apply (Hreg U)|].
    split; [exact T2|]. left. by repeat split.
Qed.
Lemma requestBody_unfold i j r nx res s :
  requestBody' i j r (nx, res) s =
  match runnerExecutions s !! workspaceId with
  | None => (Throw (ThrownString (js "Runner has been stopped")), s)
  | Some _ =>
      match redirectGate requests j r nx with
      | None => (Normal (nx, res), s)
      | Some nx' => dispatch' i j r nx' res s
      end
  end.
Proof.
  unfold requestBody, getExecution. rewrite bind_run.
  destruct (runnerExecutions s !! workspaceId); [|reflexivity].
  destruct (redirectGate requests j r nx); reflexivity.
Qed.

Lemma forRequests_cons i j r rest locals s :
  forRequests' i j (r :: rest) locals s =
  match requestBody' i j r locals s with
  | (Normal locals', s') => forRequests' i (S j) rest locals' s'
  | (Throw e, s') => (Throw e, s')
  end.
Proof. reflexivity. Qed.

(** The request loop over a concatenation runs the two parts in turn. *)
Lemma forRequests_app i j l1 l2 locals s :
  forRequests' i j (l1 ++ l2) locals s =
  match forRequests' i j l1 locals s with
  | (Normal locals', s') => forRequests' i (j + length l1) l2 locals' s'
  | (Throw e, s') => (Throw e, s')
  end.
Proof.
  revert j locals s. induction l1 as [|r l1 IH]; intros j locals s.
  - simpl. by rewrite Nat.add_0_r.
  - rewrite <- app_comm_cons, !forRequests_cons.
    destruct (requestBody' i j r locals s) as [[locals'|e] s']; [|reflexivity].
    rewrite IH. simpl. by rewrite Nat.add_succ_r.
Qed.

(** What the request loop does to the store, to [testCtx] and to the
    executor, however it ends. *)
Lemma forRequests_run i rest : forall j nx res s c s',
  forRequests' i j rest (nx, res) s = (c, s') ->
  created (effects s') = created (effects s) /\
  ctx_iterationResults (testCtx s') = ctx_iterationResults (testCtx s) /\
  exists infos,
    ctx_responsesInfo (testCtx s') = ctx_responsesInfo (testCtx s) ++ infos /\
    match c with
    | Normal (nx', res') =>
        sentIds (effects s') =
          sentIds (effects s) ++ map originalRequestId infos /\
        exists added,
          res' = res ++ added /\
          map requestName added = map originalRequestName infos /\
          length added <= length rest
    | Throw e =>
        exists extra,
          sentIds (effects s') =
            sentIds (effects s) ++ map originalRequestId infos ++ extra /\
          length extra <= 1
    end.
Proof.
  induction rest as [|r rest IH]; intros j nx res s c s' Hrun.
  - injection Hrun as <- <-. repeat split.
    exists []. rewrite !app_nil_r. repeat split.
    exists []. rewrite app_nil_r. repeat split. simpl. lia.
  - rewrite forRequests_cons, requestBody_unfold in Hrun.
    destruct (runnerExecutions s !! workspaceId) as [active|].
    2:{ injection Hrun as <- <-. repeat split.
        exists []. rewrite app_nil_r. split; [done|].
        exists []. rewrite !app_nil_r. split; [done|simpl; lia]. }
    destruct (redirectGate requests j r nx) as [nx1|].
    2:{ apply IH in Hrun as (Hc & Hi & infos & Hinfos & Hrest).
        split; [exact Hc|]. split; [exact Hi|].
        exists infos. split; [exact Hinfos|].
        destruct c as [[nx' res']|e]; [|exact Hrest].
        destruct Hrest as (Hs & added & -> & Hn & Hlen).
        split; [exact Hs|]. exists added. repeat split; [done|simpl; lia]. }
    destruct (dispatch' i j r nx1 res s) as [[[nx2 res2]|e] s1] eqn:Hd;
      apply dispatch_run in Hd as (Hc1 & _ & Hd).
    + destruct Hd as (_ & _ & -> & Ht & Hs1).
      apply IH in Hrun as (Hc & Hi & infos & Hinfos & Hrest).
      split; [congruence|].
      split; [rewrite Hi, Ht; reflexivity|].
      exists (infoOf env i j r :: infos).
      split; [rewrite Hinfos, Ht; simpl; by rewrite <- app_assoc|].
      destruct c as [[nx' res']|e].
      * destruct Hrest as (Hs & added & -> & Hn & Hlen).
        split; [rewrite Hs, Hs1; simpl; by rewrite <- app_assoc|].
        exists (resultOf env i j r :: added).
        split; [by rewrite <- app_assoc|].
        split; [simpl; by rewrite Hn|simpl; lia].
      * destruct Hrest as (extra & Hs & Hlen). exists extra.
        split; [rewrite Hs, Hs1; simpl; by rewrite <- app_assoc|exact Hlen].
    + injection Hrun as <- <-. destruct Hd as (Ht & Hd).
      split; [exact Hc1|]. split; [by rewrite Ht|].
      exists []. split; [by rewrite Ht, app_nil_r|].
      destruct Hd as [(_ & _ & Hs)|(_ & _ & Hs)].
      * exists []. rewrite Hs, !app_nil_r. split; [done|simpl; lia].
      * exists [id r]. split; [exact Hs|simpl; lia].
Qed.
Lemma iterationBody_unfold i s :
  iterationBody' i s =
  match forRequests' i 0 requests ([], []) s with
  | (Normal (_, res), s') =>
      (Normal (),
       {| testCtx := withIteration (testCtx s') res;
          runnerExecutions := runnerExecutions s';
          effects := effects s' |})
  | (Throw e, s') => (Throw e, s')
  end.
Proof.
  unfold iterationBody. rewrite bind_run.
  destruct (forRequests' i 0 requests ([], []) s) as [[[nx res]|e] s'];
    reflexivity.
Qed.

Lemma forIterations_succ count i s :
  forIterations' (S count) i s =
  match iterationBody' i s with
  | (Normal _, s') => forIterations' count (S i) s'
  | (Throw e, s') => (Throw e, s')
  end.
Proof. reflexivity. Qed.

(** The iteration loop runs its first [a] turns, then the others. *)
Lemma forIterations_add a b i s :
  forIterations' (a + b) i s =
  match forIterations' a i s with
  | (Normal _, s') => forIterations' b (i + a) s'
  | (Throw e, s') => (Throw e, s')
  end.
Proof.
  revert i s. induction a as [|a IH]; intros i s.
  - simpl. by rewrite Nat.add_0_r.
  - rewrite Nat.add_succ_l, !forIterations_succ.
    destruct (iterationBody' i s) as [[[]|e] s']; [|reflexivity].
    rewrite IH. by rewrite Nat.add_succ_r.
Qed.

(** What the iteration loop does to the store, to [testCtx] and to the
    executor, however it ends. *)
Lemma forIterations_run count : forall i s c s',
  forIterations' count i s = (c, s') ->
  created (effects s') = created (effects s) /\
  exists infos,
    ctx_responsesInfo (testCtx s') = ctx_responsesInfo (testCtx s) ++ infos /\
    match c with
    | Normal _ =>
        sentIds (effects s') =
          sentIds (effects s) ++ map originalRequestId infos /\
        length (ctx_iterationResults (testCtx s')) =
          length (ctx_iterationResults (testCtx s)) + count
    | Throw e =>
        (exists extra,
           sentIds (effects s') =
             sentIds (effects s) ++ map originalRequestId infos ++ extra /\
           length extra <= 1) /\
        length (ctx_iterationResults (testCtx s')) <
          length (ctx_iterationResults (testCtx s)) + count
    end.
Proof.
  induction count as [|count IH]; intros i s c s' Hrun.
  - injection Hrun as <- <-. split; [done|].
    exists []. rewrite !app_nil_r. split; [done|]. split; [done|lia].
  - rewrite forIterations_succ, iterationBody_unfold in Hrun.
    destruct (forRequests' i 0 requests ([], []) s) as [[[nx res]|e] s1] eqn:Hr;
      apply forRequests_run in Hr as (Hc1 & Hi1 & infos1 & Hinfos1 & Hr).
    + destruct Hr as (Hs1 & _).
      apply IH in Hrun as (Hc & infos & Hinfos & Hrest). simpl in *.
      split; [congruence|].
      exists (infos1 ++ infos).
      split; [rewrite Hinfos, Hinfos1; by rewrite <- app_assoc|].
      rewrite length_app, Hi1 in Hrest. simpl in Hrest.
      destruct c as [[]|e].
      * destruct Hrest as (Hs & Hlen).
        split; [rewrite Hs, Hs1, map_app; by rewrite <- app_assoc|lia].
      * destruct Hrest as ((extra & Hs & Hlen) & Hlt).
        split; [|lia]. exists extra.
        split; [rewrite Hs, Hs1, map_app; by rewrite <- !app_assoc|exact Hlen].
    + injection Hrun as <- <-.
      split; [exact Hc1|]. exists infos1. split; [exact Hinfos1|].
      split; [exact Hr|]. rewrite Hi1. lia.
Qed.


Local Abbreviation run' :=
  (runCollectionAction env organizationId projectId workspaceId requests
     iterations delay userUploadEnvs).
Local Abbreviation redirect' :=
  (redirect organizationId projectId workspaceId).
Local Abbreviation started' := (started workspaceId iterations userUploadEnvs).
Local Abbreviation finalized' := (finalized env workspaceId).

(** The action, case by case on how its loops end. *)
Lemma runCollectionAction_unfold s :
  run' s =
  match forIterations' iterations 0 (started' s) with
  | (Normal _, s1) =>
      (Normal (redirect' None),
       finalized'
         (logged
            (logged s1 (MainUpdateLatestStepName workspaceId (js "Done")))
            (MainCompleteExecutionStep workspaceId)))
  | (Throw e, s1) =>
      (caught organizationId projectId workspaceId e,
       finalized' (snd (cancelExecution workspaceId s1)))
  end.
Proof.
  unfold runCollectionAction, startExecution, setRunnerExecutions, setTestCtx.
  repeat (progress (rewrite ?bind_run, ?emit_run; cbv beta iota)).
  unfold logged at 1 2. simpl. rewrite <- app_assoc. simpl.
  fold (started' s).
  unfold tryCatchFinally, tryBlock, catchBlock, finallyBlock,
    runnerTestResultCreate.
  rewrite bind_run.
  destruct (forIterations' iterations 0 (started' s)) as [[[]|e] s1].
  - repeat (progress (rewrite ?bind_run, ?emit_run, ?await_eq, ?mret_run,
                        ?getTestCtx_run; cbv beta iota)).
    reflexivity.
  - rewrite bind_run, cancelExecution_run. cbv beta iota.
    unfold caught, lift. rewrite bind_run.
    destruct (errMsgOf e) as [errMsg|e'];
      repeat (progress (rewrite ?bind_run, ?emit_run, ?await_eq, ?mret_run,
                          ?getTestCtx_run; cbv beta iota));
      reflexivity.
Qed.
End RunLemmas.

(** ** Percent-encoding *)

Example encodeURIComponent_ascii :
  encodeURIComponent (js "a b&c=d/e?f_g-h.i~j!k*l'm(n)") =
  Some (js "a%20b%26c%3Dd%2Fe%3Ff_g-h.i~j!k*l'm(n)").
Proof. reflexivity. Qed.

(** U+00E9, U+20AC and U+1F600 (written as a surrogate pair) take two,
    three and four octets. *)
Example encodeURIComponent_utf8 :
  encodeURIComponent [233; 8364; 55357; 56832]%N =
  Some (js "%C3%A9%E2%82%AC%F0%9F%98%80").
Proof. reflexivity. Qed.

Example encodeURIComponent_lone_surrogates :
  encodeURIComponent [55357]%N = None /\
  encodeURIComponent [56832]%N = None /\
  encodeURIComponent [55357; 97]%N = None /\
  encodeURIComponent [56832; 55357]%N = None.
Proof. repeat split. Qed.

Lemma isUnescaped_not_surrogate c :
  isUnescaped c = true ->
  isLeadingSurrogate c = false /\ isTrailingSurrogate c = false.
Proof.
  unfold isUnescaped, isLeadingSurrogate, isTrailingSurrogate. intros Hc.
  assert (c < 128)%N as Hsmall.
  { repeat (apply orb_prop in Hc as [Hc|Hc]);
      try (apply andb_prop in Hc as [_ Hc]; apply N.leb_le in Hc; lia);
      apply N.eqb_eq in Hc; lia. }
  split; apply andb_false_intro1; apply N.leb_gt; lia.
Qed.

(** [encodeURIComponent] throws exactly on the strings that are not well
    formed. *)
Lemma encodeURIComponent_isWellFormed s :
  is_Some (encodeURIComponent s) <-> isWellFormed s = true.
Proof.
  enough ((is_Some (encodeURIComponent s) <-> isWellFormed s = true) /\
          forall c, is_Some (encodeURIComponent (c :: s)) <->
                    isWellFormed (c :: s) = true) as [Hs _] by exact Hs.
  induction s as [|d s [IHs IHd]].
  - split; [split; [done|by eexists]|]. intros c. simpl.
    destruct (isUnescaped c) eqn:Hu.
    + destruct (isUnescaped_not_surrogate c Hu) as [-> ->].
      split; [done|by eexists].
    + destruct (isTrailingSurrogate c); [split; [by intros []|done]|].
      destruct (isLeadingSurrogate c); [split; [by intros []|done]|].
      split; [done|by eexists].
  - split; [apply IHd|]. intros c.
    change (encodeURIComponent (c :: d :: s)) with
      (if isUnescaped c then cons c <$> encodeURIComponent (d :: s)
       else if isTrailingSurrogate c then None
       else if isLeadingSurrogate c then
         if isTrailingSurrogate d then
           app (flat_map percentOctet
                  (utf8 ((c - 55296) * 1024 + (d - 56320) + 65536)%N))
             <$> encodeURIComponent s
         else None
       else app (flat_map percentOctet (utf8 c))
              <$> encodeURIComponent (d :: s)).
    change (isWellFormed (c :: d :: s)) with
      (if isTrailingSurrogate c then false
       else if isLeadingSurrogate c
            then isTrailingSurrogate d && isWellFormed s
            else isWellFormed (d :: s)).
    destruct (isUnescaped c) eqn:Hu.
    + destruct (isUnescaped_not_surrogate c Hu) as [-> ->].
      rewrite fmap_is_Some. apply IHd.
    + destruct (isTrailingSurrogate c); [split; [by intros []|done]|].
      destruct (isLeadingSurrogate c).
      * destruct (isTrailingSurrogate d); simpl.
        -- rewrite fmap_is_Some. exact IHs.
        -- split; [by intros []|done].
      * rewrite fmap_is_Some. apply IHd.
Qed.

(** The failures for which building [errMsg] throws: [undefined], [null],
    and the values whose string is not well formed. *)
Lemma errMsgOf_throws e e' :
  errMsgOf e = Throw e' <->
  (e = ThrownUndefined /\
   e' = TypeError (js "Cannot read properties of undefined (reading 'error')"))
  \/ (e = ThrownNull /\
      e' = TypeError (js "Cannot read properties of null (reading 'error')"))
  \/ (exists operand,
        errorOperand e = Normal operand /\
        isWellFormed operand = false /\
        e' = URIError (js "URI malformed")).
Proof.
  unfold errMsgOf. split.
  - destruct (errorOperand e) as [operand|e0] eqn:Hoperand.
    + destruct (encodeURIComponent operand) as [errMsg|] eqn:Hencode;
        [discriminate|].
      intros [= <-]. right. right. exists operand. split; [done|].
      split; [|done]. apply not_true_is_false. intros Hwf.
      apply encodeURIComponent_isWellFormed in Hwf as [errMsg Hsome].
      congruence.
    + intros [= ->]. destruct e as [| | | |[|c r]]; try discriminate;
        injection Hoperand as <-; [left|right; left]; done.
  - intros [[-> ->]|[[-> ->]|(operand & -> & Hwf & ->)]]; try reflexivity.
    destruct (encodeURIComponent operand) as [errMsg|] eqn:Hencode;
      [|reflexivity].
    assert (isWellFormed operand = true) as Hwf'
      by (apply encodeURIComponent_isWellFormed; by eexists).
    congruence.
Qed.

(** The [catch] clause never completes with the plain redirect. *)
Lemma caught_error organizationId projectId workspaceId e response :
  caught organizationId projectId workspaceId e = Normal response ->
  exists errMsg,
    errMsgOf e = Normal errMsg /\
    response = redirect organizationId projectId workspaceId (Some errMsg).
Proof.
  unfold caught. destruct (errMsgOf e) as [errMsg|e']; [|discriminate].
  intros [= <-]. by exists errMsg.
Qed.

Lemma caught_not_plain organizationId projectId workspaceId e :
  caught organizationId projectId workspaceId e <>
  Normal (redirect organizationId projectId workspaceId None).
Proof.
  intros Hplain. apply caught_error in Hplain as (errMsg & _ & Hplain).
  discriminate Hplain.
Qed.

(** ** Finalization *)

Section Finalization.
Context (env : Environment).
Context (organizationId projectId workspaceId : jsstring).
Context (requests : list RequestType) (iterations delay : nat).
Context (userUploadEnvs : option (list UserUploadEnvironment)).

Local Abbreviation run' :=
  (runCollectionAction env organizationId projectId workspaceId requests
     iterations delay userUploadEnvs).

Lemma started_observations s :
  created (effects (started workspaceId iterations userUploadEnvs s)) =
    created (effects s) /\
  sentIds (effects (started workspaceId iterations userUploadEnvs s)) =
    sentIds (effects s).
Proof.
  unfold started. simpl. rewrite created_app, sentIds_app. simpl.
  by rewrite !app_nil_r.
Qed.

Lemma finalized_observations s :
  testCtx (finalized env workspaceId s) = testCtx s /\
  created (effects (finalized env workspaceId s)) =
    created (effects s) ++ [docOfTestCtx workspaceId (testCtx s)] /\
  sentIds (effects (finalized env workspaceId s)) = sentIds (effects s).
Proof.
  unfold finalized.
  destruct (awaited_pressed env AwaitCreate
              (logged s (RunnerTestResultCreate
                           (docOfTestCtx workspaceId (testCtx s)))))
    as [Ht Hc Hs _ _].
  rewrite Ht, Hc, Hs. simpl. rewrite created_app, sentIds_app. simpl.
  by rewrite app_nil_r.
Qed.

End Finalization.

(** ** Runs that nobody cancels *)

Section Uncancelled.
Context (env : Environment).
Context (organizationId projectId workspaceId : jsstring).
Context (requests : list RequestType) (iterations delay : nat).
Context (userUploadEnvs : option (list UserUploadEnvironment)).
Hypothesis never_pressed : forall p, workspaceId ∉ cancelClicks env p.

Local Abbreviation forRequests' :=
  (forRequests env workspaceId requests iterations delay userUploadEnvs).
Local Abbreviation forIterations' :=
  (forIterations env workspaceId requests iterations delay userUploadEnvs).
Local Abbreviation run' :=
  (runCollectionAction env organizationId projectId workspaceId requests
     iterations delay userUploadEnvs).

Lemma never_undisturbed i j : undisturbed env workspaceId i j.
Proof. repeat split; apply never_pressed. Qed.

Lemma forRequests_alive i rest : forall j locals s c s',
  is_Some (runnerExecutions s !! workspaceId) ->
  forRequests' i j rest locals s = (c, s') ->
  is_Some (runnerExecutions s' !! workspaceId).
Proof.
  induction rest as [|r rest IH]; intros j [nx res] s c s' Halive Hrun.
  - by injection Hrun as <- <-.
  - rewrite forRequests_cons, requestBody_unfold in Hrun.
    destruct Halive as [active Hactive]. rewrite Hactive in Hrun.
    destruct (redirectGate requests j r nx) as [nx1|].
    2:{ eapply IH; [|exact Hrun]. by exists active. }
    destruct (dispatch env workspaceId requests iterations delay
                userUploadEnvs i j r nx1 res s) as [c1 s1] eqn:Hd.
    apply dispatch_run in Hd as (_ & Hreg & _).
    specialize (Hreg (never_undisturbed i j)).
    destruct c1 as [locals1|e].
    + eapply IH; [|exact Hrun]. by rewrite Hreg.
    + injection Hrun as <- <-. by rewrite Hreg.
Qed.

Lemma forIterations_alive count : forall i s c s',
  is_Some (runnerExecutions s !! workspaceId) ->
  forIterations' count i s = (c, s') ->
  is_Some (runnerExecutions s' !! workspaceId).
Proof.
  induction count as [|count IH]; intros i s c s' Halive Hrun.
  - by injection Hrun as <- <-.
  - rewrite forIterations_succ, iterationBody_unfold in Hrun.
    destruct (forRequests' i 0 requests ([], []) s) as [[[nx res]|e] s1] eqn:Hr;
      apply forRequests_alive in Hr; try exact Halive.
    + eapply IH; [|exact Hrun]. exact Hr.
    + by injection Hrun as <- <-.
Qed.

(** C4: when nobody presses cancel and the action returns without an error
    (its loops completed), the registry still holds an entry for the
    workspace after the action has returned: normal completion never
    removes it. *)
Theorem entry_survives_normal_completion (s : State) response s' :
  run' s = (Normal response, s') ->
  redirect_error response = None ->
  is_Some (runnerExecutions s' !! workspaceId).
Proof.
  rewrite runCollectionAction_unfold.
  destruct (forIterations' iterations 0
              (started workspaceId iterations userUploadEnvs s))
    as [[[]|e] s1] eqn:Hrun.
  - intros [= <- <-] _.
    apply forIterations_alive in Hrun.
    2:{ simpl. rewrite lookup_insert_eq. by eexists. }
    unfold finalized.
    rewrite (pressed_other _ _ _ (awaited_pressed env AwaitCreate _))
      by apply never_pressed.
    exact Hrun.
  - intros [= Hcaught <-].
    apply caught_error in Hcaught as (errMsg & _ & ->). discriminate.
Qed.

Section NoRedirect.
Hypothesis all_resolve : forall i j, resolves env i j.
Hypothesis no_redirect : forall i j, nextOf env i j = [].

Lemma forRequests_calm i rest : forall j res s,
  is_Some (runnerExecutions s !! workspaceId) ->
  exists s',
    forRequests' i j rest ([], res) s =
      (Normal ([], res ++ imap (fun k r => resultOf env i (j + k) r) rest), s') /\
    is_Some (runnerExecutions s' !! workspaceId) /\
    created (effects s') = created (effects s) /\
    ctx_iterationResults (testCtx s') = ctx_iterationResults (testCtx s) /\
    ctx_responsesInfo (testCtx s') =
      ctx_responsesInfo (testCtx s)
      ++ imap (fun k r => infoOf env i (j + k) r) rest.
Proof.
  induction rest as [|r rest IH]; intros j res s Halive.
  - exists s. simpl. by rewrite !app_nil_r.
  - rewrite forRequests_cons, requestBody_unfold.
    destruct Halive as [active Hactive]. rewrite Hactive.
    rewrite redirectGate_nil.
    destruct (dispatch env workspaceId requests iterations delay
                userUploadEnvs i j r [] res s) as [c1 s1] eqn:Hd.
    apply dispatch_run in Hd as (Hc1 & Hreg & Hd).
    specialize (Hreg (never_undisturbed i j)).
    destruct c1 as [[nx1 res1]|e].
    + destruct Hd as (_ & -> & -> & Ht & _).
      rewrite no_redirect. cbv iota.
      destruct (IH (S j) (res ++ [resultOf env i j r]) s1)
        as (s' & Hrun & Halive' & Hc & Hi & Hinfos);
        [by rewrite Hreg|].
      exists s'. rewrite Hrun.
      rewrite (imap_offset_cons (resultOf env i)).
      rewrite (imap_offset_cons (infoOf env i)).
      split; [by rewrite <- app_assoc|].
      split; [exact Halive'|]. split; [congruence|].
      split; [by rewrite Hi, Ht|].
      rewrite Hinfos, Ht. simpl. by rewrite <- app_assoc.
    + exfalso. destruct (all_resolve i j) as (Hm & nx' & rs & dur & rid & Ho).
      destruct Hd as (_ & [(Hf & _)|(_ & Hthrow & _)]); congruence.
Qed.

Lemma forIterations_calm count : forall i s,
  is_Some (runnerExecutions s !! workspaceId) ->
  exists s',
    forIterations' count i s = (Normal (), s') /\
    created (effects s') = created (effects s) /\
    ctx_iterationResults (testCtx s') =
      ctx_iterationResults (testCtx s)
      ++ map (fun i' => imap (fun j r => resultOf env i' j r) requests)
           (seq i count) /\
    length (ctx_responsesInfo (testCtx s')) =
      length (ctx_responsesInfo (testCtx s)) + count * length requests.
Proof.
  induction count as [|count IH]; intros i s Halive.
  - exists s. simpl. rewrite app_nil_r. repeat split. lia.
  - rewrite forIterations_succ, iterationBody_unfold.
    destruct (forRequests_calm i requests 0 [] s Halive)
      as (s1 & Hrun & Halive1 & Hc1 & Hi1 & Hinfos1).
    rewrite Hrun.
    set (s2 := {| testCtx := _; runnerExecutions := runnerExecutions s1;
                  effects := effects s1 |}).
    destruct (IH (S i) s2 Halive1) as (s' & Hrun' & Hc & Hi & Hlen).
    exists s'. split; [exact Hrun'|].
    split; [rewrite Hc; exact Hc1|].
    split.
    + rewrite Hi. subst s2. simpl. rewrite Hi1, <- app_assoc. reflexivity.
    + rewrite Hlen. subst s2. simpl. rewrite Hinfos1, length_app, length_imap.
      lia.
Qed.

(** C1: a run of [iterations] iterations over the request list in which
    every dispatch resolves, none signals a redirect and nobody cancels
    returns without error after storing one document whose
    [iterationResults] has [iterations] entries, each with one result per
    request, in the order of the request list; its [responsesInfo] has
    one entry per dispatch. *)
Theorem undisturbed_run_results (s : State) :
  exists s' doc,
    run' s = (Normal (redirect organizationId projectId workspaceId None), s') /\
    created (effects s') = created (effects s) ++ [doc] /\
    doc_iterationResults doc =
      map (fun i => imap (fun j r => resultOf env i j r) requests)
        (seq 0 iterations) /\
    length (doc_iterationResults doc) = iterations /\
    Forall (fun rs => length rs = length requests /\
                      map requestName rs = map name requests /\
                      map requestUrl rs = map url requests)
      (doc_iterationResults doc) /\
    length (doc_responsesInfo doc) = iterations * length requests.
Proof.
  rewrite runCollectionAction_unfold.
  destruct (forIterations_calm iterations 0
              (started workspaceId iterations userUploadEnvs s))
    as (s1 & Hrun & Hc & Hi & Hlen).
  { simpl. rewrite lookup_insert_eq. by eexists. }
  rewrite Hrun. simpl in Hi, Hlen.
  set (s2 := logged (logged s1 _) _).
  destruct (finalized_observations env workspaceId s2) as (Ht & Hcf & _).
  eexists _, _. split; [reflexivity|].
  split.
  { rewrite Hcf. subst s2. simpl. rewrite !created_app. simpl.
    rewrite !app_nil_r, Hc.
    by rewrite (proj1 (started_observations workspaceId iterations
                         userUploadEnvs s)). }
  simpl. rewrite Hi, Hlen.
  split; [reflexivity|]. split; [by rewrite length_map, length_seq|].
  split; [|reflexivity].
  apply Forall_forall. intros rs Hrs.
  apply list_elem_of_fmap in Hrs as (i & -> & _).
  rewrite length_imap. split; [reflexivity|].
  split; apply list_eq; intros k; rewrite !list_lookup_fmap, list_lookup_imap;
    by destruct (requests !! k).
Qed.
End NoRedirect.
End Uncancelled.

(** ** Redirects *)

Lemma redirectGate_Some requests j r nx v :
  redirectGate requests j r nx = Some v -> v = [].
Proof.
  unfold redirectGate. case_bool_decide as Hnx.
  - destruct (redirectMatches requests j r nx); congruence.
  - intros [= <-]. destruct nx; [reflexivity|discriminate Hnx].
Qed.

Lemma redirectGate_pending requests j r target :
  target <> [] ->
  redirectGate requests j r target =
  if redirectMatches requests j r target then Some [] else None.
Proof. intros Ht. unfold redirectGate. by rewrite bool_decide_eq_true_2. Qed.

Section Redirects.
Context (env : Environment).
Context (workspaceId : jsstring).
Context (requests : list RequestType) (iterations delay : nat).
Context (userUploadEnvs : option (list UserUploadEnvironment)).

Local Abbreviation requestBody' :=
  (requestBody env workspaceId requests iterations delay userUploadEnvs).
Local Abbreviation forRequests' :=
  (forRequests env workspaceId requests iterations delay userUploadEnvs).

(** A candidate that passes the liveness check and the redirect block, and
    whose dispatch resolves. *)
Lemma requestBody_executed i j r nx res s :
  is_Some (runnerExecutions s !! workspaceId) ->
  is_Some (redirectGate requests j r nx) ->
  resolves env i j ->
  exists s',
    requestBody' i j r (nx, res) s =
      (Normal (nextOf env i j, res ++ [resultOf env i j r]), s') /\
    sentIds (effects s') = sentIds (effects s) ++ [id r] /\
    (undisturbed env workspaceId i j ->
     runnerExecutions s' !! workspaceId = Some (id r)).
Proof.
  intros [active Hactive] [nx0 Hgate] (Hmeta & nx' & rs & dur & rid & Hout).
  rewrite requestBody_unfold, Hactive, Hgate.
  apply redirectGate_Some in Hgate as ->.
  destruct (dispatch env workspaceId requests iterations delay
              userUploadEnvs i j r [] res s) as [c s'] eqn:Hd.
  apply dispatch_run in Hd as (_ & Hreg & Hd).
  destruct c as [[nx1 res1]|e].
  - destruct Hd as (_ & -> & -> & _ & Hs). exists s'.
    split; [|by split].
    by destruct (nextOf env i j).
  - exfalso. destruct Hd as (_ & [(Hf & _)|(_ & Hthrow & _)]); congruence.
Qed.

(** Candidates that do not match a pending target are passed over: no
    call is made and nothing changes. *)
Lemma forRequests_skipped i mid : forall j target res s,
  target <> [] ->
  is_Some (runnerExecutions s !! workspaceId) ->
  (forall q r, mid !! q = Some r ->
     redirectMatches requests (j + q) r target = false) ->
  forRequests' i j mid (target, res) s = (Normal (target, res), s).
Proof.
  induction mid as [|r mid IH]; intros j target res s Ht Halive Hno;
    [reflexivity|].
  rewrite forRequests_cons, requestBody_unfold.
  destruct Halive as [active Hactive]. rewrite Hactive.
  rewrite (redirectGate_pending _ _ _ _ Ht).
  specialize (Hno 0 r eq_refl) as Hr. rewrite Nat.add_0_r in Hr. rewrite Hr.
  apply IH; [exact Ht|by exists active|].
  intros q r' Hq. rewrite Nat.add_succ_l, <- Nat.add_succ_r.
  by apply Hno.
Qed.

(** C5, amended: when the request executed at index [k] signals the id of
    the request at index [m > k] as redirect target, no request strictly
    between them has that id or matches it by the name rule, nobody
    cancels during the dispatch of [k] and the dispatch of [m] resolves,
    then the rest of the iteration goes on after [m] with exactly the
    results of [k] and of [m] appended: the requests between them are not
    handed to the executor and leave no result, the request at [m] is. *)
Theorem redirect_by_id_skips_to_target
    (i k m : nat) (rk rm : RequestType) (target nx : jsstring)
    (res : list RunnerResultPerRequest) (s : State)
    (rs : list RequestTestResult) (dur : float) (rid : jsstring) :
  requests !! k = Some rk ->
  requests !! m = Some rm ->
  k < m ->
  is_Some (runnerExecutions s !! workspaceId) ->
  is_Some (redirectGate requests k rk nx) ->
  requestMetaFound env i k = true ->
  sendOutcome env i k = SendReturns (Some target) rs dur rid ->
  target <> [] ->
  undisturbed env workspaceId i k ->
  id rm = target ->
  (forall p r, k < p < m -> requests !! p = Some r ->
     id r <> target /\ ~ matchesByName requests p r target) ->
  resolves env i m ->
  exists s',
    sentIds (effects s') = sentIds (effects s) ++ [id rk; id rm] /\
    forRequests' i k (drop k requests) (nx, res) s =
    forRequests' i (S m) (drop (S m) requests)
      (nextOf env i m,
       res ++ [resultOf env i k rk; resultOf env i m rm]) s'.
Proof.
  intros Hk Hm Hkm Halive Hgate Hmeta Hout Ht Hund Hid Hmid Hres.
  assert (nextOf env i k = target) as Hnext.
  { unfold nextOf. rewrite Hout. by destruct target. }
  destruct (requestBody_executed i k rk nx res s Halive Hgate)
    as (s1 & Hrun1 & Hs1 & Hreg1); [split; eauto 10|].
  specialize (Hreg1 Hund). rewrite Hnext in Hrun1.
  pose proof (lookup_lt_Some _ _ _ Hm) as Hmlen.
  rewrite (drop_S _ _ _ Hk), forRequests_cons, Hrun1.
  rewrite <- (take_drop (m - S k) (drop (S k) requests)).
  rewrite forRequests_app, drop_drop, length_take, length_drop.
  replace (S k + (m - S k)) with m by lia.
  replace (S k + (m - S k) `min` (length requests - S k)) with m by lia.
  rewrite forRequests_skipped; [|exact Ht|by rewrite Hreg1|].
  2:{ intros q r Hq. apply lookup_take_Some in Hq as [Hq Hlt].
      rewrite lookup_drop in Hq.
      apply redirectMatches_false; [exact Hq| |]; apply (Hmid (S k + q)); (lia || done). }
  rewrite (drop_S _ _ _ Hm), forRequests_cons.
  destruct (requestBody_executed i m rm target
              (res ++ [resultOf env i k rk]) s1) as (s2 & Hrun2 & Hs2 & _);
    [by rewrite Hreg1| |exact Hres|].
  { rewrite (redirectGate_pending _ _ _ _ Ht).
    unfold redirectMatches. by rewrite (bool_decide_eq_true_2 _ Hid). }
  rewrite Hrun2. exists s2. split.
  - rewrite Hs2, Hs1. by rewrite <- app_assoc.
  - by rewrite <- app_assoc.
Qed.

Lemma forRequests_skipped_any i mid j target res s :
  target <> [] ->
  (forall q r, mid !! q = Some r ->
     redirectMatches requests (j + q) r target = false) ->
  exists c,
    forRequests' i j mid (target, res) s = (c, s) /\
    (is_Some (runnerExecutions s !! workspaceId) ->
     c = Normal (target, res)).
Proof.
  intros Ht Hno.
  destruct (runnerExecutions s !! workspaceId) as [active|] eqn:Hactive.
  - exists (Normal (target, res)). split; [|done].
    apply forRequests_skipped; [exact Ht|by rewrite Hactive|exact Hno].
  - destruct mid as [|r mid].
    + exists (Normal (target, res)). by split.
    + rewrite forRequests_cons, requestBody_unfold, Hactive.
      eexists. split; [reflexivity|]. by intros [? ?].
Qed.

(** C7: when the request executed at index [k] signals a redirect target
    that no later request carries as id and no later request matches by
    the name rule, no later request of the iteration is handed to the
    executor; unless somebody cancelled during the dispatch of [k], the
    rest of the iteration completes normally, with the result of [k] as
    the last one and the target still pending. *)
Theorem unresolvable_redirect_skips_rest
    (i k : nat) (rk : RequestType) (target nx : jsstring)
    (res : list RunnerResultPerRequest) (s : State)
    (rs : list RequestTestResult) (dur : float) (rid : jsstring) :
  requests !! k = Some rk ->
  is_Some (runnerExecutions s !! workspaceId) ->
  is_Some (redirectGate requests k rk nx) ->
  requestMetaFound env i k = true ->
  sendOutcome env i k = SendReturns (Some target) rs dur rid ->
  target <> [] ->
  (forall p r, k < p -> requests !! p = Some r ->
     id r <> target /\ ~ matchesByName requests p r target) ->
  exists c s',
    forRequests' i k (drop k requests) (nx, res) s = (c, s') /\
    sentIds (effects s') = sentIds (effects s) ++ [id rk] /\
    (undisturbed env workspaceId i k ->
     c = Normal (target, res ++ [resultOf env i k rk])).
Proof.
  intros Hk Halive Hgate Hmeta Hout Ht Hlater.
  assert (nextOf env i k = target) as Hnext.
  { unfold nextOf. rewrite Hout. by destruct target. }
  destruct (requestBody_executed i k rk nx res s Halive Hgate)
    as (s1 & Hrun1 & Hs1 & Hreg1); [split; eauto 10|].
  rewrite Hnext in Hrun1.
  rewrite (drop_S _ _ _ Hk), forRequests_cons, Hrun1.
  destruct (forRequests_skipped_any i (drop (S k) requests) (S k) target
              (res ++ [resultOf env i k rk]) s1 Ht) as (c & Hrun & Hc).
  { intros q r Hq. rewrite lookup_drop in Hq.
    apply redirectMatches_false; [exact Hq| |];
      apply (Hlater (S k + q)); (lia || done). }
  exists c, s1. split; [exact Hrun|]. split; [exact Hs1|].
  intros Hund. apply Hc. rewrite (Hreg1 Hund). by eexists.
Qed.
End Redirects.

(** ** Aborted runs *)

Section Aborts.
Context (env : Environment).
Context (organizationId projectId workspaceId : jsstring).
Context (requests : list RequestType) (iterations delay : nat).
Context (userUploadEnvs : option (list UserUploadEnvironment)).

Local Abbreviation requestBody' :=
  (requestBody env workspaceId requests iterations delay userUploadEnvs).
Local Abbreviation forRequests' :=
  (forRequests env workspaceId requests iterations delay userUploadEnvs).
Local Abbreviation forIterations' :=
  (forIterations env workspaceId requests iterations delay userUploadEnvs).
Local Abbreviation reachIteration' :=
  (reachIteration env workspaceId requests iterations delay userUploadEnvs).
Local Abbreviation reachRequest' :=
  (reachRequest env workspaceId requests iterations delay userUploadEnvs).
Local Abbreviation run' :=
  (runCollectionAction env organizationId projectId workspaceId requests
     iterations delay userUploadEnvs).
Local Abbreviation started' := (started workspaceId iterations userUploadEnvs).

Lemma reachIteration_unfold i s :
  reachIteration' i s = forIterations' i 0 (started' s).
Proof.
  unfold reachIteration, startExecution, setRunnerExecutions, setTestCtx.
  repeat (progress (rewrite ?bind_run, ?emit_run; cbv beta iota)).
  unfold logged, started. simpl. by rewrite <- app_assoc.
Qed.

Lemma reachIteration_run i s sI :
  reachIteration' i s = (Normal (), sI) ->
  created (effects sI) = created (effects s) /\
  length (ctx_iterationResults (testCtx sI)) = i.
Proof.
  rewrite reachIteration_unfold. intros Hrun.
  apply forIterations_run in Hrun as (Hc & _ & _ & _ & Hlen).
  split; [|exact Hlen].
  rewrite Hc. apply started_observations.
Qed.

(** A failure in the body of the request loop ends both loops at once. *)
Lemma loops_abort i j r locals s sI s1 e s2 :
  i < iterations ->
  requests !! j = Some r ->
  reachIteration' i s = (Normal (), sI) ->
  reachRequest' i j sI = (Normal locals, s1) ->
  requestBody' i j r locals s1 = (Throw e, s2) ->
  forIterations' iterations 0 (started' s) = (Throw e, s2).
Proof.
  intros Hi Hj HI HR HB. rewrite reachIteration_unfold in HI.
  unfold reachRequest in HR.
  replace iterations with (i + S (iterations - S i)) at 2 by lia.
  rewrite forIterations_add, HI, forIterations_succ, iterationBody_unfold.
  pose proof (forRequests_app env workspaceId requests iterations delay
                userUploadEnvs i 0 (take j requests) (drop j requests)
                ([], []) sI) as Happ.
  pose proof (lookup_lt_Some _ _ _ Hj) as Hlt.
  rewrite take_drop, HR, length_take, Nat.add_0_l, Nat.min_l in Happ by lia.
  rewrite (drop_S _ _ _ Hj), forRequests_cons, HB in Happ.
  simpl. by rewrite Happ.
Qed.

(** What a failure in the body of the request loop leads to: the loops end,
    the [catch] clause cancels and completes as [caught] tells, and the
    [finally] block stores the [testCtx] of that moment. *)
Lemma failed_run
    (i j : nat) (r : RequestType)
    (locals : jsstring * list RunnerResultPerRequest)
    (s sI s1 s2 : State) (e : Thrown) :
  i < iterations ->
  requests !! j = Some r ->
  reachIteration' i s = (Normal (), sI) ->
  reachRequest' i j sI = (Normal locals, s1) ->
  requestBody' i j r locals s1 = (Throw e, s2) ->
  exists s',
    run' s = (caught organizationId projectId workspaceId e, s') /\
    sentIds (effects s') = sentIds (effects s2) /\
    created (effects s') =
      created (effects s2) ++ [docOfTestCtx workspaceId (testCtx s2)] /\
    ((e = ThrownString (js "Runner has been stopped") /\
      runnerExecutions s1 !! workspaceId = None)
     \/ (e = ThrownError (js "Error") (js "Request meta not found") /\
         requestMetaFound env i j = false)
     \/ sendOutcome env i j = SendThrows e).
Proof.
  intros Hi Hj HI HR HB.
  rewrite runCollectionAction_unfold,
    (loops_abort i j r locals s sI s1 e s2 Hi Hj HI HR HB).
  destruct (cancelExecution_pressed workspaceId s2) as [Ht Hc Hs _ _].
  destruct (finalized_observations env workspaceId
              (snd (cancelExecution workspaceId s2))) as (_ & Hcf & Hsf).
  eexists. split; [reflexivity|].
  split; [by rewrite Hsf|]. split; [by rewrite Hcf, Hc, Ht|].
  destruct locals as [nx res]. rewrite requestBody_unfold in HB.
  destruct (runnerExecutions s1 !! workspaceId) as [active|];
    [|injection HB as <- <-; by left].
  destruct (redirectGate requests j r nx) as [nx0|]; [|discriminate HB].
  apply dispatch_run in HB as (_ & _ & _ & [(Hf & -> & _)|(_ & Hthrow & _)]).
  - right. by left.
  - right. by right.
Qed.

(** The two failures that the runner raises itself have messages that can
    be encoded. *)
Lemma errMsgOf_stopped :
  errMsgOf (ThrownString (js "Runner has been stopped")) =
  Normal (js "Runner%20has%20been%20stopped").
Proof. reflexivity. Qed.

Lemma errMsgOf_meta_not_found :
  errMsgOf (ThrownError (js "Error") (js "Request meta not found")) =
  Normal (js "Error%3A%20Request%20meta%20not%20found").
Proof. reflexivity. Qed.

(** C9: the [catch] clause does not hold back every failure.  When the body
    of the request loop fails at iteration [i], index [j], with a value for
    which building [errMsg] throws in its turn ([undefined], [null], or a
    message with a surrogate that has no partner), the action makes no
    further dispatch and stores one document, the [testCtx] of that moment,
    but then rejects with the second exception instead of returning a
    redirect.  Only a failure of the executor can do this. *)
Theorem failure_escapes_catch_clause
    (i j : nat) (r : RequestType)
    (locals : jsstring * list RunnerResultPerRequest)
    (s sI s1 s2 : State) (e e' : Thrown) :
  i < iterations ->
  requests !! j = Some r ->
  reachIteration' i s = (Normal (), sI) ->
  reachRequest' i j sI = (Normal locals, s1) ->
  requestBody' i j r locals s1 = (Throw e, s2) ->
  errMsgOf e = Throw e' ->
  exists s' doc,
    run' s = (Throw e', s') /\
    sentIds (effects s') = sentIds (effects s2) /\
    created (effects s') = created (effects s2) ++ [doc] /\
    doc_iterationResults doc = ctx_iterationResults (testCtx s2) /\
    doc_responsesInfo doc = ctx_responsesInfo (testCtx s2) /\
    sendOutcome env i j = SendThrows e.
Proof.
  intros Hi Hj HI HR HB Hthrows.
  destruct (failed_run i j r locals s sI s1 s2 e Hi Hj HI HR HB)
    as (s' & Hrun & Hsent & Hcreated & Hcause).
  exists s', (docOfTestCtx workspaceId (testCtx s2)).
  unfold caught in Hrun. rewrite Hthrows in Hrun.
  split; [exact Hrun|]. split; [exact Hsent|]. split; [exact Hcreated|].
  split; [reflexivity|]. split; [reflexivity|].
  destruct Hcause as [[-> _]|[[-> _]|Hsend]]; [| |exact Hsend].
  - by rewrite errMsgOf_stopped in Hthrows.
  - by rewrite errMsgOf_meta_not_found in Hthrows.
Qed.

(** When the body of the request loop fails at iteration [i], index [j]
    (the run was cancelled, the request meta is missing, or the executor
    threw), and the failure has a message that can be percent-encoded, the
    action makes no further dispatch, stores the [testCtx] of that moment
    and returns the redirect whose location ends in [&error=] followed by
    the encoded message. *)
Theorem failure_ends_run_with_error_redirect
    (i j : nat) (r : RequestType)
    (locals : jsstring * list RunnerResultPerRequest)
    (s sI s1 s2 : State) (e : Thrown) (errMsg : jsstring) :
  i < iterations ->
  requests !! j = Some r ->
  reachIteration' i s = (Normal (), sI) ->
  reachRequest' i j sI = (Normal locals, s1) ->
  requestBody' i j r locals s1 = (Throw e, s2) ->
  errMsgOf e = Normal errMsg ->
  exists response s' doc,
    run' s = (Normal response, s') /\
    redirect_error response = Some errMsg /\
    location response =
      js "/organization/" ++ organizationId ++ js "/project/" ++ projectId
      ++ js "/workspace/" ++ workspaceId ++ js "/debug/runner?refresh-pane"
      ++ js "&error=" ++ errMsg /\
    sentIds (effects s') = sentIds (effects s2) /\
    created (effects s') = created (effects s2) ++ [doc] /\
    doc_iterationResults doc = ctx_iterationResults (testCtx s2) /\
    doc_responsesInfo doc = ctx_responsesInfo (testCtx s2) /\
    ((e = ThrownString (js "Runner has been stopped") /\
      runnerExecutions s1 !! workspaceId = None)
     \/ (e = ThrownError (js "Error") (js "Request meta not found") /\
         requestMetaFound env i j = false)
     \/ sendOutcome env i j = SendThrows e).
Proof.
  intros Hi Hj HI HR HB Hmsg.
  destruct (failed_run i j r locals s sI s1 s2 e Hi Hj HI HR HB)
    as (s' & Hrun & Hsent & Hcreated & Hcause).
  unfold caught in Hrun. rewrite Hmsg in Hrun.
  exists (redirect organizationId projectId workspaceId (Some errMsg)), s',
    (docOfTestCtx workspaceId (testCtx s2)).
  split; [exact Hrun|]. split; [reflexivity|]. split; [reflexivity|].
  split; [exact Hsent|]. split; [exact Hcreated|].
  split; [reflexivity|]. split; [reflexivity|]. exact Hcause.
Qed.

(** C3, amended: when the registry entry of the run is gone at the liveness
    check before the request at index [j] of iteration [i], the action
    hands neither that request nor any later one to the executor and
    returns with the 'Runner has been stopped' redirect after storing one
    document.  The document holds the [i] completed iterations only: the
    results of the requests executed before [j] in the interrupted
    iteration are not in its [iterationResults]; those requests appear in
    its [responsesInfo]. *)
Theorem cancellation_stops_before_request
    (i j : nat) (r : RequestType) (nx : jsstring)
    (res : list RunnerResultPerRequest) (s sI s1 : State) :
  i < iterations ->
  requests !! j = Some r ->
  reachIteration' i s = (Normal (), sI) ->
  reachRequest' i j sI = (Normal (nx, res), s1) ->
  runnerExecutions s1 !! workspaceId = None ->
  exists s' doc,
    run' s =
      (Normal (redirect organizationId projectId workspaceId
                 (Some (js "Runner%20has%20been%20stopped"))), s') /\
    sentIds (effects s') = sentIds (effects s1) /\
    created (effects s') = created (effects s) ++ [doc] /\
    doc_iterationResults doc = ctx_iterationResults (testCtx sI) /\
    length (doc_iterationResults doc) = i /\
    exists infos,
      doc_responsesInfo doc = ctx_responsesInfo (testCtx sI) ++ infos /\
      map originalRequestName infos = map requestName res.
Proof.
  intros Hi Hj HI HR Hgone.
  assert (requestBody' i j r (nx, res) s1 =
          (Throw (ThrownString (js "Runner has been stopped")), s1)) as HB
    by (by rewrite requestBody_unfold, Hgone).
  rewrite runCollectionAction_unfold,
    (loops_abort i j r (nx, res) s sI s1 _ s1 Hi Hj HI HR HB).
  unfold caught. rewrite errMsgOf_stopped.
  rewrite cancelExecution_run, Hgone. simpl.
  destruct (finalized_observations env workspaceId s1) as (_ & Hcf & Hsf).
  destruct (reachIteration_run i s sI HI) as (HcI & HlenI).
  unfold reachRequest in HR.
  apply forRequests_run in HR
    as (Hc1 & Hi1 & infos & Hinfos & _ & added & Hadded & Hnames & _).
  simpl in Hadded. subst added.
  eexists _, _. split; [reflexivity|]. split; [exact Hsf|].
  split; [rewrite Hcf, Hc1, HcI; reflexivity|]. simpl.
  split; [exact Hi1|]. split; [by rewrite Hi1|].
  exists infos. split; [exact Hinfos|]. by rewrite Hnames.
Qed.
End Aborts.

(** ** Sample runs *)

Lemma undisturbed_run_results_witness :
  exists s' doc,
    runCollectionAction passing org_1 proj_1 wrk_1 [Req1; Req2] 2 0 None idle =
      (Normal (redirect org_1 proj_1 wrk_1 None), s') /\
    created (effects s') = created (effects idle) ++ [doc] /\
    doc_iterationResults doc =
      map (fun i => imap (fun j r => resultOf passing i j r) [Req1; Req2])
        (seq 0 2) /\
    length (doc_iterationResults doc) = 2 /\
    Forall (fun rs => length rs = length [Req1; Req2] /\
                      map requestName rs = map name [Req1; Req2] /\
                      map requestUrl rs = map url [Req1; Req2])
      (doc_iterationResults doc) /\
    length (doc_responsesInfo doc) = 2 * length [Req1; Req2].
Proof.
  apply (undisturbed_run_results passing org_1 proj_1 wrk_1 [Req1; Req2] 2 0 None).
  - intros p. simpl. apply not_elem_of_nil.
  - intros i j. split; [reflexivity|]. simpl. eauto 10.
  - intros i j. reflexivity.
Defined.

(** The end-to-end example: two iterations over two requests. *)
Example two_by_two_run :
  exists s' doc,
    runCollectionAction passing org_1 proj_1 wrk_1 [Req1; Req2] 2 0 None idle =
      (Normal (redirect org_1 proj_1 wrk_1 None), s') /\
    created (effects s') = [doc] /\
    map (map requestName) (doc_iterationResults doc) =
      [[js "Req1"; js "Req2"]; [js "Req1"; js "Req2"]] /\
    length (doc_responsesInfo doc) = 4.
Proof. eexists _, _. vm_compute. repeat split. Qed.

Lemma entry_survives_normal_completion_witness :
  is_Some
    (runnerExecutions
       (snd (runCollectionAction passing org_1 proj_1 wrk_1 [Req1] 1 0 None idle))
     !! wrk_1).
Proof.
  apply (entry_survives_normal_completion passing org_1 proj_1 wrk_1 [Req1]
           1 0 None) with (s := idle) (response := redirect org_1 proj_1 wrk_1 None).
  - intros p. simpl. apply not_elem_of_nil.
  - vm_compute. reflexivity.
  - reflexivity.
Defined.

(** After a run of one iteration over one request has completed, the
    registry still maps the workspace to that request. *)
Example stale_entry_after_completion :
  let '(response, s') :=
    runCollectionAction passing org_1 proj_1 wrk_1 [Req1] 1 0 None idle in
  response = Normal (redirect org_1 proj_1 wrk_1 None) /\
  runnerExecutions s' !! wrk_1 = Some (js "r1").
Proof. vm_compute. split; reflexivity. Qed.

Lemma redirect_by_name_last_occurrence_witness :
  redirectMatches namedABA 2 (request " A " "req_3") (js "A") = true <->
  trim (name (request " A " "req_3")) = trim (js "A") /\
  (forall k req, 2 < k -> namedABA !! k = Some req ->
     trim (name req) <> trim (js "A")).
Proof.
  apply (redirect_by_name_last_occurrence namedABA 2 (request " A " "req_3") (js "A")).
  - reflexivity.
  - vm_compute. discriminate.
Defined.

(** With requests named "A", "B", "A" and the target "A", only the last
    request passes the redirect test. *)
Example redirect_to_duplicate_name :
  imap (fun j r => redirectMatches namedABA j r (js "A")) namedABA =
  [false; false; true].
Proof. vm_compute. reflexivity. Qed.

Lemma cancellation_stops_before_request_witness :
  let sI := started wrk_1 2 None idle in
  let s1 := snd (reachRequest cancelledDuringFirst wrk_1 [Req1; Req2] 2 0 None 0 1 sI) in
  exists s' doc,
    runCollectionAction cancelledDuringFirst org_1 proj_1 wrk_1 [Req1; Req2] 2 0
      None idle =
      (Normal (redirect org_1 proj_1 wrk_1
                 (Some (js "Runner%20has%20been%20stopped"))), s') /\
    sentIds (effects s') = sentIds (effects s1) /\
    created (effects s') = created (effects idle) ++ [doc] /\
    doc_iterationResults doc = ctx_iterationResults (testCtx sI) /\
    length (doc_iterationResults doc) = 0 /\
    exists infos,
      doc_responsesInfo doc = ctx_responsesInfo (testCtx sI) ++ infos /\
      map originalRequestName infos =
        map requestName [resultOf cancelledDuringFirst 0 0 Req1].
Proof.
  intros sI s1.
  apply (cancellation_stops_before_request cancelledDuringFirst org_1 proj_1
           wrk_1 [Req1; Req2] 2 0 None 0 1 Req2 [] _ idle sI s1).
  - lia.
  - reflexivity.
  - vm_compute. reflexivity.
  - vm_compute. reflexivity.
  - vm_compute. reflexivity.
Defined.

Lemma partial_iteration_is_not_stored :
  ~ partial_iteration_is_stored cancelledDuringFirst org_1 proj_1 wrk_1
      [Req1; Req2] 1 0 None idle 0 1.
Proof.
  intros Hclaim.
  destruct (Hclaim Req2 [] [resultOf cancelledDuringFirst 0 0 Req1]
              (started wrk_1 1 None idle)
              (snd (reachRequest cancelledDuringFirst wrk_1 [Req1; Req2] 1 0
                      None 0 1 (started wrk_1 1 None idle))))
    as (response & s' & doc & Hrun & Hcreated & Hstored).
  - lia.
  - reflexivity.
  - vm_compute. reflexivity.
  - vm_compute. reflexivity.
  - vm_compute. reflexivity.
  - vm_compute in Hrun. injection Hrun as _ <-.
    vm_compute in Hcreated. injection Hcreated as <-.
    vm_compute in Hstored. discriminate Hstored.
Qed.

(** In that run the request executed before the cancellation is in the
    stored [responsesInfo] and in no stored iteration. *)
Example cancelled_run_document :
  exists doc,
    created
      (effects
         (snd (runCollectionAction cancelledDuringFirst org_1 proj_1 wrk_1
                 [Req1; Req2] 1 0 None idle))) = [doc] /\
    doc_iterationResults doc = [] /\
    map originalRequestId (doc_responsesInfo doc) = [js "r1"].
Proof. eexists. vm_compute. repeat split. Qed.

Lemma redirect_by_id_skips_to_target_witness :
  let env := redirectingFirst (js "req_3") in
  let s := started wrk_1 1 None idle in
  exists s',
    sentIds (effects s') = sentIds (effects s) ++ [js "req_1"; js "req_3"] /\
    forRequests env wrk_1 threeRequests 1 0 None 0 0 (drop 0 threeRequests)
      ([], []) s =
    forRequests env wrk_1 threeRequests 1 0 None 0 3 (drop 3 threeRequests)
      (nextOf env 0 2,
       [] ++ [resultOf env 0 0 (request "Login" "req_1");
              resultOf env 0 2 (request "Profile" "req_3")]) s'.
Proof.
  intros env s.
  apply (redirect_by_id_skips_to_target env wrk_1 threeRequests 1 0 None 0 0 2
           (request "Login" "req_1") (request "Profile" "req_3") (js "req_3")
           [] [] s [] 12%float (js "res_1")).
  - reflexivity.
  - reflexivity.
  - lia.
  - vm_compute. eauto.
  - vm_compute. eauto.
  - reflexivity.
  - reflexivity.
  - discriminate.
  - repeat split; simpl; apply not_elem_of_nil.
  - reflexivity.
  - intros p r Hp Hr. assert (p = 1) as -> by lia.
    injection Hr as <-. split.
    + vm_compute. discriminate.
    + intros [Hname _]. vm_compute in Hname. discriminate Hname.
  - split; [reflexivity|]. simpl. eauto 10.
Defined.

(** A request between the redirecting request and its target that is named
    like the target's id is executed, not skipped. *)
Lemma redirect_by_id_does_not_always_skip :
  ~ redirect_by_id_always_skips (redirectingFirst (js "req_3")) wrk_1
      namedLikeAnId 1 0 None 0 0 2 (js "req_3") [] []
      (started wrk_1 1 None idle).
Proof.
  intros Hclaim.
  destruct (Hclaim (request "Login" "req_1") (request "Profile" "req_3")
              [] 12%float (js "res_1")) as (s' & Hsent & Hrun).
  - reflexivity.
  - reflexivity.
  - lia.
  - vm_compute. eauto.
  - vm_compute. eauto.
  - reflexivity.
  - reflexivity.
  - discriminate.
  - repeat split; simpl; apply not_elem_of_nil.
  - reflexivity.
  - split; [reflexivity|]. simpl. eauto 10.
  - vm_compute in Hrun. discriminate Hrun.
Qed.

(** The results of that iteration, by request name. *)
Example redirect_by_id_name_clash :
  match
    forRequests (redirectingFirst (js "req_3")) wrk_1 namedLikeAnId 1 0 None
      0 0 namedLikeAnId ([], []) (started wrk_1 1 None idle)
  with
  | (Normal (_, res), _) =>
      map requestName res = [js "Login"; js "req_3"; js "Profile"]
  | _ => False
  end.
Proof. vm_compute. reflexivity. Qed.

Lemma unresolvable_redirect_skips_rest_witness :
  let env := redirectingFirst (js "Nowhere") in
  let s := started wrk_1 1 None idle in
  exists c s',
    forRequests env wrk_1 threeRequests 1 0 None 0 0 (drop 0 threeRequests)
      ([], []) s = (c, s') /\
    sentIds (effects s') = sentIds (effects s) ++ [js "req_1"] /\
    (undisturbed env wrk_1 0 0 ->
     c = Normal (js "Nowhere", [] ++ [resultOf env 0 0 (request "Login" "req_1")])).
Proof.
  intros env s.
  apply (unresolvable_redirect_skips_rest env wrk_1 threeRequests 1 0 None 0 0
           (request "Login" "req_1") (js "Nowhere") [] [] s [] 12%float (js "res_1")).
  - reflexivity.
  - vm_compute. eauto.
  - vm_compute. eauto.
  - reflexivity.
  - reflexivity.
  - discriminate.
  - intros p r Hp Hr.
    destruct p as [|[|[|p]]]; [lia| | |discriminate Hr];
      injection Hr as <-; (split; [vm_compute; discriminate|]);
      intros [Hname _]; vm_compute in Hname; discriminate Hname.
Defined.

Lemma failure_ends_run_with_error_redirect_witness :
  let sI := started wrk_1 2 None idle in
  let s1 := snd (reachRequest failingSecond wrk_1 [Req1; Req2] 2 0 None 0 1 sI) in
  let locals := ([], [resultOf failingSecond 0 0 Req1]) in
  let s2 := snd (requestBody failingSecond wrk_1 [Req1; Req2] 2 0 None 0 1 Req2
                   locals s1) in
  let e := ThrownObject (js "connect ECONNREFUSED") in
  exists response s' doc,
    runCollectionAction failingSecond org_1 proj_1 wrk_1 [Req1; Req2] 2 0 None idle =
      (Normal response, s') /\
    redirect_error response = Some (js "connect%20ECONNREFUSED") /\
    location response =
      js "/organization/" ++ org_1 ++ js "/project/" ++ proj_1
      ++ js "/workspace/" ++ wrk_1 ++ js "/debug/runner?refresh-pane"
      ++ js "&error=" ++ js "connect%20ECONNREFUSED" /\
    sentIds (effects s') = sentIds (effects s2) /\
    created (effects s') = created (effects s2) ++ [doc] /\
    doc_iterationResults doc = ctx_iterationResults (testCtx s2) /\
    doc_responsesInfo doc = ctx_responsesInfo (testCtx s2) /\
    ((e = ThrownString (js "Runner has been stopped") /\
      runnerExecutions s1 !! wrk_1 = None)
     \/ (e = ThrownError (js "Error") (js "Request meta not found") /\
         requestMetaFound failingSecond 0 1 = false)
     \/ sendOutcome failingSecond 0 1 = SendThrows e).
Proof.
  intros sI s1 locals s2 e.
  apply (failure_ends_run_with_error_redirect failingSecond org_1 proj_1 wrk_1
           [Req1; Req2] 2 0 None 0 1 Req2 locals idle sI s1 s2 e).
  - lia.
  - reflexivity.
  - vm_compute. reflexivity.
  - vm_compute. reflexivity.
  - vm_compute. reflexivity.
  - vm_compute. reflexivity.
Defined.

(** The location of the error redirect, as one string. *)
Example error_redirect_location :
  match fst (runCollectionAction failingSecond org_1 proj_1 wrk_1
               [Req1; Req2] 2 0 None idle) with
  | Normal response =>
      location response =
      js "/organization/org_1/project/proj_1/workspace/wrk_1/debug/runner?refresh-pane&error=connect%20ECONNREFUSED"
  | Throw _ => False
  end.
Proof. vm_compute. reflexivity. Qed.

Lemma failure_escapes_catch_clause_witness :
  let sI := started wrk_1 2 None idle in
  let s1 := snd (reachRequest failingGarbled wrk_1 [Req1; Req2] 2 0 None 0 1 sI) in
  let locals := ([], [resultOf failingGarbled 0 0 Req1]) in
  let s2 := snd (requestBody failingGarbled wrk_1 [Req1; Req2] 2 0 None 0 1 Req2
                   locals s1) in
  let e := ThrownString (js "unexpected token " ++ [55357%N]) in
  exists s' doc,
    runCollectionAction failingGarbled org_1 proj_1 wrk_1 [Req1; Req2] 2 0 None
      idle = (Throw (URIError (js "URI malformed")), s') /\
    sentIds (effects s') = sentIds (effects s2) /\
    created (effects s') = created (effects s2) ++ [doc] /\
    doc_iterationResults doc = ctx_iterationResults (testCtx s2) /\
    doc_responsesInfo doc = ctx_responsesInfo (testCtx s2) /\
    sendOutcome failingGarbled 0 1 = SendThrows e.
Proof.
  intros sI s1 locals s2 e.
  apply (failure_escapes_catch_clause failingGarbled org_1 proj_1 wrk_1
           [Req1; Req2] 2 0 None 0 1 Req2 locals idle sI s1 s2 e).
  - lia.
  - reflexivity.
  - vm_compute. reflexivity.
  - vm_compute. reflexivity.
  - vm_compute. reflexivity.
  - vm_compute. reflexivity.
Defined.

(** The executor rejects the second request with a message cut in the
    middle of a surrogate pair: the action rejects with a [URIError] after
    storing the document, and returns no redirect.  The same happens, with
    a [TypeError], when the executor rejects without a reason. *)
Example garbled_failure_rejects :
  let '(completion, s') :=
    runCollectionAction failingGarbled org_1 proj_1 wrk_1 [Req1; Req2] 2 0 None
      idle in
  completion = Throw (URIError (js "URI malformed")) /\
  length (created (effects s')) = 1 /\
  sentIds (effects s') = [js "r1"; js "r2"].
Proof. vm_compute. repeat split. Qed.

Example failure_without_reason_rejects :
  fst (runCollectionAction failingWithoutReason org_1 proj_1 wrk_1 [Req1; Req2]
         2 0 None idle) =
  Throw (TypeError (js "Cannot read properties of undefined (reading 'error')")).
Proof. vm_compute. reflexivity. Qed.

(** ** What the loops preserve *)

(** A property of states that every press of the cancel button preserves is
    preserved by an await. *)
Lemma forEach_cancelExecution_preserves (P : State -> Prop) :
  (forall w s, P s -> P (snd (cancelExecution w s))) ->
  forall clicks s, P s -> P (snd (forEach cancelExecution clicks s)).
Proof.
  intros Hstep clicks. induction clicks as [|w clicks IH]; intros s Hs.
  - exact Hs.
  - simpl. rewrite bind_run, cancelExecution_run.
    specialize (Hstep w s Hs). rewrite cancelExecution_run in Hstep.
    simpl in Hstep. cbv beta iota. by apply IH.
Qed.

Section LoopInvariant.
Context (env : Environment).
Context (workspaceId : jsstring).
Context (requests : list RequestType) (iterations delay : nat).
Context (userUploadEnvs : option (list UserUploadEnvironment)).

Local Abbreviation dispatch' :=
  (dispatch env workspaceId requests iterations delay userUploadEnvs).
Local Abbreviation forRequests' :=
  (forRequests env workspaceId requests iterations delay userUploadEnvs).
Local Abbreviation forIterations' :=
  (forIterations env workspaceId requests iterations delay userUploadEnvs).

Variable R : State -> State -> Prop.
Hypothesis R_refl : forall s, R s s.
Hypothesis R_trans : forall s1 s2 s3, R s1 s2 -> R s2 s3 -> R s1 s3.
Hypothesis R_updateExecution : forall s r,
  r ∈ requests ->
  R s {| testCtx := testCtx s;
         runnerExecutions := <[workspaceId := id r]> (runnerExecutions s);
         effects := effects s |}.
Hypothesis R_stepName : forall s i j r,
  i < iterations -> requests !! j = Some r ->
  R s (logged s (MainUpdateLatestStepName workspaceId (stepName requests i j r))).
Hypothesis R_meta : forall s r,
  r ∈ requests ->
  R s (logged s (RequestMetaUpdateOrCreateByParentId (id r))).
Hypothesis R_timeout : forall s, R s (logged s (SetTimeout delay)).
Hypothesis R_send : forall s i r,
  i < iterations -> r ∈ requests ->
  R s (logged s
         (SendActionImp
            {| send_requestId := id r;
               send_workspaceId := workspaceId;
               send_iteration := i + 1;
               send_iterationCount := iterations;
               send_userUploadEnv :=
                 getCurIterationUserUploadData userUploadEnvs i |})).
Hypothesis R_await : forall p s, R s (awaited env p s).
Hypothesis R_response : forall s d info,
  R s {| testCtx := withResponse (testCtx s) d info;
         runnerExecutions := runnerExecutions s;
         effects := effects s |}.
Hypothesis R_iteration : forall s rs,
  R s {| testCtx := withIteration (testCtx s) rs;
         runnerExecutions := runnerExecutions s;
         effects := effects s |}.

Lemma dispatch_preserves i j r nx res s :
  i < iterations -> requests !! j = Some r ->
  R s (snd (dispatch' i j r nx res s)).
Proof.
  intros Hi Hj. assert (r ∈ requests) as Hr by (eapply list_elem_of_lookup_2; eauto).
  rewrite dispatch_unfold. cbv zeta.
  eapply R_trans; [apply (R_updateExecution s r Hr)|].
  eapply R_trans; [apply (R_stepName _ i j r Hi Hj)|].
  eapply R_trans; [apply (R_meta _ r Hr)|].
  eapply R_trans; [apply R_await|].
  destruct (requestMetaFound env i j); [|apply R_refl].
  eapply R_trans; [apply R_timeout|].
  eapply R_trans; [apply R_await|].
  eapply R_trans; [apply (R_send _ i r Hi Hr)|].
  eapply R_trans; [apply R_await|].
  destruct (sendOutcome env i j); [apply R_refl|apply R_response].
Qed.

Lemma forRequests_preserves i rest : forall j locals s,
  i < iterations ->
  (forall k r, rest !! k = Some r -> requests !! (j + k) = Some r) ->
  R s (snd (forRequests' i j rest locals s)).
Proof.
  induction rest as [|r rest IH]; intros j [nx res] s Hi Hrest; [apply R_refl|].
  rewrite forRequests_cons, requestBody_unfold.
  assert (forall k r', rest !! k = Some r' -> requests !! (S j + k) = Some r')
    as Hrest'.
  { intros k r' Hk. rewrite Nat.add_succ_l, <- Nat.add_succ_r. by apply Hrest. }
  destruct (runnerExecutions s !! workspaceId); [|apply R_refl].
  destruct (redirectGate requests j r nx) as [nx1|]; [|by apply IH].
  assert (requests !! j = Some r) as Hj
    by (rewrite <- (Nat.add_0_r j); by apply Hrest).
  pose proof (dispatch_preserves i j r nx1 res s Hi Hj) as Hd.
  destruct (dispatch' i j r nx1 res s) as [[locals1|e] s1]; [|exact Hd].
  eapply R_trans; [exact Hd|]. by apply IH.
Qed.

Lemma forIterations_preserves count : forall i s,
  i + count <= iterations ->
  R s (snd (forIterations' count i s)).
Proof.
  induction count as [|count IH]; intros i s Hi; [apply R_refl|].
  rewrite forIterations_succ, iterationBody_unfold.
  pose proof (forRequests_preserves i requests 0 ([], []) s) as Hr.
  destruct (forRequests' i 0 requests ([], []) s) as [[[nx res]|e] s1];
    simpl in Hr.
  - eapply R_trans; [apply Hr; [lia|done]|].
    eapply R_trans; [apply R_iteration|]. apply IH. lia.
  - apply Hr; [lia|done].
Qed.
Context (organizationId projectId : jsstring).
Hypothesis R_done : forall s,
  R s (logged s (MainUpdateLatestStepName workspaceId (js "Done"))).
Hypothesis R_complete : forall s,
  R s (logged s (MainCompleteExecutionStep workspaceId)).
Hypothesis R_catch : forall s, R s (snd (cancelExecution workspaceId s)).
Hypothesis R_create : forall s,
  R s (logged s (RunnerTestResultCreate (docOfTestCtx workspaceId (testCtx s)))).

(** From the entry of the [try] block to the return of the action. *)
Lemma runCollectionAction_preserves s :
  R (started workspaceId iterations userUploadEnvs s)
    (snd (runCollectionAction env organizationId projectId workspaceId
            requests iterations delay userUploadEnvs s)).
Proof.
  rewrite runCollectionAction_unfold.
  pose proof (forIterations_preserves iterations 0
                (started workspaceId iterations userUploadEnvs s)) as Hloops.
  destruct (forIterations' iterations 0
              (started workspaceId iterations userUploadEnvs s))
    as [[[]|e] s1]; simpl in *; unfold finalized.
  - eapply R_trans; [apply Hloops; lia|].
    eapply R_trans; [apply R_done|].
    eapply R_trans; [apply R_complete|].
    eapply R_trans; [apply R_create|]. apply R_await.
  - eapply R_trans; [apply Hloops; lia|].
    eapply R_trans; [apply R_catch|].
    eapply R_trans; [apply R_create|]. apply R_await.
Qed.
End LoopInvariant.

(** ** Isolation, constants and addressing *)

Section WholeRuns.
Context (env : Environment).
Context (organizationId projectId workspaceId : jsstring).
Context (requests : list RequestType) (iterations delay : nat).
Context (userUploadEnvs : option (list UserUploadEnvironment)).

Local Abbreviation run' :=
  (runCollectionAction env organizationId projectId workspaceId requests
     iterations delay userUploadEnvs).

(** A run leaves the registry entries of the other workspaces alone: the
    entry of a workspace other than its own, for which cancel is not pressed
    while the run is suspended, is after the run what it was before. *)
Theorem other_workspaces_untouched (other : jsstring) (s : State) :
  other <> workspaceId ->
  (forall p, other ∉ cancelClicks env p) ->
  runnerExecutions (snd (run' s)) !! other = runnerExecutions s !! other.
Proof.
  intros Hne Hquiet.
  pose proof (runCollectionAction_preserves env workspaceId requests iterations
                delay userUploadEnvs
                (fun s1 s2 => runnerExecutions s2 !! other =
                              runnerExecutions s1 !! other)) as Hrun.
  rewrite Hrun; clear Hrun.
  - simpl. by apply lookup_insert_ne.
  - done.
  - intros s1 s2 s3 H12 H23. by rewrite H23.
  - intros s1 r _. simpl. by apply lookup_insert_ne.
  - done.
  - done.
  - done.
  - done.
  - intros p s1. apply (pressed_other _ _ _ (awaited_pressed env p s1)), Hquiet.
  - done.
  - done.
  - done.
  - done.
  - intros s1. apply (pressed_other _ _ _ (cancelExecution_pressed workspaceId s1)).
    apply not_elem_of_cons. split; [exact Hne|apply not_elem_of_nil].
  - done.
Qed.

Lemma runCollectionAction_created s :
  created (effects (snd (run' s))) =
  created (effects s) ++ [docOfTestCtx workspaceId (testCtx (snd (run' s)))].
Proof.
  rewrite runCollectionAction_unfold.
  destruct (started_observations workspaceId iterations userUploadEnvs s)
    as [Hc0 _].
  destruct (forIterations env workspaceId requests iterations delay
              userUploadEnvs iterations 0
              (started workspaceId iterations userUploadEnvs s))
    as [[[]|e] s1] eqn:Hrun;
    apply forIterations_run in Hrun as (Hc & _); simpl.
  - set (s2 := logged (logged s1 _) _).
    destruct (finalized_observations env workspaceId s2) as (Ht & Hcf & _).
    rewrite Ht, Hcf. subst s2. simpl. rewrite !created_app. simpl.
    rewrite !app_nil_r. congruence.
  - destruct (cancelExecution_pressed workspaceId s1) as [Ht1 Hc1 _ _ _].
    destruct (finalized_observations env workspaceId
                (snd (cancelExecution workspaceId s1))) as (Ht & Hcf & _).
    rewrite Ht, Hcf. congruence.
Qed.

(** Whatever happens during the run, the stored document is filed under the
    workspace, has the source 'runner' and the submitted iteration count, and
    an average response time of 0: nothing in the action computes one. *)
Theorem stored_document_constants (s : State) :
  exists doc,
    created (effects (snd (run' s))) = created (effects s) ++ [doc] /\
    doc_parentId doc = workspaceId /\
    doc_source doc = js "runner" /\
    doc_iterations doc = iterations /\
    doc_avgRespTime doc = 0%Z.
Proof.
  eexists. split; [apply runCollectionAction_created|].
  pose proof (runCollectionAction_preserves env workspaceId requests iterations
                delay userUploadEnvs
                (fun s1 s2 =>
                   ctx_source (testCtx s2) = ctx_source (testCtx s1) /\
                   ctx_iterations (testCtx s2) = ctx_iterations (testCtx s1) /\
                   ctx_avgRespTime (testCtx s2) = ctx_avgRespTime (testCtx s1)))
    as Hrun.
  simpl. split; [reflexivity|].
  apply Hrun; clear Hrun; try done.
  - intros s1 s2 s3 (? & ? & ?) (? & ? & ?). repeat split; congruence.
  - intros p s1. rewrite (pressed_testCtx _ _ _ (awaited_pressed env p s1)). done.
  - intros s1.
    rewrite (pressed_testCtx _ _ _ (cancelExecution_pressed workspaceId s1)). done.
Qed.

Lemma cancelExecution_wellAddressed w s0 s :
  (exists evs, effects s = effects s0 ++ evs /\
     Forall (wellAddressed workspaceId requests iterations delay userUploadEnvs) evs) ->
  exists evs, effects (snd (cancelExecution w s)) = effects s0 ++ evs /\
     Forall (wellAddressed workspaceId requests iterations delay userUploadEnvs) evs.
Proof.
  intros (evs & Hevs & Hall). rewrite cancelExecution_run. simpl.
  destruct (truthy (runnerExecutions s !! w)); [|by exists evs].
  simpl. eexists. rewrite Hevs, <- app_assoc. split; [reflexivity|].
  apply Forall_app. split; [exact Hall|]. by repeat constructor.
Qed.

(** Every call a run makes to the executor is for a submitted request and
    for the run's own workspace, with an iteration number between 1 and the
    submitted count, the submitted count itself and the data row of that
    iteration; the request-meta model is touched for submitted requests only,
    every timer is set to the submitted delay, and every stored document is
    filed under the workspace. *)
Theorem run_calls_are_well_addressed (s : State) :
  exists evs,
    effects (snd (run' s)) = effects s ++ evs /\
    Forall (wellAddressed workspaceId requests iterations delay userUploadEnvs)
      evs.
Proof.
  set (WA := wellAddressed workspaceId requests iterations delay userUploadEnvs).
  set (R := fun s1 s2 : State =>
              exists evs, effects s2 = effects s1 ++ evs /\ Forall WA evs).
  assert (forall s1, R s1 s1) as Hrefl.
  { intros s1. exists []. by rewrite app_nil_r. }
  assert (forall s1 s2 s3, R s1 s2 -> R s2 s3 -> R s1 s3) as Htrans.
  { intros s1 s2 s3 (e1 & H1 & F1) (e2 & H2 & F2). exists (e1 ++ e2).
    rewrite H2, H1, <- app_assoc. split; [done|]. by apply Forall_app. }
  assert (forall s1 ev, WA ev -> R s1 (logged s1 ev)) as Hlog.
  { intros s1 ev Hev. exists [ev]. by repeat constructor. }
  assert (forall w s1, R s1 (snd (cancelExecution w s1))) as Hcancel.
  { intros w s1. apply cancelExecution_wellAddressed, Hrefl. }
  pose proof (runCollectionAction_preserves env workspaceId requests iterations
                delay userUploadEnvs R Hrefl Htrans) as Hrun.
  apply (Htrans s (started workspaceId iterations userUploadEnvs s)).
  { eexists. split; [reflexivity|]. by repeat constructor. }
  apply Hrun; clear Hrun.
  - intros s1 r _. exists []. simpl. by rewrite app_nil_r.
  - intros. by apply Hlog.
  - intros s1 r Hr. apply Hlog. by exists r.
  - intros. by apply Hlog.
  - intros s1 i r Hi Hr. apply Hlog. simpl.
    split; [done|]. split; [by exists r|]. split; [lia|]. split; [done|].
    by replace (i + 1 - 1) with i by lia.
  - intros p s1. unfold awaited, await.
    apply (forEach_cancelExecution_preserves (R s1)); [|apply Hrefl].
    intros w s2 Hs2. by apply cancelExecution_wellAddressed.
  - intros s1 d info. exists []. simpl. by rewrite app_nil_r.
  - intros s1 rs. exists []. simpl. by rewrite app_nil_r.
  - intros. by apply Hlog.
  - intros. by apply Hlog.
  - apply Hcancel.
  - intros. by apply Hlog.
Qed.
End WholeRuns.

(** ** How a run leaves the registry and the step tracker *)

Lemma latestStepName_named w effs n :
  latestStepName w (effs ++ [MainUpdateLatestStepName w n]) = Some n.
Proof.
  unfold latestStepName. rewrite omap_app. simpl.
  rewrite decide_True by done. apply last_snoc.
Qed.

Lemma omap_all_None {A B} (f : A -> option B) l :
  Forall (fun x => f x = None) l -> omap f l = [].
Proof.
  induction 1 as [|x l Hx _ IH]; [reflexivity|].
  cbn. by rewrite Hx, IH.
Qed.

Lemma latestStepName_unnamed w effs evs :
  Forall (fun ev => match ev with
                    | MainAddExecutionStep w' _
                    | MainUpdateLatestStepName w' _ => w' <> w
                    | _ => True
                    end) evs ->
  latestStepName w (effs ++ evs) = latestStepName w effs.
Proof.
  intros Hevs. unfold latestStepName. rewrite omap_app.
  rewrite (omap_all_None _ evs); [by rewrite app_nil_r|].
  eapply Forall_impl; [exact Hevs|].
  intros ev Hev. destruct ev; try reflexivity; by rewrite decide_False.
Qed.

Lemma latestStepName_cancelled w effs v :
  latestStepName w
    (effs ++ [CancelRequestById v; MainUpdateLatestStepName w (js "Done");
              MainCompleteExecutionStep w]) = Some (js "Done").
Proof.
  unfold latestStepName. rewrite omap_app. simpl.
  rewrite decide_True by done. apply last_snoc.
Qed.

Lemma truthy_Some v : v <> [] -> truthy (Some v) = true.
Proof. by destruct v. Qed.

Lemma cancelExecution_stoppedOrActive w v w' s :
  stoppedOrActive w v s -> stoppedOrActive w v (snd (cancelExecution w' s)).
Proof.
  intros Hs. rewrite cancelExecution_run. simpl.
  destruct (truthy (runnerExecutions s !! w')) eqn:Htruthy; [|exact Hs].
  destruct (decide (w' = w)) as [->|Hne].
  - left. simpl. split; [apply lookup_delete_eq|].
    apply latestStepName_cancelled.
  - unfold stoppedOrActive. simpl.
    rewrite lookup_delete_ne by done.
    rewrite latestStepName_unnamed; [exact Hs|].
    by repeat constructor.
Qed.

Lemma cancelExecution_latest_Done w w' s :
  latestStepName w (effects s) = Some (js "Done") ->
  latestStepName w (effects (snd (cancelExecution w' s))) = Some (js "Done").
Proof.
  intros Hs. rewrite cancelExecution_run. simpl.
  destruct (truthy (runnerExecutions s !! w')); [|exact Hs]. simpl.
  destruct (decide (w' = w)) as [->|Hne].
  - apply latestStepName_cancelled.
  - rewrite latestStepName_unnamed; [exact Hs|]. by repeat constructor.
Qed.

Section Exits.
Context (env : Environment).
Context (organizationId projectId workspaceId : jsstring).
Context (requests : list RequestType) (iterations delay : nat).
Context (userUploadEnvs : option (list UserUploadEnvironment)).

Local Abbreviation dispatch' :=
  (dispatch env workspaceId requests iterations delay userUploadEnvs).
Local Abbreviation forRequests' :=
  (forRequests env workspaceId requests iterations delay userUploadEnvs).
Local Abbreviation forIterations' :=
  (forIterations env workspaceId requests iterations delay userUploadEnvs).
Local Abbreviation run' :=
  (runCollectionAction env organizationId projectId workspaceId requests
     iterations delay userUploadEnvs).

Lemma awaited_stoppedOrActive v p s :
  stoppedOrActive workspaceId v s ->
  stoppedOrActive workspaceId v (awaited env p s).
Proof.
  apply (forEach_cancelExecution_preserves (stoppedOrActive workspaceId v)).
  intros w s1. apply cancelExecution_stoppedOrActive.
Qed.

Lemma logged_stoppedOrActive v s ev :
  match ev with
  | MainAddExecutionStep _ _ | MainUpdateLatestStepName _ _ => False
  | _ => True
  end ->
  stoppedOrActive workspaceId v s ->
  stoppedOrActive workspaceId v (logged s ev).
Proof.
  intros Hev Hs. unfold stoppedOrActive, logged. simpl.
  rewrite latestStepName_unnamed; [exact Hs|].
  constructor; [|constructor]. by destruct ev.
Qed.

(** Where a dispatch ends, the workspace is stopped or marked with the
    dispatched request. *)
Lemma dispatch_exit i j r nx res s :
  stoppedOrActive workspaceId (id r) (snd (dispatch' i j r nx res s)).
Proof.
  rewrite dispatch_unfold. cbv zeta.
  set (s1 := logged (logged _ _) _).
  assert (stoppedOrActive workspaceId (id r) s1) as H1.
  { right. simpl. apply lookup_insert_eq. }
  pose proof (awaited_stoppedOrActive _ (AwaitRequestMeta i j) _ H1) as H2.
  destruct (requestMetaFound env i j); [|exact H2].
  set (send := SendActionImp _).
  assert (stoppedOrActive workspaceId (id r)
            (awaited env (AwaitSend i j)
               (logged (awaited env (AwaitDelay i j)
                          (logged (awaited env (AwaitRequestMeta i j) s1)
                             (SetTimeout delay))) send))) as H4.
  { apply awaited_stoppedOrActive, logged_stoppedOrActive; [done|].
    apply awaited_stoppedOrActive, logged_stoppedOrActive; [done|exact H2]. }
  destruct (sendOutcome env i j); exact H4.
Qed.

Hypothesis ids_not_empty : forall r, r ∈ requests -> id r <> [].

Lemma forRequests_exit i rest : forall j locals s,
  (forall r, r ∈ rest -> r ∈ requests) ->
  exitState workspaceId (Normal ()) s ->
  exitState workspaceId (fst (forRequests' i j rest locals s))
    (snd (forRequests' i j rest locals s)).
Proof.
  induction rest as [|r rest IH]; intros j [nx res] s Hsub Hs; [exact Hs|].
  rewrite forRequests_cons, requestBody_unfold.
  assert (forall r', r' ∈ rest -> r' ∈ requests) as Hsub'
    by (intros r' Hr'; apply Hsub; by right).
  destruct (runnerExecutions s !! workspaceId) as [active|] eqn:Hactive.
  2:{ left. split; [exact Hactive|]. by apply Hs. }
  destruct (redirectGate requests j r nx) as [nx1|]; [|by apply IH].
  pose proof (dispatch_exit i j r nx1 res s) as Hd.
  destruct (dispatch' i j r nx1 res s) as [[locals1|e] s1]; simpl in Hd.
  - apply IH; [exact Hsub'|]. simpl.
    destruct Hd as [[_ Hdone]|Hsome]; [done|congruence].
  - simpl. destruct Hd as [Hstopped|Hsome]; [by left|right].
    exists (id r). split; [exact Hsome|]. apply ids_not_empty, Hsub. by left.
Qed.

Lemma forIterations_exit count : forall i s,
  exitState workspaceId (Normal ()) s ->
  exitState workspaceId (fst (forIterations' count i s))
    (snd (forIterations' count i s)).
Proof.
  induction count as [|count IH]; intros i s Hs; [exact Hs|].
  rewrite forIterations_succ, iterationBody_unfold.
  pose proof (forRequests_exit i requests 0 ([], []) s (fun r Hr => Hr) Hs) as Hr.
  destruct (forRequests' i 0 requests ([], []) s) as [[[nx res]|e] s1];
    simpl in Hr; [|exact Hr].
  by apply IH.
Qed.

Lemma finalized_latest_Done s :
  latestStepName workspaceId (effects s) = Some (js "Done") ->
  latestStepName workspaceId (effects (finalized env workspaceId s)) =
    Some (js "Done").
Proof.
  intros Hs. unfold finalized, awaited, await.
  apply (forEach_cancelExecution_preserves
           (fun s' => latestStepName workspaceId (effects s') = Some (js "Done"))).
  - intros w s1. apply cancelExecution_latest_Done.
  - simpl. rewrite latestStepName_unnamed; [exact Hs|]. by repeat constructor.
Qed.

(** When every submitted request has a non-empty id, the last step name a
    run gives to the step tracker for its workspace is 'Done', however the
    run ends: observers that wait for 'Done' are always released. *)
Theorem run_ends_with_Done (s : State) :
  latestStepName workspaceId (effects (snd (run' s))) = Some (js "Done").
Proof.
  rewrite runCollectionAction_unfold.
  pose proof (forIterations_exit iterations 0
                (started workspaceId iterations userUploadEnvs s)) as Hexit.
  destruct (forIterations' iterations 0
              (started workspaceId iterations userUploadEnvs s))
    as [[[]|e] s1]; simpl in *; apply finalized_latest_Done.
  - simpl.
    rewrite latestStepName_unnamed by (by repeat constructor).
    apply latestStepName_named.
  - rewrite cancelExecution_run. simpl.
    destruct Hexit as [[Hnone Hdone]|(v & Hv & Hne)].
    + by rewrite lookup_insert_eq.
    + by rewrite Hnone.
    + rewrite Hv, (truthy_Some _ Hne). simpl. apply latestStepName_cancelled.
Qed.

(** When every submitted request has a non-empty id and the action returns
    the error redirect, the registry holds no entry for the workspace
    afterwards: the failure path cleans up. *)
Theorem failed_run_clears_entry (s : State) response s' :
  run' s = (Normal response, s') ->
  redirect_error response <> None ->
  runnerExecutions s' !! workspaceId = None.
Proof.
  rewrite runCollectionAction_unfold.
  pose proof (forIterations_exit iterations 0
                (started workspaceId iterations userUploadEnvs s)) as Hexit.
  destruct (forIterations' iterations 0
              (started workspaceId iterations userUploadEnvs s))
    as [[[]|e] s1]; simpl in *; [intros [= <- <-]; done|].
  intros [= _ <-] _.
  unfold finalized.
  apply (pressed_absent _ _ _ (awaited_pressed env AwaitCreate _)). simpl.
  rewrite cancelExecution_run. simpl.
  destruct Hexit as [[Hnone Hdone]|(v & Hv & Hne)].
  - by rewrite lookup_insert_eq.
  - by rewrite Hnone.
  - rewrite Hv, (truthy_Some _ Hne). simpl. apply lookup_delete_eq.
Qed.
End Exits.

(** ** The shape of the stored results *)

Section StoredResults.
Context (env : Environment).
Context (organizationId projectId workspaceId : jsstring).
Context (requests : list RequestType) (iterations delay : nat).
Context (userUploadEnvs : option (list UserUploadEnvironment)).

Local Abbreviation forRequests' :=
  (forRequests env workspaceId requests iterations delay userUploadEnvs).
Local Abbreviation forIterations' :=
  (forIterations env workspaceId requests iterations delay userUploadEnvs).
Local Abbreviation run' :=
  (runCollectionAction env organizationId projectId workspaceId requests
     iterations delay userUploadEnvs).

Lemma forRequests_picks i rest : forall j nx res s nx' res' s',
  forRequests' i j rest (nx, res) s = (Normal (nx', res'), s') ->
  exists picks,
    picks `sublist_of` imap (fun k r => (j + k, r)) rest /\
    res' = res ++ resultsOf env i picks.
Proof.
  induction rest as [|r rest IH]; intros j nx res s nx' res' s' Hrun.
  - injection Hrun as <- <- <-. exists []. split; [constructor|].
    by rewrite app_nil_r.
  - rewrite forRequests_cons, requestBody_unfold in Hrun.
    rewrite (imap_offset_cons (fun k r => (k, r))).
    destruct (runnerExecutions s !! workspaceId); [|discriminate Hrun].
    destruct (redirectGate requests j r nx) as [nx1|].
    2:{ apply IH in Hrun as (picks & Hsub & ->).
        exists picks. split; [by constructor|reflexivity]. }
    destruct (dispatch env workspaceId requests iterations delay userUploadEnvs
                i j r nx1 res s) as [[[nx2 res2]|e] s1] eqn:Hd;
      [|discriminate Hrun].
    apply dispatch_run in Hd as (_ & _ & _ & _ & -> & _).
    apply IH in Hrun as (picks & Hsub & ->).
    exists ((j, r) :: picks). split; [by constructor|].
    by rewrite <- app_assoc.
Qed.

Lemma forIterations_picks count : forall i s c s',
  forIterations' count i s = (c, s') ->
  exists more,
    ctx_iterationResults (testCtx s') =
      ctx_iterationResults (testCtx s) ++ more /\
    forall k rs, more !! k = Some rs ->
      exists picks,
        picks `sublist_of` indexed requests /\
        rs = resultsOf env (i + k) picks.
Proof.
  induction count as [|count IH]; intros i s c s' Hrun.
  - injection Hrun as <- <-. exists []. by rewrite app_nil_r.
  - rewrite forIterations_succ, iterationBody_unfold in Hrun.
    destruct (forRequests' i 0 requests ([], []) s) as [[[nx res]|e] s1] eqn:Hr.
    + pose proof Hr as Hr'.
      apply forRequests_run in Hr' as (_ & Hi1 & _).
      apply forRequests_picks in Hr as (picks & Hsub & Hres). simpl in Hres.
      apply IH in Hrun as (more & Hmore & Hall). simpl in Hmore.
      exists (res :: more). split.
      { rewrite Hmore, Hi1, <- app_assoc. reflexivity. }
      intros [|k] rs Hk; simpl in Hk.
      * injection Hk as <-. exists picks. rewrite Nat.add_0_r. by split.
      * destruct (Hall k rs Hk) as (picks' & Hsub' & ->).
        exists picks'. split; [exact Hsub'|]. f_equal. lia.
    + injection Hrun as <- <-.
      apply forRequests_run in Hr as (_ & Hi1 & _).
      exists []. by rewrite app_nil_r.
Qed.

(** In every stored document, each iteration holds the results of a
    subsequence of the submitted requests, each taken at its own index: a
    redirect can leave requests out but never runs one twice or out of
    order, so that an iteration has at most as many results as there are
    requests. *)
Theorem stored_iterations_follow_request_order (s : State) :
  exists doc,
    created (effects (snd (run' s))) = created (effects s) ++ [doc] /\
    forall i rs, doc_iterationResults doc !! i = Some rs ->
      exists picks,
        picks `sublist_of` indexed requests /\
        rs = resultsOf env i picks /\
        length rs <= length requests.
Proof.
  eexists. split; [apply runCollectionAction_created|].
  simpl. rewrite runCollectionAction_unfold.
  destruct (forIterations' iterations 0
              (started workspaceId iterations userUploadEnvs s))
    as [c s1] eqn:Hrun.
  apply forIterations_picks in Hrun as (more & Hmore & Hall). simpl in Hmore.
  assert (ctx_iterationResults
            (testCtx (snd
               match c with
               | Normal _ =>
                   (Normal (redirect organizationId projectId workspaceId None),
                    finalized env workspaceId
                      (logged (logged s1 (MainUpdateLatestStepName workspaceId
                                            (js "Done")))
                         (MainCompleteExecutionStep workspaceId)))
               | Throw e =>
                   (caught organizationId projectId workspaceId e,
                    finalized env workspaceId
                      (snd (cancelExecution workspaceId s1)))
               end)) = more) as ->.
  { destruct c as [[]|e]; simpl.
    - rewrite (proj1 (finalized_observations env workspaceId _)). exact Hmore.
    - rewrite (proj1 (finalized_observations env workspaceId _)).
      rewrite (pressed_testCtx _ _ _ (cancelExecution_pressed workspaceId s1)).
      exact Hmore. }
  intros i rs Hi. destruct (Hall i rs Hi) as (picks & Hsub & ->).
  exists picks. split; [exact Hsub|]. split; [reflexivity|].
  unfold resultsOf. rewrite length_map.
  apply sublist_length in Hsub. unfold indexed in Hsub.
  by rewrite length_imap in Hsub.
Qed.

(** Whether the action returns or rejects, it stores one document.  The
    document has one entry per submitted iteration exactly when the action
    returns the plain redirect; when it returns the error redirect, after a
    failure or a cancellation, or rejects, the document has fewer. *)
Theorem stored_iterations_count (s : State) :
  exists completion s' doc,
    run' s = (completion, s') /\
    created (effects s') = created (effects s) ++ [doc] /\
    (completion = Normal (redirect organizationId projectId workspaceId None) ->
     length (doc_iterationResults doc) = iterations) /\
    (completion <> Normal (redirect organizationId projectId workspaceId None) ->
     length (doc_iterationResults doc) < iterations).
Proof.
  pose proof (runCollectionAction_created env organizationId projectId
                workspaceId requests iterations delay userUploadEnvs s) as Hc.
  rewrite runCollectionAction_unfold in *.
  destruct (forIterations' iterations 0
              (started workspaceId iterations userUploadEnvs s))
    as [[[]|e] s1] eqn:Hrun;
    apply forIterations_run in Hrun as (_ & infos & _ & Hrest);
    eexists _, _, _; (split; [reflexivity|]); (split; [exact Hc|]); simpl.
  - destruct Hrest as (_ & Hlen). simpl in Hlen.
    rewrite (proj1 (finalized_observations env workspaceId _)). simpl.
    split; [done|]. by intros [].
  - destruct Hrest as (_ & Hlen). simpl in Hlen.
    rewrite (proj1 (finalized_observations env workspaceId _)).
    rewrite (pressed_testCtx _ _ _ (cancelExecution_pressed workspaceId s1)).
    split; [|done]. intros Hplain. by apply caught_not_plain in Hplain.
Qed.
End StoredResults.

(** ** The registry on its own *)

(** Reading the registry after [startExecution] gives the empty string,
    after [updateExecution] the request id, after [stopExecution] nothing;
    none of the three changes what is read for another workspace. *)
Theorem registry_round_trips (workspaceId requestId : jsstring) (s : State) :
  fst (getExecution workspaceId (snd (startExecution workspaceId s))) =
    Normal (Some []) /\
  fst (getExecution workspaceId
         (snd (updateExecution workspaceId requestId s))) =
    Normal (Some requestId) /\
  fst (getExecution workspaceId (snd (stopExecution workspaceId s))) =
    Normal None /\
  (forall other, other <> workspaceId ->
     fst (getExecution other (snd (startExecution workspaceId s))) =
       fst (getExecution other s) /\
     fst (getExecution other (snd (updateExecution workspaceId requestId s))) =
       fst (getExecution other s) /\
     fst (getExecution other (snd (stopExecution workspaceId s))) =
       fst (getExecution other s)).
Proof.
  unfold getExecution, startExecution, updateExecution, stopExecution,
    setRunnerExecutions. simpl.
  rewrite !lookup_insert_eq, lookup_delete_eq. repeat split;
    f_equal; by rewrite ?lookup_insert_ne, ?lookup_delete_ne.
Qed.

(** Pressing cancel a second time, right after the first, does nothing: the
    request cancellation is forwarded and the 'Done' step recorded at most
    once. *)
Theorem cancel_twice_is_cancel_once (workspaceId : jsstring) (s : State) :
  cancelExecution workspaceId (snd (cancelExecution workspaceId s)) =
  (Normal (), snd (cancelExecution workspaceId s)).
Proof.
  rewrite (cancelExecution_run workspaceId s). simpl.
  destruct (truthy (runnerExecutions s !! workspaceId)) eqn:Htruthy;
    rewrite cancelExecution_run; simpl.
  - by rewrite lookup_delete_eq.
  - by rewrite Htruthy.
Qed.

(** ** Per-iteration data over a whole run *)

(** With [N] uploaded rows, the iterations [0 .. N-1] are bound to the rows
    in their order; from iteration [N] on the binding repeats with period
    [N]; and the first iteration past the rows, iteration [N], is bound to
    row 1 (not to row 0) when there are at least two rows. *)
Theorem iteration_data_rows_in_turn (envs : list UserUploadEnvironment) :
  map (getCurIterationUserUploadData (Some envs)) (seq 0 (length envs)) =
    map Some envs /\
  (forall i, length envs <= i ->
     getCurIterationUserUploadData (Some envs) (i + length envs) =
     getCurIterationUserUploadData (Some envs) i) /\
  (2 <= length envs ->
   getCurIterationUserUploadData (Some envs) (length envs) = envs !! 1).
Proof.
  unfold getCurIterationUserUploadData. repeat split.
  - apply list_eq. intros i. rewrite !list_lookup_fmap.
    destruct (decide (i < length envs)) as [Hlt|Hge].
    + rewrite lookup_seq_lt by done. simpl.
      destruct (Nat.ltb_spec 0 (length envs)); [|lia].
      destruct (Nat.leb_spec (i + 1) (length envs)); [|lia].
      by destruct (envs !! i) eqn:Hi; [|apply lookup_ge_None in Hi; lia].
    + rewrite lookup_seq_ge by lia.
      by rewrite lookup_ge_None_2 by lia.
  - intros i Hi.
    destruct (Nat.ltb_spec 0 (length envs)); [|reflexivity].
    destruct (Nat.leb_spec (i + length envs + 1) (length envs)); [lia|].
    destruct (Nat.leb_spec (i + 1) (length envs)); [lia|].
    f_equal. replace (i + length envs + 1) with (i + 1 + 1 * length envs) by lia.
    apply Nat.Div0.mod_add.
  - intros Hlen.
    destruct (Nat.ltb_spec 0 (length envs)); [|lia].
    destruct (Nat.leb_spec (length envs + 1) (length envs)); [lia|].
    f_equal. replace (length envs + 1) with (1 + 1 * length envs) by lia.
    rewrite Nat.Div0.mod_add. apply Nat.mod_small. lia.
Qed.

(** ** Runs over nothing, and the totals of undisturbed runs *)





Section Totals.
Context (env : Environment).
Context (organizationId projectId workspaceId : jsstring).
Context (requests : list RequestType) (iterations delay : nat).
Context (userUploadEnvs : option (list UserUploadEnvironment)).
Hypothesis never_pressed : forall p, workspaceId ∉ cancelClicks env p.
Hypothesis all_resolve : forall i j, resolves env i j.
Hypothesis no_redirect : forall i j, nextOf env i j = [].

Local Abbreviation forRequests' :=
  (forRequests env workspaceId requests iterations delay userUploadEnvs).
Local Abbreviation forIterations' :=
  (forIterations env workspaceId requests iterations delay userUploadEnvs).
Local Abbreviation run' :=
  (runCollectionAction env organizationId projectId workspaceId requests
     iterations delay userUploadEnvs).

Lemma forRequests_totals i rest : forall j res s,
  is_Some (runnerExecutions s !! workspaceId) ->
  is_Some (runnerExecutions (snd (forRequests' i j rest ([], res) s))
           !! workspaceId) /\
  ctx_duration (testCtx (snd (forRequests' i j rest ([], res) s))) =
    addedUp (ctx_duration (testCtx s))
      (imap (fun k _ => durationOf env i (j + k)) rest).
Proof.
  induction rest as [|r rest IH]; intros j res s Halive.
  - split; [exact Halive|]. reflexivity.
  - rewrite forRequests_cons, requestBody_unfold.
    destruct Halive as [active Hactive]. rewrite Hactive, redirectGate_nil.
    destruct (dispatch env workspaceId requests iterations delay
                userUploadEnvs i j r [] res s) as [c1 s1] eqn:Hd.
    apply dispatch_run in Hd as (_ & Hreg & Hd).
    assert (undisturbed env workspaceId i j) as Hund
      by (repeat split; apply never_pressed).
    specialize (Hreg Hund).
    destruct c1 as [[nx1 res1]|e].
    + destruct Hd as (_ & -> & -> & Ht & _). rewrite no_redirect. cbv iota.
      destruct (IH (S j) (res ++ [resultOf env i j r]) s1) as (Halive' & Hdur);
        [by rewrite Hreg|].
      split; [exact Halive'|]. rewrite Hdur, Ht.
      rewrite (imap_offset_cons (fun k (_ : RequestType) => durationOf env i k)).
      reflexivity.
    + exfalso. destruct (all_resolve i j) as (Hm & nx' & rs & dur & rid & Ho).
      destruct Hd as (_ & [(Hf & _)|(_ & Hthrow & _)]); congruence.
Qed.

Lemma addedUp_app total l1 l2 :
  addedUp total (l1 ++ l2) = addedUp (addedUp total l1) l2.
Proof. apply foldl_app. Qed.

Lemma forIterations_totals count : forall i s,
  is_Some (runnerExecutions s !! workspaceId) ->
  ctx_duration (testCtx (snd (forIterations' count i s))) =
    addedUp (ctx_duration (testCtx s))
      (collectedDurations env requests i count) /\
  ctx_responsesInfo (testCtx (snd (forIterations' count i s))) =
    ctx_responsesInfo (testCtx s) ++ collectedInfos env requests i count.
Proof.
  induction count as [|count IH]; intros i s Halive.
  - unfold collectedDurations, collectedInfos. simpl.
    rewrite app_nil_r. split; reflexivity.
  - rewrite forIterations_succ, iterationBody_unfold.
    destruct (forRequests_totals i requests 0 [] s Halive) as (Halive1 & Hdur).
    destruct (forRequests_calm env workspaceId requests iterations delay
                userUploadEnvs never_pressed all_resolve no_redirect
                i requests 0 [] s Halive)
      as (s1 & Hrun & _ & _ & _ & Hinfos).
    rewrite Hrun in *. simpl in Halive1, Hdur.
    set (s2 := {| testCtx := _; runnerExecutions := runnerExecutions s1;
                  effects := effects s1 |}).
    destruct (IH (S i) s2 Halive1) as (Hdur2 & Hinfos2).
    unfold collectedDurations, collectedInfos in *. simpl flat_map.
    rewrite Hdur2, Hinfos2, addedUp_app. subst s2. simpl.
    rewrite Hdur, Hinfos, <- app_assoc. split; reflexivity.
Qed.

(** In a run in which every dispatch resolves, none signals a redirect and
    nobody cancels, the stored [responsesInfo] lists the dispatches
    iteration by iteration in request order, and the stored duration is the
    floating-point sum [1 + d1 + d2 + ..] of the durations the executor
    reported, added from the left in the order of the dispatches: the run
    starts its total at 1, and every addition rounds. *)
Theorem undisturbed_run_totals (s : State) :
  exists doc,
    created (effects (snd (run' s))) = created (effects s) ++ [doc] /\
    doc_responsesInfo doc = collectedInfos env requests 0 iterations /\
    doc_duration doc =
      addedUp 1%float (collectedDurations env requests 0 iterations).
Proof.
  eexists. split; [apply runCollectionAction_created|].
  simpl. rewrite runCollectionAction_unfold.
  destruct (forIterations_totals iterations 0
              (started workspaceId iterations userUploadEnvs s))
    as (Hdur & Hinfos).
  { simpl. rewrite lookup_insert_eq. by eexists. }
  destruct (forIterations_calm env workspaceId requests iterations delay
              userUploadEnvs never_pressed all_resolve no_redirect
              iterations 0 (started workspaceId iterations userUploadEnvs s))
    as (s1 & Hrun & _).
  { simpl. rewrite lookup_insert_eq. by eexists. }
  rewrite Hrun in *. simpl in Hdur, Hinfos. simpl.
  rewrite (proj1 (finalized_observations env workspaceId _)). simpl.
  by rewrite Hdur, Hinfos.
Qed.
End Totals.

(** ** Redirects that point backwards *)

Section BackwardRedirects.
Context (env : Environment).
Context (workspaceId : jsstring).
Context (requests : list RequestType) (iterations delay : nat).
Context (userUploadEnvs : option (list UserUploadEnvironment)).

Local Abbreviation forRequests' :=
  (forRequests env workspaceId requests iterations delay userUploadEnvs).

Lemma rest_passed_over
    (i k : nat) (rk : RequestType) (target nx : jsstring)
    (res : list RunnerResultPerRequest) (s : State)
    (rs : list RequestTestResult) (dur : float) (rid : jsstring) :
  requests !! k = Some rk ->
  is_Some (runnerExecutions s !! workspaceId) ->
  is_Some (redirectGate requests k rk nx) ->
  requestMetaFound env i k = true ->
  sendOutcome env i k = SendReturns (Some target) rs dur rid ->
  target <> [] ->
  (forall p r, k < p -> requests !! p = Some r ->
     redirectMatches requests p r target = false) ->
  exists c s',
    forRequests' i k (drop k requests) (nx, res) s = (c, s') /\
    sentIds (effects s') = sentIds (effects s) ++ [id rk] /\
    (undisturbed env workspaceId i k ->
     c = Normal (target, res ++ [resultOf env i k rk])).
Proof.
  intros Hk Halive Hgate Hmeta Hout Ht Hlater.
  assert (nextOf env i k = target) as Hnext.
  { unfold nextOf. rewrite Hout. by destruct target. }
  destruct (requestBody_executed env workspaceId requests iterations delay
              userUploadEnvs i k rk nx res s Halive Hgate)
    as (s1 & Hrun1 & Hs1 & Hreg1); [split; eauto 10|].
  rewrite Hnext in Hrun1.
  rewrite (drop_S _ _ _ Hk), forRequests_cons, Hrun1.
  destruct (forRequests_skipped_any env workspaceId requests iterations delay
              userUploadEnvs i (drop (S k) requests) (S k) target
              (res ++ [resultOf env i k rk]) s1 Ht) as (c & Hrun & Hc).
  { intros q r Hq. rewrite lookup_drop in Hq. apply (Hlater (S k + q)); [lia|done]. }
  exists c, s1. split; [exact Hrun|]. split; [exact Hs1|].
  intros Hund. apply Hc. rewrite (Hreg1 Hund). by eexists.
Qed.

(** A redirect cannot go back.  When the request ids are pairwise distinct
    and the request executed at index [k] signals the id of a request at an
    index [m <= k] (an earlier request, or itself), while no later request
    has the trimmed target as its trimmed name, no later request of the
    iteration is handed to the executor; unless somebody cancelled during
    the dispatch of [k], the iteration ends normally there. *)
Theorem redirect_backwards_ends_iteration
    (i k m : nat) (rk rm : RequestType) (target nx : jsstring)
    (res : list RunnerResultPerRequest) (s : State)
    (rs : list RequestTestResult) (dur : float) (rid : jsstring) :
  NoDup (map id requests) ->
  requests !! k = Some rk ->
  requests !! m = Some rm ->
  m <= k ->
  is_Some (runnerExecutions s !! workspaceId) ->
  is_Some (redirectGate requests k rk nx) ->
  requestMetaFound env i k = true ->
  sendOutcome env i k = SendReturns (Some target) rs dur rid ->
  target <> [] ->
  id rm = target ->
  (forall p r, k < p -> requests !! p = Some r ->
     trim (name r) <> trim target) ->
  exists c s',
    forRequests' i k (drop k requests) (nx, res) s = (c, s') /\
    sentIds (effects s') = sentIds (effects s) ++ [id rk] /\
    (undisturbed env workspaceId i k ->
     c = Normal (target, res ++ [resultOf env i k rk])).
Proof.
  intros Hnodup Hk Hm Hmk Halive Hgate Hmeta Hout Ht Hid Hnames.
  apply (rest_passed_over i k rk target nx res s rs dur rid); try done.
  intros p r Hp Hr. apply redirectMatches_false; [exact Hr| |].
  - intros Hidr.
    assert (p = m); [|lia].
    eapply (NoDup_lookup (map id requests)); [exact Hnodup| |].
    + rewrite list_lookup_fmap, Hr. simpl. by rewrite Hidr.
    + rewrite list_lookup_fmap, Hm. simpl. by rewrite Hid.
  - intros [Hname _]. by apply (Hnames p r).
Qed.
End BackwardRedirects.

(** ** The test counters of the result pane *)

Lemma foldl_countTestCase l : forall p t,
  foldl countTestCase (p, t) l =
  (p + length (filter (fun x => hasPassed x = true) l), t + length l).
Proof.
  induction l as [|x l IH]; intros p t.
  - simpl. f_equal; lia.
  - change (foldl countTestCase (p, t) (x :: l))
      with (foldl countTestCase (countTestCase (p, t) x) l).
    unfold countTestCase at 2. rewrite IH, filter_cons.
    destruct (decide (hasPassed x = true)) as [Hx|Hx];
      unfold hasPassed in Hx; destruct (status x); try done;
      simpl; f_equal; lia.
Qed.

Lemma foldl_countRequest l : forall p t,
  foldl countRequest (p, t) l =
  (p + length (filter (fun x => hasPassed x = true) (flat_map results l)),
   t + length (flat_map results l)).
Proof.
  induction l as [|r l IH]; intros p t; simpl.
  - f_equal; lia.
  - unfold countRequest at 2. rewrite foldl_countTestCase, IH.
    rewrite filter_app, !length_app. f_equal; lia.
Qed.

Lemma foldl_countIteration l : forall p t,
  foldl countIteration (p, t) l =
  (p + length (filter (fun x => hasPassed x = true)
                 (flat_map results (concat l))),
   t + length (flat_map results (concat l))).
Proof.
  induction l as [|it l IH]; intros p t; simpl.
  - f_equal; lia.
  - unfold countIteration at 2. rewrite foldl_countRequest, IH.
    rewrite flat_map_app, filter_app, !length_app. f_equal; lia.
Qed.

(** While a run is displayed as running, or when no result is displayed,
    both counters are 0.  Otherwise the total is the number of test cases of
    all requests of all iterations of the result and the passed counter is
    the number of those whose status is 'passed'; the passed counter never
    exceeds the total. *)
Theorem test_counters_count
    (isRunning : bool) (executionResult : option RunnerTestResultDoc) :
  let counters := testCounters isRunning executionResult in
  passedTestCount counters <= totalTestCount counters /\
  (isRunning = true \/ executionResult = None ->
   passedTestCount counters = 0 /\ totalTestCount counters = 0) /\
  (forall doc, isRunning = false -> executionResult = Some doc ->
     totalTestCount counters = length (testCases doc) /\
     passedTestCount counters =
       length (filter (fun t => hasPassed t = true) (testCases doc))).
Proof.
  unfold testCounters, testCases.
  destruct isRunning, executionResult as [doc|]; simpl;
    rewrite ?foldl_countIteration; simpl;
    (split; [try lia; apply length_filter|]);
    (split; [intros [|]; (done || (split; reflexivity))|]);
    intros doc' ? [= <-] || intros doc' ?; try done.
Qed.

Lemma filter_all_length {A} (P : A -> Prop) `{forall x, Decision (P x)} (l : list A) :
  length (filter P l) = length l <-> Forall P l.
Proof.
  induction l as [|x l IH]; [by split; constructor|].
  rewrite filter_cons. pose proof (length_filter P l) as Hle.
  destruct (decide (P x)) as [Hx|Hx]; simpl.
  - split.
    + intros [= Hlen]. constructor; [exact Hx|by apply IH].
    + intros Hall. f_equal. apply IH. by inversion Hall.
  - split; [lia|]. intros Hall. by inversion Hall.
Qed.

Lemma testCounters_counts isRunning executionResult :
  totalTestCount (testCounters isRunning executionResult) =
    length (shownTestCases isRunning executionResult) /\
  passedTestCount (testCounters isRunning executionResult) =
    length (filter (fun t => hasPassed t = true)
              (shownTestCases isRunning executionResult)).
Proof.
  unfold testCounters, shownTestCases, testCases.
  destruct isRunning, executionResult as [doc|]; simpl;
    rewrite ?foldl_countIteration; by split.
Qed.

Lemma all_passed_or_not (l : list RequestTestResult) :
  (Forall (fun t => hasPassed t = true) l /\
   ~ Exists (fun t => hasPassed t = false) l)
  \/ (Exists (fun t => hasPassed t = false) l /\
      ~ Forall (fun t => hasPassed t = true) l).
Proof.
  induction l as [|t l [[Hall Hno]|[Hsome Hnot]]].
  - left. split; [constructor|by inversion 1].
  - destruct (hasPassed t) eqn:Ht.
    + left. split; [by constructor|]. inversion 1; congruence.
    + right. split; [by left|]. inversion 1; congruence.
  - right. split; [by right|]. inversion 1; contradiction.
Qed.

(** The tag of the counters is lime exactly when there is at least one test
    case and all have passed, red exactly when some test case has not
    passed, and neutral exactly when there is no test case to show (none
    stored, nothing displayed, or a run in progress). *)
Theorem test_counters_colour
    (isRunning : bool) (executionResult : option RunnerTestResultDoc) :
  let counters := testCounters isRunning executionResult in
  let shown := shownTestCases isRunning executionResult in
  (testResultCountTagColor counters = js "bg-lime-600" <->
   shown <> [] /\ Forall (fun t => hasPassed t = true) shown) /\
  (testResultCountTagColor counters = js "bg-red-600" <->
   Exists (fun t => hasPassed t = false) shown) /\
  (testResultCountTagColor counters = js "bg-[var(--hl-sm)]" <->
   shown = []).
Proof.
  intros counters shown.
  destruct (testCounters_counts isRunning executionResult) as [Htotal Hpassed].
  fold counters shown in Htotal, Hpassed.
  assert (testResultCountTagColor counters =
          if 0 <? totalTestCount counters then
            if passedTestCount counters =? totalTestCount counters
            then js "bg-lime-600" else js "bg-red-600"
          else js "bg-[var(--hl-sm)]") as ->.
  { subst counters. unfold testCounters.
    by destruct (if negb isRunning then _ else _). }
  rewrite Htotal, Hpassed.
  pose proof (filter_all_length (fun t => hasPassed t = true) shown) as Hlen.
  destruct shown as [|t shown'].
  - change (0 <? length []) with false. cbv iota.
    split; [|split].
    + split; [discriminate|]. by intros [? _].
    + split; [discriminate|]. inversion 1.
    + done.
  - change (0 <? length (t :: shown')) with true. cbv iota.
    destruct (all_passed_or_not (t :: shown')) as [[Hall Hno]|[Hsome Hnot]].
    + rewrite (proj2 (Nat.eqb_eq _ _) (proj2 Hlen Hall)).
      split; [|split].
      * by split.
      * split; [discriminate|]. intros Hsome. contradiction.
      * split; discriminate.
    + destruct (Nat.eqb_spec
                  (length (filter (fun t0 => hasPassed t0 = true) (t :: shown')))
                  (length (t :: shown'))) as [Heq|Hne].
      { exfalso. by apply Hnot, Hlen. }
      split; [|split].
      * split; [discriminate|]. intros [_ Hall]. contradiction.
      * by split.
      * split; discriminate.
Qed.

(** ** The merged timelines of the result pane *)

Section TimelineProperties.
Context {Response : Type}.
Context (getById : nat -> jsstring -> option Response).
Context (getTimeline : Response -> list ResponseTimelineEntry).
Context (now : nat -> Z).

Lemma aggregateLoop_groups rest : forall i timelines errors,
  aggregateLoop getById getTimeline now i rest timelines errors =
  (timelines
   ++ concat (imap (fun k info =>
                      timelineGroup getById getTimeline now (i + k) info) rest),
   errors
   ++ concat (imap (fun k info => timelineError getById (i + k) info) rest)).
Proof.
  induction rest as [|info rest IH]; intros i timelines errors.
  - simpl. by rewrite !app_nil_r.
  - rewrite (imap_offset_cons (timelineGroup getById getTimeline now)).
    rewrite (imap_offset_cons (timelineError getById)).
    simpl. unfold timelineGroup at 1, timelineError at 1.
    destruct (getById i (responseId info)) as [resp|]; rewrite IH; simpl.
    + by rewrite <- app_assoc.
    + by rewrite <- app_assoc.
Qed.

Lemma groups_and_errors_count infos : forall i,
  length (filter (fun g => g <> [])
            (imap (fun k info =>
                     timelineGroup getById getTimeline now (i + k) info) infos))
  + length (concat (imap (fun k info => timelineError getById (i + k) info)
                      infos))
  = length infos.
Proof.
  induction infos as [|info infos IH]; intros i; [reflexivity|].
  rewrite (imap_offset_cons (timelineGroup getById getTimeline now)).
  rewrite (imap_offset_cons (timelineError getById)).
  rewrite filter_cons. cbn [concat]. rewrite length_app.
  specialize (IH (S i)).
  destruct (getById i (responseId info)) as [resp|] eqn:Hget.
  - rewrite decide_True by (unfold timelineGroup; by rewrite Hget).
    unfold timelineError at 1. rewrite Hget. simpl in *. lia.
  - rewrite decide_False
      by (unfold timelineGroup; rewrite Hget; intros H; by apply H).
    unfold timelineError at 1. rewrite Hget. simpl in *. lia.
Qed.

(** The merged timeline is made of one group per stored response entry whose
    response is found, in the order of [responsesInfo]: the 'Start of
    request' header of the entry followed by the timeline of its response.
    An entry whose response is not found contributes no line, only one
    console error; there are as many groups and errors together as there
    are entries. *)
Theorem merged_timelines_are_grouped (testResult : RunnerTestResultDoc) :
  aggregateAllTimelines getById getTimeline now testResult =
  (concat (imap (timelineGroup getById getTimeline now)
             (doc_responsesInfo testResult)),
   concat (imap (timelineError getById) (doc_responsesInfo testResult))) /\
  length (filter (fun g => g <> [])
            (imap (timelineGroup getById getTimeline now)
               (doc_responsesInfo testResult)))
  + length (snd (aggregateAllTimelines getById getTimeline now testResult))
  = length (doc_responsesInfo testResult).
Proof.
  unfold aggregateAllTimelines. rewrite aggregateLoop_groups.
  split; [reflexivity|].
  exact (groups_and_errors_count (doc_responsesInfo testResult) 0).
Qed.
End TimelineProperties.

(** ** The request list of the runner pane *)

Lemma getEntityById_foldl collection : forall (m : gmap (list N) Child) k,
  foldl (fun m item => <[model_id (doc item) := item]> m) m collection !! k =
  match last (filter (fun c => model_id (doc c) = k) collection) with
  | Some c => Some c
  | None => m !! k
  end.
Proof.
  induction collection as [|c collection IH]; intros m k; [reflexivity|].
  simpl. rewrite IH, filter_cons.
  destruct (decide (model_id (doc c) = k)) as [<-|Hne].
  - destruct (filter _ collection) as [|c' l] eqn:Hf.
    + simpl. apply lookup_insert_eq.
    + rewrite last_cons_cons, !(last_cons c' l).
      by destruct (last l).
  - destruct (last _); [reflexivity|]. by apply lookup_insert_ne.
Qed.

Lemma omap_pointwise {A B} (f g : A -> option B) (l : list A) :
  (forall x, f x = g x) -> omap f l = omap g l.
Proof.
  intros Hfg. induction l as [|x l IH]; [reflexivity|].
  cbn. by rewrite Hfg, IH.
Qed.

(** An id is resolved to the last item of the collection that carries it. *)
Lemma getEntityById_lookup collection k :
  getEntityById collection !! k =
  last (filter (fun c => model_id (doc c) = k) collection).
Proof.
  unfold getEntityById. rewrite getEntityById_foldl.
  by destruct (last _).
Qed.

Section RequestRowProperties.
Context (isRequest isRequestGroup : Model -> bool).

Lemma mapRows_Normal entities items rows :
  mapRows isRequestGroup entities items = Normal rows ->
  Forall2
    (fun item row =>
       row_id row = model_id (doc item) /\
       row_name row = model_name (doc item) /\
       row_url row = model_url (doc item) /\
       model_method (doc item) = Some (method row) /\
       ancestorNames row = ancestorNamesOf isRequestGroup entities item)
    items rows.
Proof.
  revert rows. induction items as [|item items IH]; intros rows Hrows.
  - injection Hrows as <-. constructor.
  - simpl in Hrows. unfold requestRow in Hrows.
    destruct (model_method (doc item)) as [m|] eqn:Hm; [|discriminate].
    destruct (mapRows isRequestGroup entities items) as [rows'|e];
      [|discriminate].
    injection Hrows as <-. constructor; [by repeat split|by apply IH].
Qed.

Lemma mapRows_Throw entities items :
  (exists e, mapRows isRequestGroup entities items = Throw e) <->
  exists item, item ∈ items /\ model_method (doc item) = None.
Proof.
  induction items as [|item items IH]; simpl.
  - split; [by intros [e ?]|]. intros (item & Hin & _). by inversion Hin.
  - unfold requestRow.
    destruct (model_method (doc item)) as [m|] eqn:Hm.
    + destruct (mapRows isRequestGroup entities items) as [rows'|e].
      * split; [by intros [e ?]|].
        intros (item' & Hin & Hnone).
        apply elem_of_cons in Hin as [->|Hin]; [congruence|].
        destruct (proj2 IH) as [e He]; [by exists item'|discriminate].
      * split; [|by eexists]. intros _.
        destruct (proj1 IH) as (item' & Hin & Hnone); [by eexists|].
        exists item'. split; [by right|done].
    + split; [|by eexists]. intros _. exists item. split; [by left|done].
Qed.

(** The rows of the pane are the request documents of the collection, in
    collection order, each with the id, name, url and method of its
    document: building them fails exactly when some request document has no
    method, and otherwise yields one row per request document. *)
Theorem request_rows_follow_collection (collection : list Child) :
  ((exists e, requestRows isRequest isRequestGroup collection = Throw e) <->
   exists item, item ∈ collection /\ isRequest (doc item) = true /\
                model_method (doc item) = None) /\
  (forall rows,
     requestRows isRequest isRequestGroup collection = Normal rows ->
     Forall2
       (fun item row =>
          row_id row = model_id (doc item) /\
          row_name row = model_name (doc item) /\
          row_url row = model_url (doc item) /\
          model_method (doc item) = Some (method row))
       (filter (fun item => isRequest (doc item) = true) collection) rows /\
     length rows <= length collection).
Proof.
  unfold requestRows. split.
  - rewrite mapRows_Throw. split.
    + intros (item & Hin & Hnone). apply list_elem_of_filter in Hin as [Hreq Hin].
      by exists item.
    + intros (item & Hin & Hreq & Hnone). exists item.
      split; [|done]. by apply list_elem_of_filter.
  - intros rows Hrows. apply mapRows_Normal in Hrows. split.
    + eapply Forall2_impl; [exact Hrows|].
      intros item row (? & ? & ? & ? & _). by repeat split.
    + rewrite <- (Forall2_length _ _ _ Hrows). apply length_filter.
Qed.

(** The folder names shown with a row are found through the ancestor ids of
    its document, in their order: an id is resolved to the last item of the
    collection that carries it, and it contributes the name of that item
    when the item is a request group; ids that resolve to nothing or to
    something else are dropped, and a document without ancestors has no
    folder names. *)
Theorem ancestor_names_are_group_names (collection : list Child) rows :
  requestRows isRequest isRequestGroup collection = Normal rows ->
  Forall2
    (fun item row =>
       ancestorNames row =
       match ancestors item with
       | Some ids =>
           omap
             (fun ancestorId =>
                match last (filter (fun c => model_id (doc c) = ancestorId)
                              collection) with
                | Some ancestor =>
                    if isRequestGroup (doc ancestor)
                    then Some (model_name (doc ancestor))
                    else None
                | None => None
                end)
             ids
       | None => []
       end /\
       forall n, n ∈ ancestorNames row ->
         exists group, group ∈ collection /\
                       isRequestGroup (doc group) = true /\
                       model_name (doc group) = n)
    (filter (fun item => isRequest (doc item) = true) collection) rows.
Proof.
  unfold requestRows. intros Hrows. apply mapRows_Normal in Hrows.
  eapply Forall2_impl; [exact Hrows|].
  intros item row (_ & _ & _ & _ & ->). unfold ancestorNamesOf.
  destruct (ancestors item) as [ids|]; [|split; [done|by inversion 1]].
  split.
  - apply omap_pointwise. intros aid. by rewrite getEntityById_lookup.
  - intros n Hn. apply list_elem_of_omap in Hn as (aid & _ & Hn).
    rewrite getEntityById_lookup in Hn.
    destruct (last _) as [group|] eqn:Hlast; [|discriminate].
    destruct (isRequestGroup (doc group)) eqn:Hgroup; [|discriminate].
    injection Hn as <-. exists group. split; [|done].
    apply last_Some_elem_of in Hlast.
    by apply list_elem_of_filter in Hlast as [_ ?].
Qed.
End RequestRowProperties.

(** ** What the Run button submits *)

Lemma map_id_asRequestType (rows : list RequestRow) :
  map id (map asRequestType rows) = map row_id rows.
Proof. by rewrite map_map. Qed.

Section SelectionProperties.
Context `{Countable NumberKey}.

Local Abbreviation Keys := (gset (@Key NumberKey)).
Local Abbreviation Selection' := (@Selection NumberKey _ _).

Lemma onRun_nothing_selected (items : list RequestRow) :
  onRun items (SelectionKeys (∅ : Keys)) = [].
Proof.
  unfold onRun. simpl. induction items as [|row items IH]; [reflexivity|].
  rewrite filter_cons, decide_False by apply not_elem_of_empty. exact IH.
Qed.

Lemma onRun_all_selected (items : list RequestRow) (keys : Keys) :
  keysOf items ⊆ keys ->
  onRun items (SelectionKeys keys) = items.
Proof.
  unfold onRun, keysOf. simpl. intros Hall.
  induction items as [|row items IH]; [reflexivity|].
  rewrite filter_cons, decide_True.
  - f_equal. apply IH. intros k Hk. apply Hall. simpl.
    apply elem_of_union. by right.
  - apply Hall. simpl. apply elem_of_union. left. by apply elem_of_singleton.
Qed.

(** Of the value ['all'] only its characters are looked up. *)
Lemma onRun_all (items : list RequestRow) :
  onRun items (SelectionAll : Selection') =
  filter (fun item => row_id item = js "a" \/ row_id item = js "l") items.
Proof.
  unfold onRun. simpl. apply list_filter_iff. intros row.
  rewrite elem_of_union, !elem_of_singleton.
  split; (intros [Ha|Hl]; [left|right]); congruence.
Qed.

Lemma size_keysOf (items : list RequestRow) :
  NoDup (map row_id items) ->
  size (keysOf items : Keys) = length items.
Proof.
  intros Hnodup. unfold keysOf. rewrite size_list_to_set.
  - apply length_map.
  - rewrite <- (map_map row_id inl). apply NoDup_fmap_2; [|exact Hnodup].
    intros x y [= ->]. reflexivity.
Qed.

(** The run button submits exactly the rows whose id is in the set copied
    from the selection, in the order in which the list shows them; when the
    rows have pairwise distinct ids, so have the submitted requests.  With
    an empty set of keys it submits nothing, and with a set that holds the
    key of every row it submits the whole list.  With the value ['all'],
    which stands for every row, it looks up the characters of that string
    and submits the rows whose id is 'a' or 'l' only. *)
Theorem run_submits_the_selection
    (items : list RequestRow) (selectedKeys : Selection') :
  onRun items selectedKeys `sublist_of` items /\
  (forall row, row ∈ onRun items selectedKeys <->
     row ∈ items /\ inl (row_id row) ∈ setOfSelection selectedKeys) /\
  (NoDup (map row_id items) ->
   NoDup (map id (map asRequestType (onRun items selectedKeys)))) /\
  onRun items (SelectionKeys (∅ : Keys)) = [] /\
  (forall keys : Keys,
     keysOf items ⊆ keys -> onRun items (SelectionKeys keys) = items) /\
  onRun items (SelectionAll : Selection') =
    filter (fun item => row_id item = js "a" \/ row_id item = js "l") items /\
  ((forall row, row ∈ items ->
      row_id row <> js "a" /\ row_id row <> js "l") ->
   onRun items (SelectionAll : Selection') = []).
Proof.
  split; [apply sublist_filter|].
  split; [intros row; unfold onRun; rewrite list_elem_of_filter; tauto|].
  split.
  { intros Hnodup. rewrite map_id_asRequestType.
    eapply sublist_NoDup; [exact Hnodup|].
    apply (fmap_sublist row_id). apply sublist_filter. }
  split; [apply onRun_nothing_selected|].
  split; [apply onRun_all_selected|].
  split; [apply onRun_all|].
  intros Hids. rewrite onRun_all.
  induction items as [|row items IH]; [reflexivity|].
  rewrite filter_cons, decide_False.
  - apply IH. intros row' Hin. apply Hids. by right.
  - destruct (Hids row) as [Ha Hl]; [by left|]. tauto.
Qed.

(** When the rows have pairwise distinct ids and the selection is a set of
    keys of rows of the list, the toggle clears the selection if every row
    is selected and selects every row otherwise.  For the value ['all'] it
    counts the three characters of the string: it clears the selection when
    the list has exactly three rows, and selects every row, one by one,
    otherwise.  The run button then submits nothing, or the whole list. *)
Theorem toggle_selects_all_or_nothing
    (items : list RequestRow) (selectedKeys : Selection') :
  NoDup (map row_id items) ->
  match selectedKeys with
  | SelectionAll => True
  | SelectionKeys keys => keys ⊆ keysOf items
  end ->
  let cleared :=
    match selectedKeys with
    | SelectionAll => bool_decide (length items = 3)
    | SelectionKeys keys => bool_decide (keys = keysOf items)
    end in
  onToggleSelection items selectedKeys =
    SelectionKeys (if cleared then ∅ else keysOf items) /\
  onRun items (onToggleSelection items selectedKeys) =
    (if cleared then [] else items).
Proof.
  intros Hnodup Hsub cleared.
  assert (onToggleSelection items selectedKeys =
          SelectionKeys (if cleared then ∅ else keysOf items)) as Htoggle.
  { unfold onToggleSelection, cleared.
    destruct selectedKeys as [|keys]; simpl.
    - destruct (decide (3 = length items)) as [Heq|Hne].
      + by rewrite bool_decide_eq_true_2.
      + by rewrite bool_decide_eq_false_2.
    - pose proof (size_keysOf items Hnodup) as Hsize.
      destruct (decide (size keys = length items)) as [Heq|Hne].
      + rewrite bool_decide_eq_true_2; [reflexivity|].
        apply set_subseteq_size_eq; [exact Hsub|]. lia.
      + rewrite bool_decide_eq_false_2; [reflexivity|].
        intros ->. by apply Hne. }
  split; [exact Htoggle|]. rewrite Htoggle.
  destruct cleared.
  - apply onRun_nothing_selected.
  - by apply onRun_all_selected.
Qed.
End SelectionProperties.

Lemma run_submits_the_selection_witness :
  NoDup (map id (map asRequestType
                   (onRun sampleRows
                      (SelectionKeys ({[ inl (js "req_2") ]} : gset (@Key Z)))))).
Proof.
  apply (run_submits_the_selection sampleRows
           (SelectionKeys ({[ inl (js "req_2") ]} : gset (@Key Z)))).
  apply NoDup_cons. split; [|apply NoDup_singleton].
  intros Hin. apply list_elem_of_singleton in Hin. vm_compute in Hin.
  discriminate Hin.
Defined.

Lemma toggle_selects_all_or_nothing_witness :
  let selectedKeys := SelectionKeys ({[ inl (js "req_2") ]} : gset (@Key Z)) in
  let cleared :=
    bool_decide (({[ inl (js "req_2") ]} : gset (@Key Z)) = keysOf sampleRows) in
  onToggleSelection sampleRows selectedKeys =
    SelectionKeys (if cleared then ∅ else keysOf sampleRows) /\
  onRun sampleRows (onToggleSelection sampleRows selectedKeys) =
    (if cleared then [] else sampleRows).
Proof.
  intros selectedKeys.
  apply (toggle_selects_all_or_nothing sampleRows selectedKeys).
  - apply NoDup_cons. split; [|apply NoDup_singleton].
    intros Hin. apply list_elem_of_singleton in Hin. vm_compute in Hin.
    discriminate Hin.
  - intros k Hk. apply elem_of_singleton in Hk as ->. unfold keysOf. simpl.
    apply elem_of_union. right. apply elem_of_union. left.
    by apply elem_of_singleton.
Defined.

(** After everything has been selected at once, the selection is ['all']:
    the run button then submits none of the two rows, and the toggle, which
    should clear the selection, selects the two rows one by one. *)
Example run_after_select_all :
  onRun sampleRows (SelectionAll : @Selection Z _ _) = [] /\
  onToggleSelection sampleRows (SelectionAll : @Selection Z _ _) =
    SelectionKeys (keysOf sampleRows).
Proof. split; reflexivity. Qed.

(** ** Further sample runs *)

Lemma other_workspaces_untouched_witness :
  runnerExecutions
    (snd (runCollectionAction passing org_1 proj_1 wrk_1 [Req1; Req2] 2 0 None
            otherRunning)) !! wrk_2 =
  runnerExecutions otherRunning !! wrk_2.
Proof.
  apply (other_workspaces_untouched passing org_1 proj_1 wrk_1 [Req1; Req2] 2 0
           None wrk_2 otherRunning).
  - vm_compute. discriminate.
  - intros p. simpl. apply not_elem_of_nil.
Defined.

Lemma run_ends_with_Done_witness :
  latestStepName wrk_1
    (effects
       (snd (runCollectionAction failingSecond org_1 proj_1 wrk_1 [Req1; Req2]
               2 0 None idle))) = Some (js "Done").
Proof.
  apply (run_ends_with_Done failingSecond org_1 proj_1 wrk_1 [Req1; Req2] 2 0 None).
  intros r Hr.
  apply elem_of_cons in Hr as [->|Hr]; [vm_compute; discriminate|].
  apply list_elem_of_singleton in Hr as ->. vm_compute. discriminate.
Defined.

Lemma failed_run_clears_entry_witness :
  runnerExecutions
    (snd (runCollectionAction failingSecond org_1 proj_1 wrk_1 [Req1; Req2]
            2 0 None idle)) !! wrk_1 = None.
Proof.
  apply (failed_run_clears_entry failingSecond org_1 proj_1 wrk_1 [Req1; Req2]
           2 0 None)
    with (s := idle)
         (response := redirect org_1 proj_1 wrk_1
                         (Some (js "connect%20ECONNREFUSED"))).
  - intros r Hr.
    apply elem_of_cons in Hr as [->|Hr]; [vm_compute; discriminate|].
    apply list_elem_of_singleton in Hr as ->. vm_compute. discriminate.
  - vm_compute. reflexivity.
  - simpl. discriminate.
Defined.

Lemma undisturbed_run_totals_witness :
  exists doc,
    created
      (effects
         (snd (runCollectionAction passing org_1 proj_1 wrk_1 [Req1; Req2] 2 0
                 None idle))) = created (effects idle) ++ [doc] /\
    doc_responsesInfo doc = collectedInfos passing [Req1; Req2] 0 2 /\
    doc_duration doc =
      addedUp 1%float (collectedDurations passing [Req1; Req2] 0 2).
Proof.
  apply (undisturbed_run_totals passing org_1 proj_1 wrk_1 [Req1; Req2] 2 0 None).
  - intros p. simpl. apply not_elem_of_nil.
  - intros i j. split; [reflexivity|]. simpl. eauto 10.
  - intros i j. reflexivity.
Defined.

(** Two iterations over two requests that each report 12 ms are stored with
    a duration of 49. *)
Example two_by_two_duration :
  exists doc,
    created
      (effects
         (snd (runCollectionAction passing org_1 proj_1 wrk_1 [Req1; Req2] 2 0
                 None idle))) = [doc] /\
    doc_duration doc = 49%float.
Proof. eexists. vm_compute. split; reflexivity. Qed.

(** The additions round: after one dispatch that reports [2^53] ms the
    stored duration is [2^53], the 1 the total started with is gone. *)
Example huge_duration_absorbs_the_start :
  exists doc,
    created
      (effects
         (snd (runCollectionAction reportingHuge org_1 proj_1 wrk_1 [Req1] 1 0
                 None idle))) = [doc] /\
    doc_duration doc = 9007199254740992%float.
Proof. eexists. vm_compute. split; reflexivity. Qed.

Lemma redirect_backwards_ends_iteration_witness :
  let env := redirectingFirst (js "req_1") in
  let s := started wrk_1 1 None idle in
  exists c s',
    forRequests env wrk_1 threeRequests 1 0 None 0 0 (drop 0 threeRequests)
      ([], []) s = (c, s') /\
    sentIds (effects s') = sentIds (effects s) ++ [js "req_1"] /\
    (undisturbed env wrk_1 0 0 ->
     c = Normal (js "req_1", [] ++ [resultOf env 0 0 (request "Login" "req_1")])).
Proof.
  intros env s.
  apply (redirect_backwards_ends_iteration env wrk_1 threeRequests 1 0 None
           0 0 0 (request "Login" "req_1") (request "Login" "req_1")
           (js "req_1") [] [] s [] 12%float (js "res_1")).
  - apply (bool_decide_unpack (NoDup (map id threeRequests))).
    vm_compute. exact I.
  - reflexivity.
  - reflexivity.
  - lia.
  - vm_compute. eauto.
  - vm_compute. eauto.
  - reflexivity.
  - reflexivity.
  - discriminate.
  - reflexivity.
  - intros p r Hp Hr.
    destruct p as [|[|[|p]]]; [lia| | |discriminate Hr];
      injection Hr as <-; vm_compute; discriminate.
Defined.

Lemma ancestor_names_are_group_names_witness :
  Forall2
    (fun item row =>
       ancestorNames row =
       match ancestors item with
       | Some ids =>
           omap
             (fun ancestorId =>
                match last (filter (fun c => model_id (doc c) = ancestorId)
                              sampleCollection) with
                | Some ancestor =>
                    if negb (hasMethod (doc ancestor))
                    then Some (model_name (doc ancestor))
                    else None
                | None => None
                end)
             ids
       | None => []
       end /\
       forall n, n ∈ ancestorNames row ->
         exists group, group ∈ sampleCollection /\
                       negb (hasMethod (doc group)) = true /\
                       model_name (doc group) = n)
    (filter (fun item => hasMethod (doc item) = true) sampleCollection)
    sampleRows.
Proof.
  apply (ancestor_names_are_group_names hasMethod (fun m => negb (hasMethod m))
           sampleCollection sampleRows).
  vm_compute. reflexivity.
Defined.

(** The rows built from the sample collection: the folder gives no row, the
    unknown ancestor of the first request is dropped. *)
Example sample_request_rows :
  requestRows hasMethod (fun m => negb (hasMethod m)) sampleCollection =
  Normal sampleRows.
Proof. vm_compute. reflexivity. Qed.

(** ** Cancelling while a request is in flight *)

Lemma cancelExecution_removes w s :
  truthy (runnerExecutions s !! w) = true ->
  runnerExecutions (snd (cancelExecution w s)) !! w = None.
Proof.
  intros Htruthy. rewrite cancelExecution_run, Htruthy. simpl.
  apply lookup_delete_eq.
Qed.

Lemma forEach_cancelExecution_removes w clicks : forall s,
  w ∈ clicks ->
  (runnerExecutions s !! w = None \/ truthy (runnerExecutions s !! w) = true) ->
  runnerExecutions (snd (forEach cancelExecution clicks s)) !! w = None.
Proof.
  induction clicks as [|w' clicks IH]; intros s Hin Hs; [by inversion Hin|].
  simpl. rewrite bind_run.
  pose proof (cancelExecution_pressed w' s) as Hp.
  pose proof (cancelExecution_removes w' s) as Hrm.
  destruct (cancelExecution w' s) as [[[]|e] s1] eqn:Hc;
    [|by rewrite cancelExecution_run in Hc].
  simpl in *.
  destruct (decide (w' = w)) as [-> | Hne].
  - assert (runnerExecutions s1 !! w = None) as Hnone.
    { destruct Hs as [Hnone|Htruthy]; [|by apply Hrm].
      by apply (pressed_absent _ _ _ Hp). }
    destruct (forEach_cancelExecution clicks s1) as (s2 & -> & Hp2).
    by apply (pressed_absent _ _ _ Hp2).
  - apply IH.
    + apply elem_of_cons in Hin as [-> | Hin]; [done|exact Hin].
    + rewrite (pressed_other _ _ _ Hp)
        by (apply not_elem_of_cons; split; [done|apply not_elem_of_nil]).
      exact Hs.
Qed.

Section CancelInFlight.
Context (env : Environment).
Context (organizationId projectId workspaceId : jsstring).
Context (requests : list RequestType) (iterations delay : nat).
Context (userUploadEnvs : option (list UserUploadEnvironment)).

Local Abbreviation dispatch' :=
  (dispatch env workspaceId requests iterations delay userUploadEnvs).
Local Abbreviation requestBody' :=
  (requestBody env workspaceId requests iterations delay userUploadEnvs).
Local Abbreviation forRequests' :=
  (forRequests env workspaceId requests iterations delay userUploadEnvs).
Local Abbreviation forIterations' :=
  (forIterations env workspaceId requests iterations delay userUploadEnvs).
Local Abbreviation reachIteration' :=
  (reachIteration env workspaceId requests iterations delay userUploadEnvs).
Local Abbreviation reachRequest' :=
  (reachRequest env workspaceId requests iterations delay userUploadEnvs).
Local Abbreviation run' :=
  (runCollectionAction env organizationId projectId workspaceId requests
     iterations delay userUploadEnvs).

Lemma awaited_removes p s :
  workspaceId ∈ cancelClicks env p ->
  (runnerExecutions s !! workspaceId = None
   \/ truthy (runnerExecutions s !! workspaceId) = true) ->
  runnerExecutions (awaited env p s) !! workspaceId = None.
Proof. apply forEach_cancelExecution_removes. Qed.

Lemma awaited_absent p s :
  runnerExecutions s !! workspaceId = None ->
  runnerExecutions (awaited env p s) !! workspaceId = None.
Proof. apply (pressed_absent _ _ _ (awaited_pressed env p s)). Qed.

Lemma awaited_gone_or_same p s :
  runnerExecutions (awaited env p s) !! workspaceId = None
  \/ runnerExecutions (awaited env p s) !! workspaceId =
     runnerExecutions s !! workspaceId.
Proof.
  apply (forEach_cancelExecution_preserves
           (fun s' => runnerExecutions s' !! workspaceId = None
                      \/ runnerExecutions s' !! workspaceId =
                         runnerExecutions s !! workspaceId)); [|by right].
  intros w s1 Hs1. rewrite cancelExecution_run. simpl.
  destruct (truthy (runnerExecutions s1 !! w)); [|exact Hs1]. simpl.
  destruct (decide (w = workspaceId)) as [-> | Hne].
  - left. apply lookup_delete_eq.
  - by rewrite lookup_delete_ne.
Qed.

(** A press of the cancel button at one of the awaits of a dispatch whose
    request has an id, and whose request meta is found, leaves no entry at
    the end of the dispatch, while the request is still handed to the
    executor. *)
Lemma dispatch_cancelled i j r nx res s p :
  id r <> [] ->
  requestMetaFound env i j = true ->
  p ∈ awaitsOfDispatch i j ->
  workspaceId ∈ cancelClicks env p ->
  runnerExecutions (snd (dispatch' i j r nx res s)) !! workspaceId = None /\
  sentIds (effects (snd (dispatch' i j r nx res s))) =
    sentIds (effects s) ++ [id r].
Proof.
  intros Hid Hmeta Hp Hpress.
  destruct (dispatch' i j r nx res s) as [c s'] eqn:Hd.
  pose proof Hd as Hrun. apply dispatch_run in Hrun as (_ & _ & Hrun).
  split.
  2:{ simpl. destruct c as [[nx' res']|e].
      - by destruct Hrun as (_ & _ & _ & _ & ?).
      - destruct Hrun as (_ & [(Hf & _)|(_ & _ & ?)]); [congruence|done]. }
  rewrite dispatch_unfold in Hd. cbv zeta in Hd. rewrite Hmeta in Hd.
  set (s1 := logged (logged _ _) _) in Hd.
  set (s2 := awaited env (AwaitRequestMeta i j) s1) in Hd.
  set (s3 := awaited env (AwaitDelay i j) (logged s2 (SetTimeout delay))) in Hd.
  set (send := SendActionImp _) in Hd.
  set (s4 := awaited env (AwaitSend i j) (logged s3 send)) in Hd.
  assert (runnerExecutions s1 !! workspaceId = Some (id r)) as H1
    by (simpl; apply lookup_insert_eq).
  assert (forall v, v = None \/ v = Some (id r) ->
                    v = None \/ truthy v = true) as Hstate.
  { intros v [-> | ->]; [by left|right; by apply truthy_Some]. }
  assert (runnerExecutions s2 !! workspaceId = None
          \/ runnerExecutions s2 !! workspaceId = Some (id r)) as H2.
  { destruct (awaited_gone_or_same (AwaitRequestMeta i j) s1) as [?|Hsame];
      [by left|right; by rewrite <- H1]. }
  assert (runnerExecutions s3 !! workspaceId = None
          \/ runnerExecutions s3 !! workspaceId = Some (id r)) as H3.
  { destruct (awaited_gone_or_same (AwaitDelay i j) (logged s2 (SetTimeout delay)))
      as [?|Hsame]; [by left|]. fold s3 in Hsame. by rewrite Hsame. }
  assert (runnerExecutions s4 !! workspaceId = None) as H4.
  { unfold awaitsOfDispatch in Hp.
    apply elem_of_cons in Hp as [-> | Hp].
    { assert (runnerExecutions s2 !! workspaceId = None) as Hn2
        by (apply awaited_removes; [exact Hpress|apply Hstate; by right]).
      apply awaited_absent. simpl. apply awaited_absent. exact Hn2. }
    apply elem_of_cons in Hp as [-> | Hp].
    { apply awaited_absent. simpl.
      apply awaited_removes; [exact Hpress|]. simpl. by apply Hstate. }
    apply list_elem_of_singleton in Hp as ->.
    apply awaited_removes; [exact Hpress|]. simpl. by apply Hstate. }
  destruct (sendOutcome env i j); injection Hd as <- <-; exact H4.
Qed.

(** Once the entry of the workspace is gone, the loops dispatch nothing. *)
Lemma forRequests_stopped i rest j locals s :
  runnerExecutions s !! workspaceId = None ->
  snd (forRequests' i j rest locals s) = s.
Proof.
  intros Hgone. destruct rest as [|r rest]; [reflexivity|].
  destruct locals as [nx res].
  by rewrite forRequests_cons, requestBody_unfold, Hgone.
Qed.

Lemma forIterations_stopped count : forall i s,
  runnerExecutions s !! workspaceId = None ->
  sentIds (effects (snd (forIterations' count i s))) = sentIds (effects s).
Proof.
  induction count as [|count IH]; intros i s Hgone; [reflexivity|].
  rewrite forIterations_succ, iterationBody_unfold.
  pose proof (forRequests_stopped i requests 0 ([], []) s Hgone) as Hsame.
  destruct (forRequests' i 0 requests ([], []) s) as [[[nx res]|e] s1];
    simpl in Hsame; subst s1; [|reflexivity].
  by rewrite IH.
Qed.

Lemma run_sends_what_its_loops_send s :
  sentIds (effects (snd (run' s))) =
  sentIds (effects (snd (forIterations' iterations 0
                           (started workspaceId iterations userUploadEnvs s)))).
Proof.
  rewrite runCollectionAction_unfold.
  destruct (forIterations' iterations 0
              (started workspaceId iterations userUploadEnvs s))
    as [[[]|e] s1]; simpl.
  - rewrite (proj2 (proj2 (finalized_observations env workspaceId _))).
    simpl. rewrite !sentIds_app. simpl. by rewrite !app_nil_r.
  - rewrite (proj2 (proj2 (finalized_observations env workspaceId _))).
    apply (pressed_sentIds _ _ _ (cancelExecution_pressed workspaceId s1)).
Qed.

(** When the cancel button is pressed for the workspace at one of the awaits
    of a dispatch (for the request meta, for the delay, or for the executor)
    whose request has a non-empty id and whose meta is found, that request
    is still handed to the executor, and it is the last one of the run. *)
Theorem cancel_in_flight_stops_after_request
    (i j : nat) (r : RequestType) (nx : jsstring)
    (res : list RunnerResultPerRequest) (s sI s1 : State) (p : AwaitPoint) :
  i < iterations ->
  requests !! j = Some r ->
  reachIteration' i s = (Normal (), sI) ->
  reachRequest' i j sI = (Normal (nx, res), s1) ->
  is_Some (runnerExecutions s1 !! workspaceId) ->
  is_Some (redirectGate requests j r nx) ->
  id r <> [] ->
  requestMetaFound env i j = true ->
  p ∈ awaitsOfDispatch i j ->
  workspaceId ∈ cancelClicks env p ->
  sentIds (effects (snd (run' s))) = sentIds (effects s1) ++ [id r].
Proof.
  intros Hi Hj HI HR [active Hactive] [nx0 Hgate] Hid Hmeta Hp Hpress.
  rewrite run_sends_what_its_loops_send.
  rewrite reachIteration_unfold in HI. unfold reachRequest in HR.
  replace iterations with (i + S (iterations - S i)) at 2 by lia.
  rewrite forIterations_add, HI, forIterations_succ, iterationBody_unfold.
  pose proof (forRequests_app env workspaceId requests iterations delay
                userUploadEnvs i 0 (take j requests) (drop j requests)
                ([], []) sI) as Happ.
  pose proof (lookup_lt_Some _ _ _ Hj) as Hlt.
  rewrite take_drop, HR, length_take, Nat.add_0_l, Nat.min_l in Happ by lia.
  rewrite (drop_S _ _ _ Hj), forRequests_cons, requestBody_unfold,
    Hactive, Hgate in Happ.
  destruct (dispatch_cancelled i j r nx0 res s1 p Hid Hmeta Hp Hpress)
    as [Hgone Hsent].
  simpl. rewrite Happ.
  destruct (dispatch' i j r nx0 res s1) as [[locals2|e] s2]; simpl in *;
    [|exact Hsent].
  pose proof (forRequests_stopped i (drop (S j) requests) (S j) locals2 s2 Hgone)
    as Hsame.
  destruct (forRequests' i (S j) (drop (S j) requests) locals2 s2)
    as [[[nx3 res3]|e] s3]; simpl in Hsame; subst s3; [|exact Hsent].
  rewrite forIterations_stopped by exact Hgone. exact Hsent.
Qed.
End CancelInFlight.

(** ** Independence of what earlier runs left behind *)

(** A run starts by overwriting the entry of its workspace and its own
    [testCtx]: from two states with the same effect log and the same entries
    for all other workspaces it returns the same response in the same
    state, whatever an earlier run of the workspace left in the registry. *)
Theorem leftover_entry_does_not_matter
    (env : Environment) (organizationId projectId workspaceId : jsstring)
    (requests : list RequestType) (iterations delay : nat)
    (userUploadEnvs : option (list UserUploadEnvironment)) (s s' : State) :
  effects s = effects s' ->
  (forall other, other <> workspaceId ->
     runnerExecutions s !! other = runnerExecutions s' !! other) ->
  runCollectionAction env organizationId projectId workspaceId requests
    iterations delay userUploadEnvs s =
  runCollectionAction env organizationId projectId workspaceId requests
    iterations delay userUploadEnvs s'.
Proof.
  intros Heffects Hothers. rewrite !runCollectionAction_unfold.
  assert (started workspaceId iterations userUploadEnvs s =
          started workspaceId iterations userUploadEnvs s') as ->;
    [|reflexivity].
  unfold started. rewrite Heffects. f_equal.
  apply map_eq. intros k. destruct (decide (k = workspaceId)) as [-> | Hne].
  - by rewrite !lookup_insert_eq.
  - rewrite !lookup_insert_ne by done. by apply Hothers.
Qed.

Lemma cancel_in_flight_stops_after_request_witness :
  sentIds (effects (snd (runCollectionAction cancelledDuringDelay org_1 proj_1
                           wrk_1 [Req1; Req2] 2 0 None idle))) =
  sentIds (effects (started wrk_1 2 None idle)) ++ [id Req1].
Proof.
  apply (cancel_in_flight_stops_after_request cancelledDuringDelay org_1 proj_1
           wrk_1 [Req1; Req2] 2 0 None 0 0 Req1 [] [] idle
           (started wrk_1 2 None idle) (started wrk_1 2 None idle)
           (AwaitDelay 0 0)).
  - lia.
  - reflexivity.
  - vm_compute. reflexivity.
  - vm_compute. reflexivity.
  - vm_compute. eexists. reflexivity.
  - vm_compute. eexists. reflexivity.
  - vm_compute. discriminate.
  - reflexivity.
  - apply elem_of_cons. right. apply elem_of_cons. by left.
  - apply elem_of_cons. by left.
Defined.

(** A press during the delay does not hold back the request that is waiting
    for it: of four dispatches planned, exactly the first is made. *)
Example cancelled_during_delay_still_sends :
  sentIds (effects (snd (runCollectionAction cancelledDuringDelay org_1 proj_1
                           wrk_1 [Req1; Req2] 2 0 None idle))) = [js "r1"].
Proof. vm_compute. reflexivity. Qed.

Lemma leftover_entry_does_not_matter_witness :
  runCollectionAction passing org_1 proj_1 wrk_1 [Req1; Req2] 2 0 None idle =
  runCollectionAction passing org_1 proj_1 wrk_1 [Req1; Req2] 2 0 None
    {| testCtx := initialTestCtx 7 None;
       runnerExecutions := {[ wrk_1 := js "r2" ]};
       effects := [] |}.
Proof.
  apply leftover_entry_does_not_matter.
  - reflexivity.
  - intros other Hother. simpl.
    by rewrite lookup_empty, lookup_singleton_ne.
Defined.

(** The id of the request is what marks a run as active: when the executor
    throws on a request whose id is empty, the stop request is ignored, so
    the entry of the workspace stays and the step name is never set to
    'Done'. *)
Example failure_on_request_without_id :
  let s' := snd (runCollectionAction failingFirst org_1 proj_1 wrk_1
                   [unsavedRequest] 1 0 None idle) in
  runnerExecutions s' !! wrk_1 = Some [] /\
  latestStepName wrk_1 (effects s') <> Some (js "Done").
Proof. vm_compute. split; [reflexivity|discriminate]. Qed.

(** ** What the finalization step persists *)

Section Persisted.
Context (env : Environment).
Context (organizationId projectId workspaceId : jsstring).
Context (requests : list RequestType) (iterations delay : nat).
Context (userUploadEnvs : option (list UserUploadEnvironment)).

Local Abbreviation run' :=
  (runCollectionAction env organizationId projectId workspaceId requests
     iterations delay userUploadEnvs).


End Persisted.


Example failed_run_document :
  exists doc,
    created
      (effects
         (snd (runCollectionAction failingSecond org_1 proj_1 wrk_1
                 [Req1; Req2] 1 0 None idle))) = [doc] /\
    doc_iterationResults doc = [] /\
    map originalRequestName (doc_responsesInfo doc) = [js "Req1"] /\
    doc_duration doc = 13%float.
Proof. eexists. vm_compute. repeat split. Qed.
